(** * ztf_sim: the queue scheduler and the observing loop

    A shallow embedding of [ztf_sim/Scheduler.py] (class [Scheduler]) and of
    the driver loop of [ztf_sim/observe.py] (function [observe]), with the
    properties of the registry of queues, of the nightly bookkeeping and of
    the failure handling of the loop.

    Conventions of the embedding:
    - a Python dict that is iterated (the registry [self.queues]) is an
      association list in insertion order, see [Module OrderedDict];
      the tally of [count_timed_observations_tonight], which is only looked
      up, is a [gmap];
    - a method of [Scheduler] is a computation in the monad [M]: it reads and
      writes the interpreter state and either returns or raises;
    - queue objects are compared by identity in Python; every
      [QueueManager] carries its identity [oid];
    - pandas tables live in a heap of frames and are reached by reference, so
      that [DataFrame.copy()] and the column assignments that follow it are
      writes to a fresh cell;
    - times are Modified Julian Dates, floats in the source and exact
      rationals ([Qc]) here;
    - the float cells of the request tables are rationals too, and the
      float64 and int64 arithmetic of numpy and pandas on them is kept
      abstract, see [Float64]. *)

From Stdlib Require Import QArith Qcanon Qround.
From stdpp Require Import base list strings gmap numbers.

#[local] Open Scope string_scope.
#[local] Open Scope list_scope.
#[local] Open Scope Z_scope.

(** ** Insertion-ordered dictionaries *)

Module OrderedDict.
Section Dict.
Context {V : Type}.

(** [d[k]], [None] standing for the [KeyError]. *)
Fixpoint get (k : string) (d : list (string * V)) : option V :=
  match d with
  | [] => None
  | (k', v) :: rest => if String.eqb k k' then Some v else get k rest
  end.

(** [k in d]. *)
Definition mem (k : string) (d : list (string * V)) : bool :=
  match get k d with Some _ => true | None => false end.

(** [d[k] = v]: an existing key keeps its position, a new one goes last. *)
Fixpoint set (k : string) (v : V) (d : list (string * V)) : list (string * V) :=
  match d with
  | [] => [(k, v)]
  | (k', v') :: rest =>
      if String.eqb k k' then (k, v) :: rest else (k', v') :: set k v rest
  end.

(** [del d[k]], for a key that is present. *)
Fixpoint del (k : string) (d : list (string * V)) : list (string * V) :=
  match d with
  | [] => []
  | (k', v') :: rest =>
      if String.eqb k k' then rest else (k', v') :: del k rest
  end.

Definition keys (d : list (string * V)) : list string := d.*1.
Definition values (d : list (string * V)) : list V := d.*2.

(** The representation invariant of a dict: no key occurs twice. *)
Definition wf (d : list (string * V)) : Prop := NoDup (keys d).
End Dict.
End OrderedDict.

Module OD := OrderedDict.

(** ** Data *)

(** An [astropy] [Time], as its Modified Julian Date. *)
Definition Time : Type := Qc.

(** [np.floor(t.mjd).astype(int)] *)
Definition mjd_floor (t : Time) : Z := Qfloor t.

(** [Time(mjd, format='mjd')] for an integral [mjd]. *)
Definition Time_of_mjd (mjd : Z) : Time := Qc_of_Z mjd.

(** One row of a table of pending requests. The cells [n_repeats] and
    [total_time] are meaningful only in a table that has the column. *)
Record Row : Type := mkRow {
  request_id : Z;
  program_id : Z;
  exposure_time : Qc;
  n_repeats : Qc;
  total_time : Qc
}.

(** A pandas [DataFrame] of requests: its rows, and which of the optional
    columns it has. *)
Record DataFrame : Type := mkDataFrame {
  has_n_repeats : bool;
  has_total_time : bool;
  rows : list Row
}.

Definition empty_frame : DataFrame := mkDataFrame false false [].

(** A reference to a frame of the heap. *)
Definition fref : Type := nat.

(** A queue object, as far as [Scheduler] looks at it: its attributes, and
    the results of its methods [is_valid(time_now)] and
    [valid_blocks(complete_only)]. The class is in [QueueManager.py]. *)
Record QueueManager : Type := mkQueue {
  oid : nat;
  queue_name : string;
  queue_type : string;
  validity_window : option (Time * Time);
  is_TOO : bool;
  queue : fref;
  requests_in_window : bool;
  is_valid : Time -> bool;
  valid_blocks : bool -> list Z
}.
Arguments mkQueue oid%_nat queue_name%_string queue_type%_string
  validity_window is_TOO queue%_nat requests_in_window is_valid valid_blocks.

(** The state a [Scheduler] method runs in: the three attributes of [self]
    that the methods below use, and the frames that exist. *)
Record State : Type := mkState {
  queues : list (string * QueueManager);
  Q : QueueManager;
  timed_queues_tonight : list string;
  heap : list DataFrame
}.

Definition with_queues (d : list (string * QueueManager)) (st : State) : State :=
  mkState d (Q st) (timed_queues_tonight st) (heap st).
Definition with_Q (q : QueueManager) (st : State) : State :=
  mkState (queues st) q (timed_queues_tonight st) (heap st).
Definition with_timed (l : list string) (st : State) : State :=
  mkState (queues st) (Q st) l (heap st).
Definition with_heap (h : list DataFrame) (st : State) : State :=
  mkState (queues st) (Q st) (timed_queues_tonight st) h.

(** The frame a reference points to. *)
Definition deref (h : list DataFrame) (r : fref) : DataFrame :=
  default empty_frame (h !! r).

(** [len(qq.queue)] *)
Definition queue_len (st : State) (qq : QueueManager) : nat :=
  length (rows (deref (heap st) (queue qq))).

(** ** The monad of methods *)

Inductive exn : Type :=
| ValueError (msg : string)
| KeyError (key : string)
| KeyErrorZ (key : Z).

Inductive result (A : Type) : Type :=
| Ok (a : A)
| Raise (e : exn).
Arguments Ok {A} a.
Arguments Raise {A} e.

(** A computation returns or raises, and leaves a state in both cases. *)
Definition M (A : Type) : Type := State -> result A * State.

Definition ret {A} (a : A) : M A := fun st => (Ok a, st).
Definition raise {A} (e : exn) : M A := fun st => (Raise e, st).
Definition bind {A B} (m : M A) (k : A -> M B) : M B :=
  fun st =>
    match m st with
    | (Ok a, st') => k a st'
    | (Raise e, st') => (Raise e, st')
    end.
Definition gets {A} (f : State -> A) : M A := fun st => (Ok (f st), st).
Definition modify (f : State -> State) : M unit := fun st => (Ok tt, f st).

Declare Scope py_scope.
Delimit Scope py_scope with py.
Notation "'let*' x ':=' m 'in' k" := (bind m (fun x => k))
  (at level 10, x name, m at level 100, k at level 200) : py_scope.
Notation "'do' m 'then' k" := (bind m (fun _ => k))
  (at level 10, m at level 100, k at level 200) : py_scope.
#[local] Open Scope py_scope.

(** [for x in l: body(x)] *)
Fixpoint for_each {A} (l : list A) (body : A -> M unit) : M unit :=
  match l with
  | [] => ret tt
  | x :: rest => do body x then for_each rest body
  end.

(** [for x in l: acc = body(x, acc)], for a loop that updates a local. *)
Fixpoint for_fold {A B} (l : list A) (acc : B) (body : A -> B -> M B) : M B :=
  match l with
  | [] => ret acc
  | x :: rest => let* acc' := body x acc in for_fold rest acc' body
  end.

(** ** The registry: [set_queue], [add_queue], [delete_queue] *)

(** The three [ValueError]s of the registry. *)
Definition not_available (queue_name : string) : exn :=
  ValueError ("Requested queue " ++ queue_name ++ " not available!")%string.
Definition already_exists (queue_name : string) : exn :=
  ValueError ("Queue " ++ queue_name ++ " already exists!")%string.
Definition does_not_exist (queue_name : string) : exn :=
  ValueError ("Queue " ++ queue_name ++ " does not exist!")%string.

Definition set_queue (queue_name : string) : M unit :=
  let* qs := gets queues in
  match OD.get queue_name qs with
  | None => raise (not_available queue_name)
  | Some q => modify (with_Q q)
  end.

Definition add_queue (queue_name : string) (queue : QueueManager)
    (clobber : bool) : M unit :=
  let* qs := gets queues in
  if clobber || negb (OD.mem queue_name qs)
  then modify (with_queues (OD.set queue_name queue qs))
  else raise (already_exists queue_name).

Definition delete_queue (name : string) : M unit :=
  let* qs := gets queues in
  if OD.mem name qs then
    let* active := gets Q in
    do (if String.eqb (queue_name active) name
        then set_queue "default" else ret tt) then
    let* qs' := gets queues in
    modify (with_queues (OD.del name qs'))
  else raise (does_not_exist name).

(** A call of one of the three, and a sequence of calls made one after the
    other by a caller that catches the [ValueError] of a call and goes on. *)
Inductive op : Type :=
| SetActive (name : string)
| Add (name : string) (q : QueueManager) (clobber : bool)
| Remove (name : string).

Definition run_op (o : op) : M unit :=
  match o with
  | SetActive name => set_queue name
  | Add name q clobber => add_queue name q clobber
  | Remove name => delete_queue name
  end.

(** The state a computation leaves. *)
Definition exec {A} (m : M A) (st : State) : State := (m st).2.

Fixpoint run_ops (ops : list op) (st : State) : State :=
  match ops with
  | [] => st
  | o :: rest => run_ops rest (exec (run_op o) st)
  end.

(** ** The nightly bookkeeping and the switches *)

(** The times of the request tables are float64 numbers. A float is
    represented by a rational number, a finite float by its value. The
    arithmetic of numpy and pandas on floats is not the arithmetic of the
    rationals: results are rounded, they overflow, and the conversion to
    [int] wraps around in 64 bits. The operations are therefore the fields
    of a record, of which nothing is assumed: an instance decides how they
    round, and which rationals stand for the values that are not finite. *)
Record Float64 : Type := mkFloat64 {
  (** [x + y] and [x * y] and [x / y] on float64 *)
  f_add : Qc -> Qc -> Qc;
  f_mul : Qc -> Qc -> Qc;
  f_div : Qc -> Qc -> Qc;
  (** the sum of the values of one group, in the order of the rows, as
      [groupby(...).agg(np.sum)] computes it *)
  f_sum : list Qc -> Qc;
  (** [np.round(x)], a float *)
  np_round : Qc -> Qc;
  (** [x.astype(int)], an int64; [None] for a value that pandas refuses
      to convert, as it does with the values that are not finite *)
  astype_int : Qc -> option Z
}.

(** [df.copy()]: a new frame with the contents of the old one. *)
Definition df_copy (r : fref) : M fref :=
  let* h := gets heap in
  do modify (with_heap (h ++ [deref h r])) then
  ret (length h).

Definition df_read (r : fref) : M DataFrame :=
  gets (fun st => deref (heap st) r).

Definition df_write (r : fref) (df : DataFrame) : M unit :=
  modify (fun st => with_heap (<[r := df]> (heap st)) st).

(** [df['n_repeats'] = v] *)
Definition assign_n_repeats (v : Qc) (df : DataFrame) : DataFrame :=
  mkDataFrame true (has_total_time df)
    ((fun r => mkRow (request_id r) (program_id r) (exposure_time r) v
                 (total_time r)) <$> rows df).

(** [df['total_time'] = f(row)], row by row. *)
Definition assign_total_time (f : Row -> Qc) (df : DataFrame) : DataFrame :=
  mkDataFrame (has_n_repeats df) true
    ((fun r => mkRow (request_id r) (program_id r) (exposure_time r)
                 (n_repeats r) (f r)) <$> rows df).

(** [df[['program_id','total_time']].groupby('program_id').agg(np.sum)]:
    one entry for each program that has a row, with the sum of the
    [total_time] of its rows. *)
Definition groupby_sum (fl : Float64) (rs : list Row) : gmap Z Qc :=
  list_to_map
    ((fun p =>
        (p, f_sum fl (total_time <$> filter (fun r => program_id r = p) rs)))
       <$> (program_id <$> rs)).

(** The [ValueError] of [astype(int)]. *)
Definition cannot_convert : exn :=
  ValueError "Cannot convert non-finite values (NA or inf) to integer".

(** [np.round(net / c).astype(int).to_dict().items()]: the count of each
    program of the series [net]. [astype] converts the whole series or
    raises. *)
Definition count_equivalent (fl : Float64) (c : Qc) (net : gmap Z Qc)
    : option (list (Z * Z)) :=
  mapM (fun kt : Z * Qc =>
          (fun v => (kt.1, v))
            <$> astype_int fl (np_round fl (f_div fl kt.2 c)))
       (map_to_list net).

Section Scheduler.

(** The float64 arithmetic of numpy and pandas. *)
Variable fl : Float64.

(** What [Scheduler.py] imports from [utils.py] and [constants.py]:
    [block_index], [PROGRAM_IDS], and [EXPOSURE_TIME] and [READOUT_TIME]
    in seconds. *)
Variable block_index : Time -> Z.
Variable PROGRAM_IDS : list Z.
Variables EXPOSURE_TIME READOUT_TIME : Qc.

(** The order in which Python iterates over [set(l)]. *)
Variable set_iter : list string -> list string.

Definition find_excluded_blocks_tonight (time_now : Time) : M (list Z) :=
  let mjd_today := mjd_floor time_now in
  do modify (with_timed []) then
  let block_start := block_index (Time_of_mjd mjd_today) in
  let block_stop := block_index (Time_of_mjd (mjd_today + 1)) in
  let* items := gets queues in
  for_fold items [] (fun '(qq_name, qq) exclude_blocks =>
    if bool_decide (queue_name qq ∈ ["default"; "fallback"])
    then ret exclude_blocks
    else
      match validity_window qq with
      | Some _ =>
          let valid_blocks_ := valid_blocks qq true in
          let all_valid_blocks := valid_blocks qq false in
          let valid_blocks_tonight :=
            filter (fun b => block_start <= b <= block_stop) valid_blocks_ in
          let all_valid_blocks_tonight :=
            filter (fun b => block_start <= b <= block_stop)
                   all_valid_blocks in
          do (if negb (Nat.eqb (length all_valid_blocks_tonight) 0)
              then modify (fun st =>
                     with_timed (timed_queues_tonight st ++ [qq_name]) st)
              else ret tt) then
          ret (exclude_blocks ++ valid_blocks_tonight)
      | None => ret exclude_blocks
      end).

(** The body of the loop of [count_timed_observations_tonight], for the
    queue name [qq] and the tally so far. *)
Definition count_queue (qq : string) (timed_obs : gmap Z Z)
    : M (gmap Z Z) :=
  let* qs := gets queues in
  match OD.get qq qs with
  | None => raise (KeyError qq)
  | Some q =>
      let* r := df_copy (queue q) in
      let* df := df_read r in
      do (if has_n_repeats df then ret tt
          else df_write r (assign_n_repeats 1%Qc df)) then
      let* df := df_read r in
      do df_write r
           (assign_total_time
              (fun row => f_mul fl (f_add fl (exposure_time row) READOUT_TIME)
                                   (n_repeats row)) df) then
      let* df := df_read r in
      let net := groupby_sum fl (rows df) in
      match count_equivalent fl (f_add fl EXPOSURE_TIME READOUT_TIME) net
      with
      | None => raise cannot_convert
      | Some items =>
          for_fold items timed_obs
            (fun '(k, v) timed_obs =>
               match timed_obs !! k with
               | None => raise (KeyErrorZ k)
               | Some old => ret (<[k := old + v]> timed_obs)
               end)
      end
  end.

Definition count_timed_observations_tonight : M (gmap Z Z) :=
  let timed_obs : gmap Z Z :=
    list_to_map ((fun prog => (prog, 0)) <$> PROGRAM_IDS) in
  let* timed := gets timed_queues_tonight in
  if Nat.eqb (length timed) 0 then ret timed_obs
  else for_fold timed timed_obs count_queue.

Definition check_for_TOO_queue_and_switch (time_now : Time) : M unit :=
  let* items := gets queues in
  for_each items (fun '(qq_name, qq) =>
    if is_TOO qq then
      if is_valid qq time_now then
        let* active := gets Q in
        let* n := gets (fun st => queue_len st qq) in
        if negb (is_TOO active) && negb (Nat.eqb n 0)
        then set_queue qq_name
        else ret tt
      else ret tt
    else ret tt).

Definition check_for_timed_queue_and_switch (time_now : Time) : M unit :=
  let* active := gets Q in
  do (if negb (String.eqb (queue_name active) "default")
      then if negb (is_valid active time_now)
           then set_queue "default" else ret tt
      else ret tt) then
  let* active := gets Q in
  if bool_decide (queue_name active ∈ ["default"; "fallback"]) then
    let* items := gets queues in
    for_each items (fun '(qq_name, qq) =>
      if match validity_window qq with Some _ => true | None => false end
         && is_valid qq time_now
      then
        if String.eqb (queue_type qq) "list" then
          let* n := gets (fun st => queue_len st qq) in
          if negb (Nat.eqb n 0) then set_queue qq_name else ret tt
        else
          if requests_in_window qq then set_queue qq_name else ret tt
      else ret tt)
  else ret tt.

Definition remove_empty_and_expired_queues (time_now : Time) : M unit :=
  let* items := gets queues in
  let* queues_for_deletion :=
    for_fold items [] (fun '(qq_name, qq) queues_for_deletion =>
      if bool_decide (queue_name qq ∈ ["default"; "fallback"])
      then ret queues_for_deletion
      else
        let expired :=
          match validity_window qq with
          | Some w => bool_decide (w.2 < time_now)%Qc
          | None => false
          end in
        if expired then ret (queues_for_deletion ++ [qq_name])
        else
          let* n := gets (fun st => queue_len st qq) in
          if String.eqb (queue_type qq) "list" && Nat.eqb n 0
          then ret (queues_for_deletion ++ [qq_name])
          else ret queues_for_deletion) in
  for_each (set_iter queues_for_deletion) delete_queue.

End Scheduler.


(** ** The observing loop of [observe.py] *)

Module Observe.

(** The dict [next_obs], with the keys the loop reads. *)
Record NextObs : Type := mkNextObs {
  target_ra : Qc;
  target_dec : Qc;
  request_id : Z
}.

(** [coord.SkyCoord(ra*u.deg, dec*u.deg)] *)
Definition SkyCoord : Type := (Qc * Qc)%type.

(** The methods of [ZTFStateMachine] that the loop calls; [SD] is the dict
    of [current_state_dict()]. A method that changes the telescope returns
    the new telescope. *)
Class Telescope (Tel SD : Type) : Type := {
  current_time : Tel -> Time;
  check_if_ready : Tel -> bool * Tel;
  current_state_dict : Tel -> SD;
  start_slew : SkyCoord -> Tel -> bool * Tel;
  start_exposing : Tel -> bool * Tel;
  set_cant_observe : Tel -> Tel;
  wait : Tel -> Tel
}.

(** The methods of [GreedyQueueManager]: [Q.next_obs(current_state)] and
    [Q.rp.remove_requests(request_id)]. *)
Class Requests (QM SD : Type) : Type := {
  next_obs : SD -> QM -> NextObs * QM;
  remove_requests : Z -> QM -> QM
}.

(** An [ObsLogger]: its attribute [prev_obs] and the rest of it. *)
Record ObsLogger (Prev Store : Type) : Type := mkLogger {
  prev_obs : option Prev;
  store : Store
}.
Arguments mkLogger {Prev Store} prev_obs store.
Arguments prev_obs {Prev Store} _.
Arguments store {Prev Store} _.

Class Pointings (Prev Store SD : Type) : Type := {
  log_pointing : SD -> NextObs -> ObsLogger Prev Store -> ObsLogger Prev Store
}.

(** The calls the loop makes to its collaborators, and the assignment to
    [log.prev_obs]. *)
Inductive call : Type :=
| CheckIfReady
| CurrentStateDict
| NextObsOf
| StartSlew (target : SkyCoord)
| StartExposing
| SetCantObserve
| Wait
| ClearPrevObs
| LogPointing (obs : NextObs)
| RemoveRequests (id : Z).

Section Loop.
Context {Tel SD QM Prev Store : Type}.
Context `{Telescope Tel SD} `{Requests QM SD} `{Pointings Prev Store SD}.

(** The objects [tel], [Q] and [log], and the calls made so far. *)
Record World : Type := mkWorld {
  tel : Tel;
  Qm : QM;
  log : ObsLogger Prev Store;
  calls : list call
}.

(** One pass through the body of the [while] loop. *)
Definition observe_step (w : World) : World :=
  let (ready, tel1) := check_if_ready (tel w) in
  let calls1 := calls w ++ [CheckIfReady] in
  if ready then
    let current_state := current_state_dict tel1 in
    let (next, Q1) := next_obs current_state (Qm w) in
    let target := (target_ra next, target_dec next) in
    let (slewed, tel2) := start_slew target tel1 in
    let calls2 :=
      calls1 ++ [CurrentStateDict; NextObsOf; StartSlew target] in
    if negb slewed then
      mkWorld (wait (set_cant_observe tel2)) Q1
              (mkLogger None (store (log w)))
              (calls2 ++ [SetCantObserve; ClearPrevObs; Wait])
    else
      let (exposed, tel3) := start_exposing tel2 in
      let calls3 := calls2 ++ [StartExposing] in
      if negb exposed then
        mkWorld (wait (set_cant_observe tel3)) Q1
                (mkLogger None (store (log w)))
                (calls3 ++ [SetCantObserve; ClearPrevObs; Wait])
      else
        mkWorld tel3
                (remove_requests (request_id next) Q1)
                (log_pointing (current_state_dict tel3) next (log w))
                (calls3 ++ [CurrentStateDict; LogPointing next;
                            RemoveRequests (request_id next)])
  else
    mkWorld (wait (set_cant_observe tel1)) (Qm w) (log w)
            (calls1 ++ [SetCantObserve; Wait]).

(** [while tel.current_time < stop: ...], for at most [fuel] passes. *)
Fixpoint observe_loop (fuel : nat) (stop : Time) (w : World) : World :=
  match fuel with
  | O => w
  | S fuel' =>
      if bool_decide (current_time (tel w) < stop)%Qc
      then observe_loop fuel' stop (observe_step w)
      else w
  end.

(** What a pass added to the calls. *)
Definition new_calls (w : World) : list call :=
  drop (length (calls w)) (calls (observe_step w)).
End Loop.
Arguments World Tel QM Prev Store : clear implicits.

End Observe.

(** ** Properties of a registry, as the specification words them *)

(** Every queue is registered under its own name. *)
Definition keyed (d : list (string * QueueManager)) : Prop :=
  forall k q, (k, q) ∈ d -> queue_name q = k.

(** The queue object [q] is one of the values of the registry. *)
Definition registered (st : State) (q : QueueManager) : Prop :=
  q ∈ OD.values (queues st).

(** [q] is the object the active pointer [self.Q] refers to. *)
Definition is_active (st : State) (q : QueueManager) : Prop := q = Q st.

Definition exactly_one_active (st : State) : Prop :=
  exists q, (registered st q /\ is_active st q) /\
            forall q', registered st q' /\ is_active st q' -> q' = q.

(** The name of the active queue is a key of the registry. *)
Definition active_name_registered (st : State) : Prop :=
  queue_name (Q st) ∈ OD.keys (queues st).

(** The calls of a sequence that never removes 'default' and that adds a
    queue under its own name. *)
Definition op_allowed (o : op) : Prop :=
  match o with
  | SetActive _ => True
  | Add name q _ => queue_name q = name
  | Remove name => name <> "default"
  end.

(** The call does not put another object in the place of the active
    queue. *)
Definition keeps_active_entry (st : State) (o : op) : Prop :=
  match o with
  | Add name _ true => name <> queue_name (Q st)
  | _ => True
  end.

Fixpoint no_overwrite_of_active (st : State) (ops : list op) : Prop :=
  match ops with
  | [] => True
  | o :: rest =>
      keeps_active_entry st o /\
      no_overwrite_of_active (exec (run_op o) st) rest
  end.

(** What every sequence of allowed calls keeps. *)
Record registry_ok (st : State) : Prop := {
  ok_wf : OD.wf (queues st);
  ok_keyed : keyed (queues st);
  ok_default : "default" ∈ OD.keys (queues st);
  ok_active_name : active_name_registered st
}.

(** The active queue is the object registered under its name. *)
Definition active_is_entry (st : State) : Prop :=
  OD.get (queue_name (Q st)) (queues st) = Some (Q st).

(** [keyed], decided. *)
Definition keyed_b (d : list (string * QueueManager)) : bool :=
  forallb (fun kv => String.eqb (queue_name kv.2) kv.1) d.

(** ** Preemption by a target-of-opportunity queue *)

(** The queue is an override queue, valid at [now], with pending requests. *)
Definition too_ready (now : Time) (st : State) (qq : QueueManager) : bool :=
  is_TOO qq && is_valid qq now && negb (Nat.eqb (queue_len st qq) 0).

(** The first such queue in the iteration order of the registry. *)
Definition first_too_ready (now : Time) (st : State)
    : option (string * QueueManager) :=
  List.find (fun kv => too_ready now st kv.2) (queues st).

(** ** Tonight's blocks *)

Section Tonight.
Variable block_index : Time -> Z.
Variable time_now : Time.

(** The first block of tonight and the first block of tomorrow. *)
Definition tonight_start : Z := block_index (Time_of_mjd (mjd_floor time_now)).
Definition tonight_stop : Z :=
  block_index (Time_of_mjd (mjd_floor time_now + 1)).

(** A timed queue: it has a validity window and is neither 'default' nor
    'fallback'. *)
Definition is_timed (qq : QueueManager) : Prop :=
  (queue_name qq ∉ ["default"; "fallback"]) /\ validity_window qq <> None.

Definition is_timed_b (qq : QueueManager) : bool :=
  negb (bool_decide (queue_name qq ∈ ["default"; "fallback"]))
  && match validity_window qq with Some _ => true | None => false end.

(** What one queue adds to the excluded blocks and to
    [timed_queues_tonight]. *)
Definition excluded_of (kv : string * QueueManager) : list Z :=
  if is_timed_b kv.2
  then filter (fun b => tonight_start <= b <= tonight_stop)
              (valid_blocks kv.2 true)
  else [].

Definition tonight_of (kv : string * QueueManager) : list string :=
  if is_timed_b kv.2
     && negb (Nat.eqb
                (length (filter (fun b => tonight_start <= b <= tonight_stop)
                                (valid_blocks kv.2 false))) 0)
  then [kv.1] else [].
End Tonight.

(** ** Queues to prune *)

(** The validity window of the queue has ended before [now]. *)
Definition window_elapsed (now : Time) (qq : QueueManager) : Prop :=
  exists w, validity_window qq = Some w /\ (w.2 < now)%Qc.

(** What [remove_empty_and_expired_queues] prunes: a queue other than
    'default' and 'fallback' whose window has elapsed, or that is a list
    queue without pending requests. *)
Definition garbage (now : Time) (st : State) (qq : QueueManager) : Prop :=
  (queue_name qq ∉ ["default"; "fallback"]) /\
  (window_elapsed now qq \/
   (queue_type qq = "list" /\ queue_len st qq = 0%nat)).

(** What the specification says is pruned: an empty list queue only when it
    has no validity window. *)
Definition garbage_claimed (now : Time) (st : State) (qq : QueueManager)
    : Prop :=
  (queue_name qq ∉ ["default"; "fallback"]) /\
  (window_elapsed now qq \/
   (queue_type qq = "list" /\ validity_window qq = None /\
    queue_len st qq = 0%nat)).

Definition garbage_b (now : Time) (st : State) (qq : QueueManager) : bool :=
  negb (bool_decide (queue_name qq ∈ ["default"; "fallback"]))
  && (match validity_window qq with
      | Some w => bool_decide (w.2 < now)%Qc
      | None => false
      end
      || (String.eqb (queue_type qq) "list" && Nat.eqb (queue_len st qq) 0)).

(** The keys [remove_empty_and_expired_queues] collects. *)
Definition doomed (now : Time) (st : State)
    (items : list (string * QueueManager)) : list string :=
  flat_map (fun kv => if garbage_b now st kv.2 then [kv.1] else []) items.

(** Python iterates over a set in an order of its own: each element once. *)
Definition set_order_ok (set_iter : list string -> list string) : Prop :=
  forall l, NoDup (set_iter l) /\ forall x, x ∈ set_iter l <-> x ∈ l.

(** ** The tally of timed observations *)

Definition Z_sum (l : list Z) : Z := foldr Z.add 0 l.

Section Tally.
Variable fl : Float64.
Variables EXPOSURE_TIME READOUT_TIME : Qc.

(** The time one pending request takes: exposure and readout, times the
    number of repeats, which is 1 in a table without the column. *)
Definition row_time (df : DataFrame) (r : Row) : Qc :=
  f_mul fl (f_add fl (exposure_time r) READOUT_TIME)
        (if has_n_repeats df then n_repeats r else 1%Qc).

(** The time the requests of program [p] take in a table. *)
Definition program_time (df : DataFrame) (p : Z) : Qc :=
  f_sum fl (row_time df <$> filter (fun r => program_id r = p) (rows df)).

(** ... in nominal exposures, rounded: a float. *)
Definition rounded_obs (df : DataFrame) (p : Z) : Qc :=
  np_round fl
    (f_div fl (program_time df p) (f_add fl EXPOSURE_TIME READOUT_TIME)).

(** ... and converted to an integer, where the conversion is defined; 0
    for a program without a request in the table. *)
Definition equivalent_obs (df : DataFrame) (p : Z) : Z :=
  if decide (p ∈ program_id <$> rows df) then
    default 0 (astype_int fl (rounded_obs df p))
  else 0.

(** The pending requests of the queue registered as [name]. *)
Definition pending (st : State) (name : string) : DataFrame :=
  match OD.get name (queues st) with
  | Some q => deref (heap st) (queue q)
  | None => empty_frame
  end.

(** The tally of program [p]: the counts of the queues of
    [timed_queues_tonight], added up. *)
Definition tally (st : State) (p : Z) : Z :=
  Z_sum ((fun qq => equivalent_obs (pending st qq) p)
           <$> timed_queues_tonight st).

(** The state is one that [count_timed_observations_tonight] can work
    on: the names of [timed_queues_tonight] are registered, their tables
    exist, and the programs of their requests are known. *)
Definition countable (PROGRAM_IDS : list Z) (st : State) : Prop :=
  forall qq, qq ∈ timed_queues_tonight st ->
    exists q, OD.get qq (queues st) = Some q /\
              (queue q < length (heap st))%nat /\
              forall r, r ∈ rows (deref (heap st) (queue q)) ->
                        program_id r ∈ PROGRAM_IDS.

(** Every count that [count_timed_observations_tonight] converts to an
    integer can be converted. *)
Definition convertible (st : State) : Prop :=
  forall qq r, qq ∈ timed_queues_tonight st ->
    r ∈ rows (pending st qq) ->
    is_Some (astype_int fl (rounded_obs (pending st qq) (program_id r))).

(** The table the method works on: the copy, with its two new columns. *)
Definition prepare_row (df : DataFrame) (r : Row) : Row :=
  mkRow (request_id r) (program_id r) (exposure_time r)
        (if has_n_repeats df then n_repeats r else 1%Qc)
        (row_time df r).

Definition prepared (df : DataFrame) : DataFrame :=
  mkDataFrame true true (prepare_row df <$> rows df).

(** The counts one table adds to the tally, when they can be converted. *)
Definition counts_of (df : DataFrame) : option (list (Z * Z)) :=
  count_equivalent fl (f_add fl EXPOSURE_TIME READOUT_TIME)
                   (groupby_sum fl (rows (prepared df))).
End Tally.

(** [for k, v in counts: timed_obs[k] += v] *)
Fixpoint add_counts (l : list (Z * Z)) (timed_obs : gmap Z Z)
    : result (gmap Z Z) :=
  match l with
  | [] => Ok timed_obs
  | (k, v) :: rest =>
      match timed_obs !! k with
      | None => Raise (KeyErrorZ k)
      | Some old => add_counts rest (<[k := old + v]> timed_obs)
      end
  end.

(** One pass of the loop over the queues: the counts of a table, added to
    the tally. *)
Definition add_table (counts : option (list (Z * Z))) (timed_obs : gmap Z Z)
    : result (gmap Z Z) :=
  match counts with
  | Some l => add_counts l timed_obs
  | None => Raise cannot_convert
  end.

(** What the entries of key [p] add up to. *)
Definition count_of (l : list (Z * Z)) (p : Z) : Z :=
  Z_sum ((fun kv => if decide (kv.1 = p) then kv.2 else 0) <$> l).

(** The sum of the column [total_time] over the rows of program [p]. *)
Definition total_of (fl : Float64) (rs : list Row) (p : Z) : Qc :=
  f_sum fl (total_time <$> filter (fun r => program_id r = p) rs).

(** ** A pass of the observing loop that fails *)

Section Recovery.
Import Observe.
Context {Tel SD QM Prev Store : Type}.
Context `{Telescope Tel SD} `{Requests QM SD} `{Pointings Prev Store SD}.

(** The pass from [w] has recovered from a failure that left the
    telescope as [failed]: the telescope was marked as unable to observe
    and then waited, [log.prev_obs] is [None] and the rest of the log is
    untouched, the queue is [Q1], as [next_obs] left it, and the calls of
    the pass are [made], followed by the three steps of the recovery;
    neither [log_pointing] nor [remove_requests] is among them. *)
Definition recovered (w : World Tel QM Prev Store) (failed : Tel) (Q1 : QM)
    (made : list call) : Prop :=
  tel (observe_step w) = wait (set_cant_observe failed) /\
  Qm (observe_step w) = Q1 /\
  prev_obs (log (observe_step w)) = None /\
  store (log (observe_step w)) = store (log w) /\
  new_calls w = made ++ [SetCantObserve; ClearPrevObs; Wait] /\
  (forall obs, LogPointing obs ∉ new_calls w) /\
  (forall id, RemoveRequests id ∉ new_calls w).
End Recovery.

(** A telescope that is ready and whose slews fail, a queue that offers its
    first request, and a log that keeps the pointings. *)
Module ObsEx.
Import Observe.

Record Scope : Type := mkScope {
  clock : Qc;
  ready : bool;
  slews : bool;
  exposes : bool
}.

#[global] Instance scope_telescope : Telescope Scope unit := {|
  current_time := clock;
  check_if_ready := fun t => (ready t, t);
  current_state_dict := fun _ => tt;
  start_slew := fun _ t => (slews t, t);
  start_exposing := fun t => (exposes t, t);
  set_cant_observe := fun t => t;
  wait := fun t =>
    mkScope (clock t + Q2Qc (1 # 1440))%Qc (ready t) (slews t) (exposes t)
|}.

Definition no_request : NextObs := mkNextObs (Q2Qc 0) (Q2Qc 0) 0.

#[global] Instance list_requests : Requests (list NextObs) unit := {|
  next_obs := fun _ q => (hd no_request q, q);
  remove_requests := fun id q =>
    filter (fun o => request_id o <> id) q
|}.

#[global] Instance list_pointings
    : Pointings NextObs (list NextObs) unit := {|
  log_pointing := fun _ obs l => mkLogger (Some obs) (obs :: store l)
|}.

Definition request7 : NextObs := mkNextObs (Q2Qc 150) (Q2Qc 30) 7.

(** The slew fails. *)
Definition w_slew_fails : World Scope (list NextObs) NextObs (list NextObs) :=
  mkWorld (mkScope (Q2Qc 58119) true false true) [request7]
          (mkLogger (Some request7) []) [].

(** The slew succeeds and the exposure fails. *)
Definition w_exposure_fails
    : World Scope (list NextObs) NextObs (list NextObs) :=
  mkWorld (mkScope (Q2Qc 58119) true true false) [request7]
          (mkLogger (Some request7) []) [].
End ObsEx.

(** ** Concrete registries *)

Module Ex.

(** The queue 'default', and a second object of the same name. *)
Definition q_default : QueueManager :=
  mkQueue 0 "default" "greedy" None false 0 false (fun _ => true)
          (fun _ => []).
Definition q_default2 : QueueManager :=
  mkQueue 1 "default" "greedy" None false 1 false (fun _ => true)
          (fun _ => []).

(** A registry with 'default' only, 'default' active. *)
Definition st_default : State :=
  mkState [("default", q_default)] q_default [] [empty_frame; empty_frame].

(** A target-of-opportunity queue, a list queue valid from MJD 58000.25
    to MJD 58000.5, with its requests in frame 1. *)
Definition too_start : Time := Q2Qc (232001 # 4).
Definition too_stop : Time := Q2Qc (116001 # 2).
Definition q_too : QueueManager :=
  mkQueue 2 "too" "list" (Some (too_start, too_stop)) true 1 false
          (fun t => bool_decide (too_start <= t)%Qc
                    && bool_decide (t < too_stop)%Qc)
          (fun _ => []).

(** A caller adds the queue 'too', switches to it, makes two calls that
    fail, and removes 'too' again. *)
Definition ops_too : list op :=
  [Add "too" q_too false; SetActive "too"; Add "default" q_default2 false;
   SetActive "nope"; Remove "too"].

(** One pending request of program 2, 30 s of exposure. *)
Definition row30 (id : Z) : Row := mkRow id 2 (Q2Qc 30) (Q2Qc 1) (Q2Qc 0).

(** 'default' is active, 'too' is registered and has one request. *)
Definition st_too : State :=
  mkState [("default", q_default); ("too", q_too)] q_default []
          [empty_frame; mkDataFrame true false [row30 1]].

(** MJD 58000.375, inside the window of 'too'. *)
Definition now_too : Time := Q2Qc (464003 # 8).

(** Blocks of 20 minutes, counted from MJD 0. *)
Definition block20 (t : Time) : Z := Qfloor (t * Q2Qc 72)%Qc.

(** A timed queue whose window, MJD 58000.98 to MJD 58001.03, runs over
    midnight: of the blocks 4176070 to 4176074 that it touches, 4176071 to
    4176073 lie inside it. *)
Definition q_midnight : QueueManager :=
  mkQueue 3 "midnight" "list"
          (Some (Q2Qc (2900049 # 50), Q2Qc (5800103 # 100))) false 1 false
          (fun t => bool_decide (Q2Qc (2900049 # 50) <= t)%Qc
                    && bool_decide (t < Q2Qc (5800103 # 100))%Qc)
          (fun complete_only =>
             if complete_only then [4176071; 4176072; 4176073]
             else [4176070; 4176071; 4176072; 4176073; 4176074]).

Definition st_midnight : State :=
  mkState [("default", q_default); ("midnight", q_midnight)] q_default
          ["stale"] [empty_frame; mkDataFrame true false [row30 1]].

(** The queue 'too' with no request left: its table is frame 0. *)
Definition q_too_empty : QueueManager :=
  mkQueue 4 "too" "list" (Some (too_start, too_stop)) true 0 false
          (fun t => bool_decide (too_start <= t)%Qc
                    && bool_decide (t < too_stop)%Qc)
          (fun _ => []).

Definition st_too_empty : State :=
  mkState [("default", q_default); ("too", q_too_empty)] q_default []
          [empty_frame; empty_frame].

(** A timed list queue with four requests of 30 s for program 2, and the
    state after [find_excluded_blocks_tonight] has listed it. *)
Definition q_timed : QueueManager :=
  mkQueue 5 "timed" "list" (Some (too_start, too_stop)) false 1 false
          (fun t => bool_decide (too_start <= t)%Qc
                    && bool_decide (t < too_stop)%Qc)
          (fun _ => [4176018; 4176019]).

Definition st_four : State :=
  mkState [("default", q_default); ("timed", q_timed)] q_default ["timed"]
          [empty_frame;
           mkDataFrame true false [row30 1; row30 2; row30 3; row30 4]].

(** The programs, and the nominal exposure and the readout in seconds. *)
Definition programs : list Z := [1; 2; 3].
Definition exposure : Qc := Q2Qc 30.
Definition readout : Qc := Q2Qc 15.

(** The arithmetic of the examples. Their numbers are small integers, on
    which float64 arithmetic is exact: the operations are those of the
    rationals, rounding is to the nearest integer with a tie to the even
    one, and the conversion to an integer drops the fraction. *)
Definition round_half_even (x : Qc) : Z :=
  let f := Qfloor x in
  match ((x - Qc_of_Z f) ?= Q2Qc (1 # 2))%Qc with
  | Lt => f
  | Gt => f + 1
  | Eq => if Z.even f then f else f + 1
  end.

Definition truncate (x : Qc) : Z :=
  if bool_decide (x < 0)%Qc then Qceiling x else Qfloor x.

Definition exact : Float64 :=
  mkFloat64 Qcplus Qcmult Qcdiv (foldr Qcplus 0%Qc)
            (fun x => Qc_of_Z (round_half_even x))
            (fun x => Some (truncate x)).

(** The listed queue has been removed since. *)
Definition st_stale : State :=
  mkState [("default", q_default)] q_default ["timed"]
          [empty_frame;
           mkDataFrame true false [row30 1; row30 2; row30 3; row30 4]].

(** A request of a program that is not one of [programs]. *)
Definition st_program0 : State :=
  mkState [("default", q_default); ("timed", q_timed)] q_default ["timed"]
          [empty_frame;
           mkDataFrame true false
             [mkRow 1 0 (Q2Qc 30) (Q2Qc 1) (Q2Qc 0)]].

(** A caller replaces the queue 'default' by another object. *)
Definition ops_clobber : list op := [Add "default" q_default2 true].

End Ex.

(** ** What the timed switch looks for *)

(** The queue may take over from 'default' or 'fallback' at [now]: it has
    a validity window, it is valid, and it has work, requests in its table
    for a list queue and [requests_in_window] for the others. *)
Definition eligible (now : Time) (st : State) (qq : QueueManager) : bool :=
  match validity_window qq with Some _ => true | None => false end
  && is_valid qq now
  && (if String.eqb (queue_type qq) "list"
      then negb (Nat.eqb (queue_len st qq) 0)
      else requests_in_window qq).

(** The queue a scan of [items] leaves active, starting from [cur]. *)
Definition timed_winner (now : Time) (st : State)
    (items : list (string * QueueManager)) (cur : QueueManager)
    : QueueManager :=
  fold_left (fun cur kv => if eligible now st kv.2 then kv.2 else cur)
            items cur.

(** ** The calls of the observing loop *)

(** Every [log_pointing] is followed at once by the [remove_requests] of
    the request it logged, and there is no other [remove_requests]. *)
Fixpoint well_paired (l : list Observe.call) : bool :=
  match l with
  | [] => true
  | Observe.LogPointing obs :: rest =>
      match rest with
      | Observe.RemoveRequests id :: rest' =>
          Z.eqb (Observe.request_id obs) id && well_paired rest'
      | _ => false
      end
  | Observe.RemoveRequests _ :: _ => false
  | _ :: rest => well_paired rest
  end.

Section Passes.
Import Observe.
Context {Tel SD QM Prev Store : Type}.
Context `{Telescope Tel SD} `{Requests QM SD} `{Pointings Prev Store SD}.




End Passes.

(** ** The invariant of the registry, and the constructor *)

(** The registry is keyed by the names of its queues, holds 'default', and
    the active queue is the object registered under its name. *)
Definition registry_inv (st : State) : Prop :=
  registry_ok st /\ active_is_entry st.

(** The part of [Scheduler.__init__] that sets up the registry, given the
    queues that [build_queues] returned: [timed_queues_tonight] is empty
    and [set_queue('default')] chooses the active queue. The object has no
    attribute [Q] before that call; [unset] stands for it. *)
Definition init_registry (built : list (string * QueueManager))
    (frames : list DataFrame) (unset : QueueManager) : result unit * State :=
  set_queue "default" (mkState built unset [] frames).

(** ** More concrete registries *)

Module Ex2.

(** 'default' is active; 'too' and 'timed' are both valid at MJD 58000.375
    and share a table with one request. *)
Definition st_two : State :=
  mkState [("default", Ex.q_default); ("too", Ex.q_too);
           ("timed", Ex.q_timed)]
          Ex.q_default []
          [empty_frame; mkDataFrame true false [Ex.row30 1]].

(** The same registry with 'timed' active. *)
Definition st_timed_active : State := with_Q Ex.q_timed st_two.

(** MJD 58001, after the window of 'too' and 'timed'. *)
Definition now_late : Time := Q2Qc 58001.

(** 'too' is active in a registry that has lost 'default'. *)
Definition st_no_default : State :=
  mkState [("too", Ex.q_too_empty)] Ex.q_too_empty [] [empty_frame].

(** Two more requests, and a telescope that is ready and whose slews and
    exposures succeed. One request has been observed before the loop
    starts; two are pending. *)
Definition request9 : Observe.NextObs :=
  Observe.mkNextObs (Q2Qc 151) (Q2Qc 31) 9.

Definition request11 : Observe.NextObs :=
  Observe.mkNextObs (Q2Qc 152) (Q2Qc 32) 11.

Definition w_observes
    : Observe.World ObsEx.Scope (list Observe.NextObs) Observe.NextObs
                    (list Observe.NextObs) :=
  Observe.mkWorld
    (ObsEx.mkScope (Q2Qc 58119) true true true) [request9; request11]
    (Observe.mkLogger (Some ObsEx.request7) [ObsEx.request7])
    [Observe.LogPointing ObsEx.request7; Observe.RemoveRequests 7].

(** The requests of the calls of [log_pointing], and the ids of the calls
    of [remove_requests], in the order of the calls. *)
Definition logged (l : list Observe.call) : list Observe.NextObs :=
  flat_map
    (fun c => match c with Observe.LogPointing obs => [obs] | _ => [] end) l.

Definition removed (l : list Observe.call) : list Z :=
  flat_map
    (fun c => match c with Observe.RemoveRequests id => [id] | _ => [] end) l.

End Ex2.
(** ** Facts about ordered dictionaries *)

Section DictFacts.
Context {V : Type}.
Implicit Types (d : list (string * V)) (k : string) (v : V).

Lemma get_Some_elem d k v : OD.get k d = Some v -> (k, v) ∈ d.
Proof.
  induction d as [|[k' v'] d IH]; simpl; [discriminate|].
  destruct (String.eqb_spec k k') as [->|Hne]; intros H.
  - injection H as ->. apply elem_of_cons; auto.
  - apply elem_of_cons; right; auto.
Qed.

Lemma get_None_keys d k : OD.get k d = None <-> k ∉ OD.keys d.
Proof.
  unfold OD.keys.
  induction d as [|[k' v'] d IH]; simpl.
  - split; [intros _; apply not_elem_of_nil | reflexivity].
  - rewrite not_elem_of_cons.
    destruct (String.eqb_spec k k') as [->|Hne]; split.
    + discriminate.
    + intros [H _]; congruence.
    + intros H; split; [assumption | apply IH, H].
    + intros [_ H]; apply IH, H.
Qed.

Lemma mem_keys d k : OD.mem k d = true <-> k ∈ OD.keys d.
Proof.
  unfold OD.mem. destruct (OD.get k d) eqn:E; split; intros H; try done.
  - apply get_Some_elem in E.
    apply (list_elem_of_fmap_2 fst) in E; exact E.
  - apply get_None_keys in E; contradiction.
Qed.

Lemma mem_false_keys d k : OD.mem k d = false <-> k ∉ OD.keys d.
Proof.
  rewrite <- mem_keys. destruct (OD.mem k d); split; congruence.
Qed.

Lemma elem_get d k v : OD.wf d -> (k, v) ∈ d -> OD.get k d = Some v.
Proof.
  unfold OD.wf, OD.keys.
  induction d as [|[k' v'] d IH]; simpl; intros Hnd Hin.
  - apply elem_of_nil in Hin; contradiction.
  - apply list.NoDup_cons in Hnd as [Hk Hnd].
    apply elem_of_cons in Hin as [Heq|Hin].
    + injection Heq as -> ->. rewrite String.eqb_refl; reflexivity.
    + destruct (String.eqb_spec k k') as [->|Hne]; [|auto].
      exfalso; apply Hk.
      apply (list_elem_of_fmap_2 fst) in Hin; exact Hin.
Qed.

Lemma get_set_eq d k v : OD.get k (OD.set k v d) = Some v.
Proof.
  induction d as [|[k' v'] d IH]; simpl.
  - rewrite String.eqb_refl; reflexivity.
  - destruct (String.eqb_spec k k') as [->|Hne]; simpl.
    + rewrite String.eqb_refl; reflexivity.
    + destruct (String.eqb_spec k k'); [contradiction | exact IH].
Qed.

Lemma get_set_ne d k k' v : k <> k' -> OD.get k' (OD.set k v d) = OD.get k' d.
Proof.
  intros Hne. induction d as [|[k2 v2] d IH]; simpl.
  - destruct (String.eqb_spec k' k); [congruence | reflexivity].
  - destruct (String.eqb_spec k k2) as [->|Hne2]; simpl.
    + destruct (String.eqb_spec k' k2); [congruence | reflexivity].
    + destruct (String.eqb_spec k' k2); [reflexivity | exact IH].
Qed.

Lemma keys_set d k v k' :
  k' ∈ OD.keys (OD.set k v d) <-> k' = k \/ k' ∈ OD.keys d.
Proof.
  rewrite <- !mem_keys. unfold OD.mem.
  destruct (String.eqb_spec k k') as [->|Hne].
  - rewrite get_set_eq. split; auto.
  - rewrite get_set_ne by assumption.
    split; [auto | intros [->|H]; [contradiction | exact H]].
Qed.

Lemma wf_set d k v : OD.wf d -> OD.wf (OD.set k v d).
Proof.
  unfold OD.wf, OD.keys.
  induction d as [|[k' v'] d IH]; simpl; intros Hnd.
  - apply NoDup_singleton.
  - apply list.NoDup_cons in Hnd as [Hk Hnd].
    destruct (String.eqb_spec k k') as [->|Hne]; simpl.
    + apply list.NoDup_cons; auto.
    + apply list.NoDup_cons; split; [|auto].
      intros Hin. apply (keys_set d k v k') in Hin as [->|Hin]; auto.
Qed.

Lemma elem_del d k k' v : (k', v) ∈ OD.del k d -> (k', v) ∈ d.
Proof.
  induction d as [|[k2 v2] d IH]; simpl; [auto|].
  destruct (String.eqb_spec k k2) as [->|Hne]; intros H.
  - apply elem_of_cons; auto.
  - apply elem_of_cons in H as [H|H]; apply elem_of_cons; auto.
Qed.

Lemma get_del_ne d k k' : k <> k' -> OD.get k' (OD.del k d) = OD.get k' d.
Proof.
  intros Hne. induction d as [|[k2 v2] d IH]; simpl; [reflexivity|].
  destruct (String.eqb_spec k k2) as [->|Hne2]; simpl.
  - destruct (String.eqb_spec k' k2); [congruence | reflexivity].
  - destruct (String.eqb_spec k' k2); [reflexivity | exact IH].
Qed.

Lemma get_del_eq d k : OD.wf d -> OD.get k (OD.del k d) = None.
Proof.
  unfold OD.wf, OD.keys.
  induction d as [|[k2 v2] d IH]; simpl; intros Hnd; [reflexivity|].
  apply list.NoDup_cons in Hnd as [Hk Hnd].
  destruct (String.eqb_spec k k2) as [->|Hne]; simpl.
  - apply get_None_keys; exact Hk.
  - destruct (String.eqb_spec k k2); [contradiction | auto].
Qed.

Lemma keys_del d k k' :
  OD.wf d -> k' ∈ OD.keys (OD.del k d) <-> k' <> k /\ k' ∈ OD.keys d.
Proof.
  intros Hwf. rewrite <- !mem_keys. unfold OD.mem.
  destruct (String.eqb_spec k k') as [->|Hne].
  - rewrite get_del_eq by assumption. split; [discriminate | intros [H _]; congruence].
  - rewrite get_del_ne by assumption.
    split; [intros H; split; [congruence | exact H] | intros [_ H]; exact H].
Qed.

Lemma wf_del d k : OD.wf d -> OD.wf (OD.del k d).
Proof.
  unfold OD.wf, OD.keys.
  induction d as [|[k2 v2] d IH]; simpl; intros Hnd; [assumption|].
  apply list.NoDup_cons in Hnd as [Hk Hnd].
  destruct (String.eqb_spec k k2) as [->|Hne]; simpl; [assumption|].
  apply list.NoDup_cons; split; [|auto].
  intros Hin. apply Hk.
  apply list_elem_of_fmap in Hin as [[k3 v3] [-> Hin]].
  apply elem_del in Hin.
  apply (list_elem_of_fmap_2 fst) in Hin; exact Hin.
Qed.

End DictFacts.

(** ** The registry operations, step by step *)

Lemma set_queue_run name st :
  set_queue name st =
  match OD.get name (queues st) with
  | Some q => (Ok tt, with_Q q st)
  | None => (Raise (not_available name), st)
  end.
Proof.
  unfold set_queue, bind, gets. destruct (OD.get name (queues st)); reflexivity.
Qed.

Lemma add_queue_run name q clobber st :
  add_queue name q clobber st =
  if clobber || negb (OD.mem name (queues st))
  then (Ok tt, with_queues (OD.set name q (queues st)) st)
  else (Raise (already_exists name), st).
Proof.
  unfold add_queue, bind, gets.
  destruct (clobber || negb (OD.mem name (queues st))); reflexivity.
Qed.

Lemma delete_queue_run name st :
  delete_queue name st =
  if OD.mem name (queues st) then
    if String.eqb (queue_name (Q st)) name then
      match OD.get "default" (queues st) with
      | Some d => (Ok tt, with_queues (OD.del name (queues st)) (with_Q d st))
      | None => (Raise (not_available "default"), st)
      end
    else (Ok tt, with_queues (OD.del name (queues st)) st)
  else (Raise (does_not_exist name), st).
Proof.
  unfold delete_queue, bind, gets.
  destruct (OD.mem name (queues st)); [|reflexivity].
  destruct (String.eqb (queue_name (Q st)) name); [|reflexivity].
  rewrite set_queue_run.
  destruct (OD.get "default" (queues st)); reflexivity.
Qed.

(** ** One call of the registry keeps the registry well formed *)

Lemma elem_set (d : list (string * QueueManager)) k v k' v' :
  (k', v') ∈ OD.set k v d -> (k' = k /\ v' = v) \/ (k', v') ∈ d.
Proof.
  induction d as [|[k2 v2] d IH]; simpl; intros H.
  - apply list_elem_of_singleton in H. injection H as -> ->. auto.
  - destruct (String.eqb_spec k k2) as [->|Hne];
      apply elem_of_cons in H as [H|H].
    + injection H as -> ->; auto.
    + right; apply elem_of_cons; auto.
    + right; apply elem_of_cons; auto.
    + destruct (IH H) as [?|?]; [auto | right; apply elem_of_cons; auto].
Qed.

Lemma keyed_set d k q : keyed d -> queue_name q = k -> keyed (OD.set k q d).
Proof.
  intros Hk Hq k' q' Hin.
  apply elem_set in Hin as [[-> ->]|Hin]; auto.
Qed.

Lemma keyed_del d k : keyed d -> keyed (OD.del k d).
Proof. intros Hk k' q' Hin. apply Hk. eapply elem_del, Hin. Qed.

Lemma keys_get_Some {V} (d : list (string * V)) k :
  k ∈ OD.keys d -> exists v, OD.get k d = Some v.
Proof.
  intros H. destruct (OD.get k d) eqn:E; [eauto|].
  apply get_None_keys in E. contradiction.
Qed.

Lemma get_Some_keys {V} (d : list (string * V)) k v :
  OD.get k d = Some v -> k ∈ OD.keys d.
Proof.
  intros H. apply mem_keys. unfold OD.mem. rewrite H. reflexivity.
Qed.

Lemma exec_set_queue name st :
  exec (set_queue name) st =
  match OD.get name (queues st) with Some q => with_Q q st | None => st end.
Proof.
  unfold exec. rewrite set_queue_run.
  destruct (OD.get name (queues st)); reflexivity.
Qed.

Lemma exec_add_queue name q c st :
  exec (add_queue name q c) st =
  if c || negb (OD.mem name (queues st))
  then with_queues (OD.set name q (queues st)) st else st.
Proof.
  unfold exec. rewrite add_queue_run.
  destruct (c || negb (OD.mem name (queues st))); reflexivity.
Qed.

Lemma step_ok st o :
  registry_ok st -> op_allowed o -> registry_ok (exec (run_op o) st).
Proof.
  intros [Hwf Hk Hd Ha] Ho. unfold active_name_registered in Ha.
  destruct o as [name|name q c|name]; simpl in *.
  - rewrite exec_set_queue.
    destruct (OD.get name (queues st)) as [q|] eqn:E; [|by split].
    split; simpl; auto. unfold active_name_registered; simpl.
    rewrite (Hk _ _ (get_Some_elem _ _ _ E)). eapply get_Some_keys, E.
  - rewrite exec_add_queue.
    destruct (c || negb (OD.mem name (queues st))); [|by split].
    split; simpl.
    + by apply wf_set.
    + by apply keyed_set.
    + apply keys_set; auto.
    + unfold active_name_registered; simpl. apply keys_set; auto.
  - unfold exec. rewrite delete_queue_run.
    destruct (OD.mem name (queues st)); [|by split].
    destruct (String.eqb_spec (queue_name (Q st)) name) as [Heq|Hne].
    + destruct (keys_get_Some _ _ Hd) as [d Hget]. rewrite Hget.
      split; simpl.
      * by apply wf_del.
      * by apply keyed_del.
      * apply keys_del; auto.
      * unfold active_name_registered; simpl.
        rewrite (Hk _ _ (get_Some_elem _ _ _ Hget)). apply keys_del; auto.
    + split; simpl.
      * by apply wf_del.
      * by apply keyed_del.
      * apply keys_del; auto.
      * unfold active_name_registered; simpl. apply keys_del; auto.
Qed.

Lemma step_entry st o :
  registry_ok st -> op_allowed o -> keeps_active_entry st o ->
  active_is_entry st -> active_is_entry (exec (run_op o) st).
Proof.
  intros [Hwf Hk Hd Ha] Ho Hkeep He.
  unfold active_name_registered in Ha. unfold active_is_entry in *.
  destruct o as [name|name q c|name]; simpl in *.
  - rewrite exec_set_queue.
    destruct (OD.get name (queues st)) as [q|] eqn:E; [|assumption].
    simpl. rewrite (Hk _ _ (get_Some_elem _ _ _ E)). exact E.
  - rewrite exec_add_queue.
    destruct (c || negb (OD.mem name (queues st))) eqn:Ec; [|assumption].
    simpl. rewrite get_set_ne; [assumption|].
    destruct c; [assumption|]. simpl in Ec.
    apply negb_true_iff, mem_false_keys in Ec. congruence.
  - unfold exec. rewrite delete_queue_run.
    destruct (OD.mem name (queues st)); [|assumption].
    destruct (String.eqb_spec (queue_name (Q st)) name) as [Heq|Hne].
    + destruct (keys_get_Some _ _ Hd) as [d Hget]. rewrite Hget. simpl.
      rewrite (Hk _ _ (get_Some_elem _ _ _ Hget)).
      rewrite get_del_ne by assumption. exact Hget.
    + simpl. rewrite get_del_ne by congruence. exact He.
Qed.

Lemma run_ops_ok ops : forall st,
  registry_ok st -> Forall op_allowed ops -> registry_ok (run_ops ops st).
Proof.
  induction ops as [|o ops IH]; intros st Hok Hall; simpl; [assumption|].
  inversion Hall as [|? ? Ho Hall']; subst; clear Hall; rename Hall' into Hall. apply IH; [|assumption].
  by apply step_ok.
Qed.

Lemma run_ops_entry ops : forall st,
  registry_ok st -> Forall op_allowed ops -> no_overwrite_of_active st ops ->
  active_is_entry st -> active_is_entry (run_ops ops st).
Proof.
  induction ops as [|o ops IH]; intros st Hok Hall Hno He; simpl; [assumption|].
  inversion Hall as [|? ? Ho Hall']; subst; clear Hall; rename Hall' into Hall. destruct Hno as [Hkeep Hno].
  apply IH; [by apply step_ok | assumption | assumption | by apply step_entry].
Qed.

Lemma entry_registered st : active_is_entry st -> registered st (Q st).
Proof.
  intros He. apply get_Some_elem in He.
  apply (list_elem_of_fmap_2 snd) in He. exact He.
Qed.

Lemma registered_entry st :
  OD.wf (queues st) -> keyed (queues st) ->
  registered st (Q st) -> active_is_entry st.
Proof.
  intros Hwf Hk Hr. unfold registered, OD.values in Hr.
  apply list_elem_of_fmap in Hr as [[k q] [Hq Hin]]. simpl in Hq; subst q.
  unfold active_is_entry. rewrite (Hk _ _ Hin). by apply elem_get.
Qed.

Lemma keyed_b_sound d : keyed_b d = true -> keyed d.
Proof.
  unfold keyed_b. intros H k q Hin.
  apply list_elem_of_In in Hin.
  rewrite forallb_forall in H. specialize (H _ Hin). simpl in H.
  by apply String.eqb_eq.
Qed.

Lemma wf_decide {V} (d : list (string * V)) :
  bool_decide (NoDup (OD.keys d)) = true -> OD.wf d.
Proof. intros H. by apply bool_decide_eq_true in H. Qed.

Lemma elem_decide `{EqDecision A} (k : A) (l : list A) :
  bool_decide (k ∈ l) = true -> k ∈ l.
Proof. intros H. by apply bool_decide_eq_true in H. Qed.

(** ** The registry: failing calls, the active queue *)

(** C6. A failing call of the registry changes nothing: [set_queue] of a
    name that is not registered raises and leaves the state (registry and
    active pointer included) as it was; so does [add_queue] of a registered
    name with [clobber=False]; so does [delete_queue] of a name that is not
    registered; and whenever one of the three raises, the state it leaves is
    the state it started in. *)
Theorem failing_call_changes_nothing (st : State) :
  (forall name, OD.mem name (queues st) = false ->
     set_queue name st = (Raise (not_available name), st)) /\
  (forall name q, OD.mem name (queues st) = true ->
     add_queue name q false st = (Raise (already_exists name), st)) /\
  (forall name, OD.mem name (queues st) = false ->
     delete_queue name st = (Raise (does_not_exist name), st)) /\
  (forall o e st', run_op o st = (Raise e, st') -> st' = st).
Proof.
  repeat split.
  - intros name H. rewrite set_queue_run.
    unfold OD.mem in H. destruct (OD.get name (queues st)); [discriminate|done].
  - intros name q H. rewrite add_queue_run, H. reflexivity.
  - intros name H. rewrite delete_queue_run, H. reflexivity.
  - intros [name|name q c|name] e st'; simpl.
    + rewrite set_queue_run. destruct (OD.get name (queues st)); congruence.
    + rewrite add_queue_run.
      destruct (c || negb (OD.mem name (queues st))); congruence.
    + rewrite delete_queue_run.
      destruct (OD.mem name (queues st)); [|congruence].
      destruct (String.eqb (queue_name (Q st)) name); [|congruence].
      destruct (OD.get "default" (queues st)); congruence.
Qed.

Lemma failing_call_changes_nothing_witness :
  set_queue "missing" Ex.st_default
    = (Raise (not_available "missing"), Ex.st_default) /\
  add_queue "default" Ex.q_default2 false Ex.st_default
    = (Raise (already_exists "default"), Ex.st_default) /\
  delete_queue "missing" Ex.st_default
    = (Raise (does_not_exist "missing"), Ex.st_default) /\
  Q Ex.st_default = Ex.q_default.
Proof.
  destruct (failing_call_changes_nothing Ex.st_default) as (H1 & H2 & H3 & H4).
  split; [apply H1; reflexivity|].
  split; [apply H2; reflexivity|].
  split; [apply H3; reflexivity|].
  symmetry.
  exact (f_equal Q (H4 (SetActive "missing") (not_available "missing") _
                       (H1 "missing" eq_refl))).
Defined.

(** C9. [delete_queue] has no guard for the reserved name: when 'default'
    is registered, [delete_queue('default')] returns without raising and the
    registry it leaves is the old one without the key 'default'; and if the
    active pointer referred to that queue, it still does afterwards, to an
    object that is no longer a value of the registry (the object being
    registered under 'default' only). *)
Theorem delete_queue_accepts_default (st : State) (d : QueueManager) :
  OD.wf (queues st) ->
  OD.get "default" (queues st) = Some d ->
  exists st',
    delete_queue "default" st = (Ok tt, st') /\
    queues st' = OD.del "default" (queues st) /\
    ("default" ∉ OD.keys (queues st')) /\
    (Q st = d ->
     (forall k, (k, d) ∈ queues st -> k = "default") ->
     Q st' = d /\ ~ registered st' (Q st')).
Proof.
  intros Hwf Hd.
  assert (Hgone : "default" ∉ OD.keys (OD.del "default" (queues st))).
  { apply get_None_keys, get_del_eq, Hwf. }
  assert (Hout : (forall k, (k, d) ∈ queues st -> k = "default") ->
                 d ∉ OD.values (OD.del "default" (queues st))).
  { intros Honce Hin. unfold OD.values in Hin.
    apply list_elem_of_fmap in Hin as [[k q] [Hq Hin]]. simpl in Hq; subst q.
    pose proof (Honce k (elem_del _ _ _ _ Hin)) as ->.
    apply Hgone. apply (list_elem_of_fmap_2 fst) in Hin. exact Hin. }
  rewrite delete_queue_run.
  unfold OD.mem. rewrite Hd.
  destruct (String.eqb (queue_name (Q st)) "default").
  - eexists; split; [reflexivity|]. simpl.
    split; [reflexivity|]. split; [exact Hgone|].
    intros _ Honce. split; [reflexivity|]. unfold registered; simpl. auto.
  - eexists; split; [reflexivity|]. simpl.
    split; [reflexivity|]. split; [exact Hgone|].
    intros HQ Honce. split; [exact HQ|].
    unfold registered; simpl. rewrite HQ. auto.
Qed.

Lemma delete_queue_accepts_default_witness :
  exists st',
    delete_queue "default" Ex.st_default = (Ok tt, st') /\
    queues st' = [] /\ Q st' = Ex.q_default /\ ~ registered st' (Q st').
Proof.
  destruct (delete_queue_accepts_default Ex.st_default Ex.q_default)
    as (st' & Hrun & Hq & _ & Hact).
  - apply list.NoDup_cons; split; [apply not_elem_of_nil | apply NoDup_nil_2].
  - reflexivity.
  - exists st'. split; [exact Hrun|]. split; [exact Hq|].
    apply Hact; [reflexivity|].
    intros k Hin. apply list_elem_of_singleton in Hin. congruence.
Defined.

(** C1, as the code has it. For a registry keyed by the names of its queues
    that holds 'default' and whose active queue is registered, and for every
    sequence of [set_queue], [add_queue] and [delete_queue] calls that never
    removes 'default' and adds each queue under its own name: after the
    sequence 'default' is registered and the name of the active queue is a
    key of the registry; if no call of the sequence was an [add_queue] with
    [clobber=True] on the name of the queue active at that moment, exactly
    one queue is active and it is a value of the registry; and removing the
    active queue, when it is not 'default', returns and leaves the registered
    'default' queue active. *)
Theorem active_queue_after_calls (st : State) (ops : list op) :
  OD.wf (queues st) ->
  keyed (queues st) ->
  "default" ∈ OD.keys (queues st) ->
  registered st (Q st) ->
  Forall op_allowed ops ->
  ("default" ∈ OD.keys (queues (run_ops ops st))) /\
  active_name_registered (run_ops ops st) /\
  (no_overwrite_of_active st ops ->
   exactly_one_active (run_ops ops st) /\
   registered (run_ops ops st) (Q (run_ops ops st))) /\
  (forall name,
     name = queue_name (Q (run_ops ops st)) -> name <> "default" ->
     exists d st'',
       delete_queue name (run_ops ops st) = (Ok tt, st'') /\
       OD.get "default" (queues st'') = Some d /\
       Q st'' = d /\ queue_name d = "default").
Proof.
  intros Hwf Hk Hd Hr Hall.
  assert (Hentry : active_is_entry st) by by apply registered_entry.
  assert (Hok : registry_ok st).
  { split; auto. eapply get_Some_keys, Hentry. }
  pose proof (run_ops_ok ops st Hok Hall) as [Hwf' Hk' Hd' Ha'].
  split; [exact Hd'|]. split; [exact Ha'|]. split.
  - intros Hno.
    pose proof (entry_registered _ (run_ops_entry ops st Hok Hall Hno Hentry))
      as Hreg.
    split; [|exact Hreg].
    exists (Q (run_ops ops st)). split; [by split|].
    intros q' [_ Hq']. exact Hq'.
  - intros name -> Hne.
    destruct (keys_get_Some _ _ Hd') as [d Hget].
    exists d. eexists. rewrite delete_queue_run.
    apply mem_keys in Ha'. rewrite Ha', String.eqb_refl, Hget.
    split; [reflexivity|]. simpl.
    split; [|split; [reflexivity|]].
    + rewrite get_del_ne by assumption. exact Hget.
    + exact (Hk' _ _ (get_Some_elem _ _ _ Hget)).
Qed.

Lemma active_queue_after_calls_witness :
  exactly_one_active (run_ops Ex.ops_too Ex.st_default) /\
  registered (run_ops Ex.ops_too Ex.st_default)
             (Q (run_ops Ex.ops_too Ex.st_default)).
Proof.
  refine (proj1 (proj2 (proj2
    (active_queue_after_calls Ex.st_default Ex.ops_too _ _ _ _ _))) _).
  - apply wf_decide. vm_compute. reflexivity.
  - apply keyed_b_sound. vm_compute. reflexivity.
  - apply elem_decide. vm_compute. reflexivity.
  - apply list_elem_of_singleton. reflexivity.
  - repeat constructor; discriminate.
  - simpl. repeat split; discriminate.
Defined.

(** C1, as it is stated, fails: in the registry that holds 'default' only,
    with 'default' active, the call [add_queue('default', q)] with the default
    [clobber=True] puts another object under the key, and the active pointer
    is left on the old object, which is no longer a value of the registry. *)
Lemma clobbering_add_unregisters_active :
  ("default" ∈ OD.keys (queues Ex.st_default)) /\
  registered Ex.st_default (Q Ex.st_default) /\
  Forall op_allowed Ex.ops_clobber /\
  ~ registered (run_ops Ex.ops_clobber Ex.st_default)
               (Q (run_ops Ex.ops_clobber Ex.st_default)).
Proof.
  split; [apply elem_decide; vm_compute; reflexivity|].
  split; [apply list_elem_of_singleton; reflexivity|].
  split; [repeat constructor|].
  intros H. apply list_elem_of_singleton in H.
  apply (f_equal oid) in H. discriminate H.
Qed.

(** ** [check_for_TOO_queue_and_switch] *)

(** The loop of [check_for_TOO_queue_and_switch], over a part of the items
    of the registry. *)
Lemma too_loop now items : forall st,
  (forall k q, (k, q) ∈ items -> OD.get k (queues st) = Some q) ->
  for_each items (fun '(qq_name, qq) =>
    if is_TOO qq then
      if is_valid qq now then
        let* active := gets Q in
        let* n := gets (fun st => queue_len st qq) in
        if negb (is_TOO active) && negb (Nat.eqb n 0)
        then set_queue qq_name
        else ret tt
      else ret tt
    else ret tt) st
  = (Ok tt,
     if is_TOO (Q st) then st
     else match List.find (fun kv => too_ready now st kv.2) items with
          | Some (_, q) => with_Q q st
          | None => st
          end).
Proof.
  induction items as [|[k q] items IH]; intros st Hget.
  - simpl. unfold ret. destruct (is_TOO (Q st)); reflexivity.
  - assert (Hk : OD.get k (queues st) = Some q)
      by (apply Hget, elem_of_cons; auto).
    assert (Hrest : forall st', queues st' = queues st ->
              forall k' q', (k', q') ∈ items ->
                            OD.get k' (queues st') = Some q').
    { intros st' -> k' q' Hin. apply Hget, elem_of_cons; auto. }
    cbn [for_each List.find]. unfold bind at 1. unfold too_ready at 1.
    cbn [snd].
    destruct (is_TOO q) eqn:Etoo; cbn [andb].
    2:{ unfold ret at 1. apply IH, Hrest; reflexivity. }
    destruct (is_valid q now) eqn:Evalid; cbn [andb].
    2:{ unfold ret at 1. apply IH, Hrest; reflexivity. }
    unfold bind at 1, gets at 1. unfold bind at 1, gets at 1.
    destruct (is_TOO (Q st)) eqn:Eact; cbn [negb andb].
    { unfold ret at 1. rewrite IH by (apply Hrest; reflexivity).
      rewrite Eact. reflexivity. }
    destruct (Nat.eqb (queue_len st q) 0) eqn:Elen; cbn [negb].
    { unfold ret at 1. rewrite IH by (apply Hrest; reflexivity).
      rewrite Eact. reflexivity. }
    rewrite set_queue_run, Hk.
    rewrite IH by (apply Hrest; reflexivity).
    cbn [Q with_Q]. rewrite Etoo. reflexivity.
Qed.

(** C5. When some override queue is valid at [time_now] and has pending
    requests, and the active queue is not an override queue,
    [check_for_TOO_queue_and_switch(time_now)] returns with the first such
    queue of the registry, in iteration order, as the active queue: an
    override queue, valid and not empty; nothing else changes. When the
    active queue is an override queue already, the call changes nothing. *)
Theorem too_queue_preempts (time_now : Time) (st : State) :
  OD.wf (queues st) ->
  (is_TOO (Q st) = false ->
   (exists k q, (k, q) ∈ queues st /\ too_ready time_now st q = true) ->
   exists k q,
     first_too_ready time_now st = Some (k, q) /\
     check_for_TOO_queue_and_switch time_now st = (Ok tt, with_Q q st) /\
     (k, q) ∈ queues st /\
     is_TOO q = true /\ is_valid q time_now = true /\
     queue_len st q <> 0%nat) /\
  (is_TOO (Q st) = true ->
   check_for_TOO_queue_and_switch time_now st = (Ok tt, st)).
Proof.
  intros Hwf.
  assert (Hrun := too_loop time_now (queues st) st
                    (fun k q Hin => elem_get _ _ _ Hwf Hin)).
  change (check_for_TOO_queue_and_switch time_now st)
    with (for_each (queues st) (fun '(qq_name, qq) =>
            if is_TOO qq then
              if is_valid qq time_now then
                let* active := gets Q in
                let* n := gets (fun st => queue_len st qq) in
                if negb (is_TOO active) && negb (Nat.eqb n 0)
                then set_queue qq_name
                else ret tt
              else ret tt
            else ret tt) st).
  split.
  - intros Hact (k0 & q0 & Hin0 & Hready0).
    unfold first_too_ready.
    destruct (List.find (fun kv => too_ready time_now st kv.2) (queues st))
      as [[k q]|] eqn:Efind.
    + exists k, q. split; [reflexivity|].
      rewrite Hrun, Hact. split; [reflexivity|].
      apply find_some in Efind as [Hin Hready]. simpl in Hready.
      unfold too_ready in Hready.
      apply andb_true_iff in Hready as [Hready Hlen].
      apply andb_true_iff in Hready as [Htoo Hvalid].
      apply negb_true_iff, Nat.eqb_neq in Hlen.
      apply list_elem_of_In in Hin. auto.
    + exfalso. apply list_elem_of_In in Hin0.
      pose proof (find_none _ _ Efind _ Hin0) as Hno. simpl in Hno. congruence.
  - intros Hact. rewrite Hrun, Hact. reflexivity.
Qed.

Lemma too_queue_preempts_witness :
  exists k q,
    first_too_ready Ex.now_too Ex.st_too = Some (k, q) /\
    check_for_TOO_queue_and_switch Ex.now_too Ex.st_too
      = (Ok tt, with_Q q Ex.st_too) /\
    (k, q) ∈ queues Ex.st_too /\
    is_TOO q = true /\ is_valid q Ex.now_too = true /\
    queue_len Ex.st_too q <> 0%nat.
Proof.
  refine (proj1 (too_queue_preempts Ex.now_too Ex.st_too _) _ _).
  - apply wf_decide. vm_compute. reflexivity.
  - reflexivity.
  - exists "too", Ex.q_too. split.
    + apply elem_of_cons; right. apply elem_of_cons; left. reflexivity.
    + vm_compute. reflexivity.
Defined.

(** ** [find_excluded_blocks_tonight] *)

Section Blocks.
Variable block_index : Time -> Z.

Lemma is_timed_b_spec qq : is_timed_b qq = true <-> is_timed qq.
Proof.
  unfold is_timed_b, is_timed.
  rewrite andb_true_iff, negb_true_iff, bool_decide_eq_false.
  destruct (validity_window qq); split; intros [H1 H2];
    split; auto; congruence.
Qed.

(** The loop of [find_excluded_blocks_tonight], over a part of the items
    of the registry. *)
Lemma excluded_loop time_now items : forall st acc,
  for_fold items acc (fun '(qq_name, qq) exclude_blocks =>
    if bool_decide (queue_name qq ∈ ["default"; "fallback"])
    then ret exclude_blocks
    else
      match validity_window qq with
      | Some _ =>
          do (if negb (Nat.eqb
                (length (filter
                   (fun b => tonight_start block_index time_now <= b
                             <= tonight_stop block_index time_now)
                   (valid_blocks qq false))) 0)
              then modify (fun st =>
                     with_timed (timed_queues_tonight st ++ [qq_name]) st)
              else ret tt) then
          ret (exclude_blocks ++
               filter (fun b => tonight_start block_index time_now <= b
                                <= tonight_stop block_index time_now)
                      (valid_blocks qq true))
      | None => ret exclude_blocks
      end) st
  = (Ok (acc ++ flat_map (excluded_of block_index time_now) items),
     with_timed (timed_queues_tonight st
                 ++ flat_map (tonight_of block_index time_now) items) st).
Proof.
  induction items as [|[k q] items IH]; intros st acc.
  - simpl. unfold ret, with_timed. rewrite !app_nil_r.
    destruct st; reflexivity.
  - cbn [for_fold flat_map]. unfold bind at 1.
    unfold excluded_of at 1, tonight_of at 1, is_timed_b. cbn [fst snd].
    destruct (bool_decide (queue_name q ∈ ["default"; "fallback"]));
      cbn [negb andb].
    { unfold ret at 1. rewrite IH. reflexivity. }
    destruct (validity_window q); cbn [andb].
    2:{ unfold ret at 1. rewrite IH. reflexivity. }
    unfold bind at 1.
    destruct (negb _); cbn [andb].
    + unfold modify at 1, ret at 1. rewrite IH.
      cbn [timed_queues_tonight with_timed queues Q heap].
      rewrite <- !app_assoc. reflexivity.
    + unfold ret at 1 2. rewrite IH. rewrite <- !app_assoc. reflexivity.
Qed.

Lemma find_excluded_run time_now st :
  find_excluded_blocks_tonight block_index time_now st
  = (Ok (flat_map (excluded_of block_index time_now) (queues st)),
     with_timed (flat_map (tonight_of block_index time_now) (queues st)) st).
Proof.
  unfold find_excluded_blocks_tonight, bind at 1, modify at 1.
  unfold bind at 1, gets at 1. cbn [queues with_timed].
  exact (excluded_loop time_now (queues st) (with_timed [] st) []).
Qed.

(** C3, as the code has it. [find_excluded_blocks_tonight(time_now)]
    returns, and the blocks it returns are exactly the blocks [b] that some
    queue of the registry other than 'default' and 'fallback', with a
    validity window, reports as valid and complete, and that lie in the
    closed range of tonight,
    [block_index(floor(now)) <= b <= block_index(floor(now) + 1)]. *)
Theorem excluded_blocks_closed_range (time_now : Time) (st : State) :
  exists blocks st',
    find_excluded_blocks_tonight block_index time_now st = (Ok blocks, st') /\
    forall b,
      b ∈ blocks <->
      exists k qq,
        (k, qq) ∈ queues st /\ is_timed qq /\
        b ∈ valid_blocks qq true /\
        tonight_start block_index time_now <= b
          <= tonight_stop block_index time_now.
Proof.
  rewrite find_excluded_run. do 2 eexists. split; [reflexivity|].
  intros b. rewrite list_elem_of_In, in_flat_map. split.
  - intros ([k qq] & Hin & Hb). exists k, qq.
    apply list_elem_of_In in Hin. unfold excluded_of in Hb. simpl in Hb.
    destruct (is_timed_b qq) eqn:Et; [|destruct Hb].
    apply list_elem_of_In, list_elem_of_filter in Hb as [Hrange Hb].
    apply is_timed_b_spec in Et. auto.
  - intros (k & qq & Hin & Ht & Hb & Hrange). exists (k, qq).
    split; [by apply list_elem_of_In|].
    unfold excluded_of. simpl. apply is_timed_b_spec in Ht. rewrite Ht.
    apply list_elem_of_In, list_elem_of_filter. auto.
Qed.

(** C8. Two calls of [find_excluded_blocks_tonight(time_now)] in a row
    return the same blocks, and [timed_queues_tonight] (the whole state, in
    fact) is after the second call what it was after the first; the call
    starts by emptying [timed_queues_tonight], so that what it returns and
    what it leaves do not depend on the old value of the list. *)
Theorem find_excluded_blocks_twice (time_now : Time) (st : State) :
  let first := find_excluded_blocks_tonight block_index time_now st in
  let second := find_excluded_blocks_tonight block_index time_now first.2 in
  (exists blocks, first.1 = Ok blocks /\ second.1 = Ok blocks) /\
  timed_queues_tonight second.2 = timed_queues_tonight first.2 /\
  second.2 = first.2 /\
  forall old,
    find_excluded_blocks_tonight block_index time_now (with_timed old st)
    = find_excluded_blocks_tonight block_index time_now
        (with_timed [] st).
Proof.
  cbn zeta. rewrite !find_excluded_run. cbn [fst snd queues with_timed].
  split; [eexists; split; reflexivity|].
  split; [reflexivity|]. split; [reflexivity|].
  intros old. rewrite !find_excluded_run. reflexivity.
Qed.
End Blocks.

(** C3, as it is stated, fails: with blocks of 20 minutes and a queue whose
    window runs over midnight, the first block of tomorrow, 4176072, is among
    the blocks returned for MJD 58000.375. *)
Lemma excluded_blocks_include_stop_block :
  tonight_stop Ex.block20 Ex.now_too = 4176072 /\
  exists st',
    find_excluded_blocks_tonight Ex.block20 Ex.now_too Ex.st_midnight
    = (Ok [4176071; 4176072], st') /\
    tonight_stop Ex.block20 Ex.now_too ∈ [4176071; 4176072].
Proof.
  split; [vm_compute; reflexivity|].
  eexists. split.
  - rewrite find_excluded_run. vm_compute. reflexivity.
  - apply elem_of_cons; right. apply elem_of_cons; left.
    vm_compute. reflexivity.
Qed.

(** ** [remove_empty_and_expired_queues] *)

Lemma garbage_b_spec now st qq : garbage_b now st qq = true <-> garbage now st qq.
Proof.
  unfold garbage_b, garbage, window_elapsed.
  rewrite andb_true_iff, negb_true_iff, bool_decide_eq_false.
  rewrite orb_true_iff, andb_true_iff, String.eqb_eq, Nat.eqb_eq.
  split; intros [Hn H]; (split; [exact Hn|]).
  - destruct H as [H|H]; [left | right; exact H].
    destruct (validity_window qq) as [w|]; [|discriminate].
    exists w. split; [reflexivity|]. by apply bool_decide_eq_true in H.
  - destruct H as [(w & -> & H)|H]; [left | right; exact H].
    by apply bool_decide_eq_true.
Qed.

Lemma doomed_elem now st items k :
  k ∈ doomed now st items <->
  exists qq, (k, qq) ∈ items /\ garbage_b now st qq = true.
Proof.
  unfold doomed. rewrite list_elem_of_In, in_flat_map. split.
  - intros ([k' qq] & Hin & Hk). simpl in Hk.
    destruct (garbage_b now st qq) eqn:E; [|destruct Hk].
    destruct Hk as [->|[]]. exists qq. split; [by apply list_elem_of_In|done].
  - intros (qq & Hin & Hg). exists (k, qq). split; [by apply list_elem_of_In|].
    simpl. rewrite Hg. left; reflexivity.
Qed.

(** The first loop: it collects keys and changes nothing. *)
Lemma prune_scan now st items : forall acc,
  for_fold items acc (fun '(qq_name, qq) queues_for_deletion =>
    if bool_decide (queue_name qq ∈ ["default"; "fallback"])
    then ret queues_for_deletion
    else
      let expired :=
        match validity_window qq with
        | Some w => bool_decide (w.2 < now)%Qc
        | None => false
        end in
      if expired then ret (queues_for_deletion ++ [qq_name])
      else
        let* n := gets (fun st => queue_len st qq) in
        if String.eqb (queue_type qq) "list" && Nat.eqb n 0
        then ret (queues_for_deletion ++ [qq_name])
        else ret queues_for_deletion) st
  = (Ok (acc ++ doomed now st items), st).
Proof.
  induction items as [|[k q] items IH]; intros acc.
  - simpl. unfold ret. rewrite app_nil_r. reflexivity.
  - cbn [for_fold doomed flat_map]. fold (doomed now st items).
    unfold bind at 1. unfold garbage_b. cbn [fst snd].
    destruct (bool_decide (queue_name q ∈ ["default"; "fallback"]));
      cbn [negb andb].
    { unfold ret at 1. rewrite IH. reflexivity. }
    cbn zeta.
    destruct (match validity_window q with
              | Some w => bool_decide (w.2 < now)%Qc
              | None => false
              end); cbn [orb].
    { unfold ret at 1. rewrite IH, <- app_assoc. reflexivity. }
    unfold bind at 1, gets at 1.
    destruct (String.eqb (queue_type q) "list" && Nat.eqb (queue_len st q) 0).
    + unfold ret at 1. rewrite IH, <- app_assoc. reflexivity.
    + unfold ret at 1. rewrite IH. reflexivity.
Qed.

(** The second loop: it deletes distinct registered keys, none of them
    'default'. *)
Lemma prune_delete d names : forall st,
  NoDup names ->
  OD.wf (queues st) ->
  (forall n, n ∈ names -> n ∈ OD.keys (queues st)) ->
  "default" ∉ names ->
  OD.get "default" (queues st) = Some d ->
  exists st',
    for_each names delete_queue st = (Ok tt, st') /\
    (forall k, k ∈ names -> OD.get k (queues st') = None) /\
    (forall k, k ∉ names -> OD.get k (queues st') = OD.get k (queues st)) /\
    timed_queues_tonight st' = timed_queues_tonight st /\
    heap st' = heap st.
Proof.
  induction names as [|n names IH]; intros st Hnd Hwf Hkeys Hdef Hd.
  - exists st. split; [reflexivity|]. repeat split; auto.
    intros k Hk. by apply elem_of_nil in Hk.
  - apply list.NoDup_cons in Hnd as [Hn Hnd].
    apply not_elem_of_cons in Hdef as [Hne Hdef].
    assert (Hmem : OD.mem n (queues st) = true).
    { apply mem_keys, Hkeys, elem_of_cons; auto. }
    pose (st1 := if String.eqb (queue_name (Q st)) n
                 then with_queues (OD.del n (queues st)) (with_Q d st)
                 else with_queues (OD.del n (queues st)) st).
    assert (Hstep : delete_queue n st = (Ok tt, st1)).
    { rewrite delete_queue_run, Hmem, Hd. unfold st1.
      destruct (String.eqb (queue_name (Q st)) n); reflexivity. }
    assert (Hq1 : queues st1 = OD.del n (queues st)).
    { unfold st1. destruct (String.eqb (queue_name (Q st)) n); reflexivity. }
    assert (Hrest1 : timed_queues_tonight st1 = timed_queues_tonight st
                     /\ heap st1 = heap st).
    { unfold st1. destruct (String.eqb (queue_name (Q st)) n); by split. }
    destruct (IH st1) as (st' & Hrun & Hgone & Hkept & Ht & Hh).
    + exact Hnd.
    + rewrite Hq1. by apply wf_del.
    + intros k Hk. rewrite Hq1. apply keys_del; [assumption|].
      split; [intros ->; contradiction|].
      apply Hkeys, elem_of_cons; auto.
    + exact Hdef.
    + rewrite Hq1, get_del_ne by congruence. exact Hd.
    + exists st'. cbn [for_each]. unfold bind at 1. rewrite Hstep.
      split; [exact Hrun|]. destruct Hrest1 as [Ht1 Hh1].
      split; [|split; [|split; congruence]].
      * intros k Hk. apply elem_of_cons in Hk as [->|Hk]; [|auto].
        rewrite (Hkept _ Hn), Hq1. by apply get_del_eq.
      * intros k Hk. apply not_elem_of_cons in Hk as [Hkn Hk].
        rewrite (Hkept _ Hk), Hq1. apply get_del_ne. congruence.
Qed.

(** C2, as the code has it. In a registry whose key 'default' holds a queue
    named 'default', [remove_empty_and_expired_queues(time_now)] returns, and
    it removes a queue if and only if the queue is not named 'default' or
    'fallback' and either its validity window has ended before [time_now] or
    it is a list queue whose pending collection is empty, with or without a
    validity window; every other queue stays as it is, 'default' and
    'fallback' among them, and no queue is added. *)
Theorem prune_removes_garbage (set_iter : list string -> list string)
    (time_now : Time) (st : State) (d : QueueManager) :
  set_order_ok set_iter ->
  OD.wf (queues st) ->
  OD.get "default" (queues st) = Some d ->
  queue_name d = "default" ->
  exists st',
    remove_empty_and_expired_queues set_iter time_now st = (Ok tt, st') /\
    (forall k qq, (k, qq) ∈ queues st ->
       (OD.get k (queues st') = None <-> garbage time_now st qq) /\
       (~ garbage time_now st qq -> OD.get k (queues st') = Some qq)) /\
    (forall k qq, (k, qq) ∈ queues st ->
       queue_name qq ∈ ["default"; "fallback"] ->
       OD.get k (queues st') = Some qq) /\
    (forall k, k ∈ OD.keys (queues st') -> k ∈ OD.keys (queues st)).
Proof.
  intros Hord Hwf Hd Hdname.
  destruct (Hord (doomed time_now st (queues st))) as [Hnd Hsame].
  assert (Hiff : forall k qq, (k, qq) ∈ queues st ->
            (k ∈ set_iter (doomed time_now st (queues st))
             <-> garbage time_now st qq)).
  { intros k qq Hin. rewrite Hsame, doomed_elem. split.
    - intros (qq' & Hin' & Hg). apply garbage_b_spec.
      pose proof (elem_get _ _ _ Hwf Hin). pose proof (elem_get _ _ _ Hwf Hin').
      congruence.
    - intros Hg. exists qq. split; [assumption | by apply garbage_b_spec]. }
  destruct (prune_delete d (set_iter (doomed time_now st (queues st))) st)
    as (st' & Hrun & Hgone & Hkept & _ & _).
  - exact Hnd.
  - exact Hwf.
  - intros n Hn. apply Hsame, doomed_elem in Hn as (qq & Hin & _).
    apply (list_elem_of_fmap_2 fst) in Hin. exact Hin.
  - intros Hin.
    apply (Hiff _ _ (get_Some_elem _ _ _ Hd)) in Hin as [Hname _].
    apply Hname. rewrite Hdname. apply elem_of_cons; auto.
  - exact Hd.
  - assert (Hstay : forall k qq, (k, qq) ∈ queues st ->
              ~ garbage time_now st qq -> OD.get k (queues st') = Some qq).
    { intros k qq Hin Hng. rewrite Hkept; [by apply elem_get|].
      intros Hk. by apply (Hiff _ _ Hin) in Hk. }
    exists st'. split; [|split; [|split]].
    + unfold remove_empty_and_expired_queues, bind at 1, gets at 1.
      unfold bind at 1. rewrite prune_scan. exact Hrun.
    + intros k qq Hin. split; [split|].
      * intros Hnone.
        destruct (decide (k ∈ set_iter (doomed time_now st (queues st))))
          as [Hk|Hk]; [by apply (Hiff _ _ Hin)|].
        rewrite (Hkept _ Hk), (elem_get _ _ _ Hwf Hin) in Hnone. discriminate.
      * intros Hg. by apply Hgone, (Hiff _ _ Hin).
      * by apply Hstay.
    + intros k qq Hin Hname. apply Hstay; [assumption|].
      intros [Hn _]. contradiction.
    + intros k Hk. apply keys_get_Some in Hk as [v Hv].
      destruct (decide (k ∈ set_iter (doomed time_now st (queues st))))
        as [Hin|Hin]; [rewrite (Hgone _ Hin) in Hv; discriminate|].
      rewrite (Hkept _ Hin) in Hv. eapply get_Some_keys, Hv.
Qed.

Lemma remove_dups_order_ok : set_order_ok remove_dups.
Proof.
  intros l. split; [apply NoDup_remove_dups | intros x; apply elem_of_remove_dups].
Qed.

Lemma prune_removes_garbage_witness :
  exists st',
    remove_empty_and_expired_queues remove_dups Ex.now_too Ex.st_too_empty
      = (Ok tt, st') /\
    OD.get "default" (queues st') = Some Ex.q_default /\
    (OD.get "too" (queues st') = None
     <-> garbage Ex.now_too Ex.st_too_empty Ex.q_too_empty).
Proof.
  destruct (prune_removes_garbage remove_dups Ex.now_too Ex.st_too_empty
              Ex.q_default)
    as (st' & Hrun & Hiff & Hkeep & _).
  - exact remove_dups_order_ok.
  - apply wf_decide. vm_compute. reflexivity.
  - reflexivity.
  - reflexivity.
  - exists st'. split; [exact Hrun|]. split.
    + apply Hkeep; apply elem_of_cons; auto.
    + apply Hiff. apply elem_of_cons; right. apply elem_of_cons; auto.
Defined.

(** C2, as it is stated, fails: the list queue 'too' has a validity window
    that is open at MJD 58000.375 and no pending request; the specification
    keeps it, and [remove_empty_and_expired_queues] removes it. *)
Lemma prune_removes_empty_queue_with_open_window :
  validity_window Ex.q_too_empty = Some (Ex.too_start, Ex.too_stop) /\
  (Ex.too_start <= Ex.now_too)%Qc /\ (Ex.now_too < Ex.too_stop)%Qc /\
  ("too", Ex.q_too_empty) ∈ queues Ex.st_too_empty /\
  ~ garbage_claimed Ex.now_too Ex.st_too_empty Ex.q_too_empty /\
  OD.get "too"
    (queues (exec (remove_empty_and_expired_queues remove_dups Ex.now_too)
                  Ex.st_too_empty)) = None.
Proof.
  split; [reflexivity|].
  split; [vm_compute; discriminate|].
  split; [vm_compute; reflexivity|].
  split; [apply elem_of_cons; right; apply elem_of_cons; auto|].
  split; [|vm_compute; reflexivity].
  intros [_ [(w & Hw & Hlt)|(_ & Hw & _)]]; [|discriminate Hw].
  injection Hw as <-. vm_compute in Hlt. discriminate Hlt.
Qed.

(** ** [count_timed_observations_tonight] *)

(** *** Grouping and adding *)

Lemma tabulate_lookup {A} (g : Z -> A) (l : list Z) p :
  (list_to_map ((fun k => (k, g k)) <$> l) : gmap Z A) !! p
  = if decide (p ∈ l) then Some (g p) else None.
Proof.
  induction l as [|x l IH].
  - rewrite decide_False by apply not_elem_of_nil. reflexivity.
  - rewrite fmap_cons, list_to_map_cons. cbn [fst snd].
    destruct (decide (x = p)) as [->|Hne].
    + rewrite lookup_insert_eq, decide_True by (apply elem_of_cons; auto).
      reflexivity.
    + rewrite lookup_insert_ne, IH by assumption.
      destruct (decide (p ∈ l)) as [Hin|Hin].
      * rewrite decide_True by (apply elem_of_cons; auto). reflexivity.
      * rewrite decide_False; [reflexivity|].
        intros [?|?]%elem_of_cons; congruence.
Qed.

Lemma groupby_sum_lookup fl rs p :
  groupby_sum fl rs !! p
  = if decide (p ∈ program_id <$> rs) then Some (total_of fl rs p) else None.
Proof. unfold groupby_sum. apply tabulate_lookup. Qed.

Lemma count_of_cons k v l p :
  count_of ((k, v) :: l) p
  = (if decide (k = p) then v else 0) + count_of l p.
Proof. reflexivity. Qed.

Lemma add_counts_lookup l : forall (acc : gmap Z Z),
  (forall k v, (k, v) ∈ l -> is_Some (acc !! k)) ->
  exists acc',
    add_counts l acc = Ok acc' /\
    forall p, acc' !! p = (fun a => a + count_of l p) <$> acc !! p.
Proof.
  induction l as [|[k v] l IH]; intros acc Hdom.
  - exists acc. split; [reflexivity|]. intros p. unfold count_of. simpl.
    destruct (acc !! p); simpl; [f_equal; lia | reflexivity].
  - destruct (Hdom k v) as [old Hold]; [apply elem_of_cons; auto|].
    cbn [add_counts]. rewrite Hold.
    destruct (IH (<[k := old + v]> acc)) as (acc' & Hrun & Hlook).
    + intros k' v' Hin. destruct (decide (k = k')) as [->|Hne].
      * rewrite lookup_insert_eq. eauto.
      * rewrite lookup_insert_ne by assumption.
        eapply Hdom, elem_of_cons; eauto.
    + exists acc'. split; [exact Hrun|]. intros p.
      rewrite Hlook, count_of_cons.
      destruct (decide (k = p)) as [->|Hne].
      * rewrite lookup_insert_eq, Hold. cbn [fmap option_fmap option_map].
        f_equal. lia.
      * rewrite lookup_insert_ne by assumption.
        destruct (acc !! p); cbn [fmap option_fmap option_map];
          [f_equal; lia | reflexivity].
Qed.

Lemma count_of_absent l p : p ∉ l.*1 -> count_of l p = 0.
Proof.
  induction l as [|[k v] l IH]; intros Hp; [reflexivity|].
  rewrite count_of_cons. cbn [fmap list_fmap fst] in Hp.
  apply not_elem_of_cons in Hp as [Hne Hp].
  rewrite decide_False by congruence. rewrite IH by assumption. reflexivity.
Qed.

Lemma count_of_present l p v :
  NoDup l.*1 -> (p, v) ∈ l -> count_of l p = v.
Proof.
  induction l as [|[k v'] l IH]; intros Hnd Hin.
  - by apply elem_of_nil in Hin.
  - rewrite count_of_cons. cbn [fmap list_fmap fst] in Hnd.
    apply list.NoDup_cons in Hnd as [Hk Hnd].
    apply elem_of_cons in Hin as [Heq|Hin].
    + injection Heq as -> ->. rewrite decide_True by reflexivity.
      rewrite count_of_absent by assumption. lia.
    + rewrite decide_False.
      * rewrite IH by assumption. reflexivity.
      * intros ->. apply Hk.
        apply (list_elem_of_fmap_2 fst) in Hin. exact Hin.
Qed.

Lemma count_of_map (m : gmap Z Z) p :
  count_of (map_to_list m) p = default 0 (m !! p).
Proof.
  destruct (m !! p) as [v|] eqn:E; simpl.
  - apply count_of_present; [apply NoDup_fst_map_to_list|].
    by apply elem_of_map_to_list.
  - apply count_of_absent. intros Hin.
    apply list_elem_of_fmap in Hin as [[k v] [-> Hin]].
    apply elem_of_map_to_list in Hin. simpl in E. congruence.
Qed.

(** *** The copy, and one queue *)

Lemma insert_last (h : list DataFrame) x y :
  <[length h := y]> (h ++ [x]) = h ++ [y].
Proof. induction h as [|z h IH]; simpl; [reflexivity | by rewrite IH]. Qed.

Lemma deref_last (h : list DataFrame) x : deref (h ++ [x]) (length h) = x.
Proof. unfold deref. by rewrite list_lookup_middle. Qed.

Lemma deref_app (h ext : list DataFrame) r :
  (r < length h)%nat -> deref (h ++ ext) r = deref h r.
Proof. intros Hr. unfold deref. by rewrite lookup_app_l. Qed.

Section TallyFacts.
Variable fl : Float64.
Variables EXPOSURE_TIME READOUT_TIME : Qc.

Lemma prepared_by_assignments df :
  assign_total_time
    (fun row => f_mul fl (f_add fl (exposure_time row) READOUT_TIME)
                      (n_repeats row))
    (if has_n_repeats df then df else assign_n_repeats 1%Qc df)
  = prepared fl READOUT_TIME df.
Proof.
  unfold prepared, assign_total_time, prepare_row, row_time.
  destruct df as [has ht rs]; destruct has;
    cbn [has_n_repeats has_total_time rows assign_n_repeats request_id
         program_id exposure_time n_repeats total_time];
    f_equal.
  rewrite <- list_fmap_compose. reflexivity.
Qed.

Lemma inner_loop l : forall (acc : gmap Z Z) st,
  for_fold l acc (fun '(k, v) timed_obs =>
     match timed_obs !! k with
     | None => raise (KeyErrorZ k)
     | Some old => ret (<[k := old + v]> timed_obs)
     end) st
  = (add_counts l acc, st).
Proof.
  induction l as [|[k v] l IH]; intros acc st; [reflexivity|].
  cbn [for_fold add_counts]. unfold bind at 1.
  destruct (acc !! k); [|reflexivity].
  unfold ret at 1. apply IH.
Qed.

Lemma count_queue_run qq acc st :
  count_queue fl EXPOSURE_TIME READOUT_TIME qq acc st
  = match OD.get qq (queues st) with
    | None => (Raise (KeyError qq), st)
    | Some q =>
        (add_table
           (counts_of fl EXPOSURE_TIME READOUT_TIME
              (deref (heap st) (queue q))) acc,
         with_heap
           (heap st ++ [prepared fl READOUT_TIME (deref (heap st) (queue q))])
           st)
    end.
Proof.
  unfold count_queue, bind at 1, gets at 1.
  destruct (OD.get qq (queues st)) as [q|]; [|reflexivity].
  unfold bind at 1, df_copy, bind at 1, gets at 1, bind at 1, modify at 1.
  unfold ret at 1. cbn [heap with_heap].
  unfold bind at 1, df_read at 1, gets at 1. cbn [heap with_heap].
  rewrite deref_last.
  set (df0 := deref (heap st) (queue q)).
  assert (Hstep1 :
    (if has_n_repeats df0 then ret tt
     else df_write (length (heap st)) (assign_n_repeats 1%Qc df0))
      (with_heap (heap st ++ [df0]) st)
    = (Ok tt, with_heap
                (heap st ++ [if has_n_repeats df0 then df0
                             else assign_n_repeats 1%Qc df0]) st)).
  { destruct (has_n_repeats df0); [reflexivity|].
    unfold df_write, modify, with_heap.
    cbn [heap queues Q timed_queues_tonight].
    rewrite insert_last. reflexivity. }
  unfold bind at 1. rewrite Hstep1. cbv beta iota.
  unfold bind at 1, df_read at 1, gets at 1. cbn [heap with_heap].
  rewrite deref_last.
  unfold bind at 1, df_write at 1, modify at 1.
  cbn [heap with_heap queues Q timed_queues_tonight].
  rewrite insert_last, prepared_by_assignments.
  unfold bind at 1, df_read at 1, gets at 1. cbn [heap with_heap].
  rewrite deref_last. cbn zeta.
  unfold add_table, counts_of.
  destruct (count_equivalent fl (f_add fl EXPOSURE_TIME READOUT_TIME)
              (groupby_sum fl (rows (prepared fl READOUT_TIME df0))));
    [|reflexivity].
  rewrite inner_loop. reflexivity.
Qed.

Lemma filter_prepared df p (rs : list Row) :
  filter (fun r => program_id r = p) (prepare_row fl READOUT_TIME df <$> rs)
  = prepare_row fl READOUT_TIME df <$> filter (fun r => program_id r = p) rs.
Proof.
  induction rs as [|r rs IH]; [reflexivity|].
  rewrite fmap_cons, !filter_cons. cbn [prepare_row program_id].
  destruct (decide (program_id r = p)); rewrite IH; reflexivity.
Qed.

Lemma total_of_prepared df p :
  total_of fl (rows (prepared fl READOUT_TIME df)) p
  = program_time fl READOUT_TIME df p.
Proof.
  unfold total_of, program_time, prepared. cbn [rows].
  rewrite filter_prepared, <- list_fmap_compose. reflexivity.
Qed.

Lemma programs_of_prepared df :
  program_id <$> rows (prepared fl READOUT_TIME df) = program_id <$> rows df.
Proof.
  unfold prepared. cbn [rows]. rewrite <- list_fmap_compose. reflexivity.
Qed.

(** The series of a table: the total time of each program that has a
    request. *)
Lemma net_lookup df p :
  groupby_sum fl (rows (prepared fl READOUT_TIME df)) !! p
  = if decide (p ∈ program_id <$> rows df)
    then Some (program_time fl READOUT_TIME df p) else None.
Proof.
  rewrite groupby_sum_lookup, programs_of_prepared, total_of_prepared.
  reflexivity.
Qed.

(** What [astype] returns when it returns. *)
Lemma count_equivalent_elem c (net : gmap Z Qc) l k v :
  count_equivalent fl c net = Some l ->
  ((k, v) ∈ l <->
   exists t, net !! k = Some t /\
             astype_int fl (np_round fl (f_div fl t c)) = Some v).
Proof.
  unfold count_equivalent. intros Hl. apply mapM_Some in Hl.
  setoid_rewrite <- elem_of_map_to_list.
  induction Hl as [|[k0 t0] [k1 v1] items l Hhd Hl IH].
  - split; [intros Hin; by apply elem_of_nil in Hin|].
    intros (t & Hin & _). by apply elem_of_nil in Hin.
  - cbn [fst snd] in Hhd.
    destruct (astype_int fl (np_round fl (f_div fl t0 c))) as [v0|] eqn:E;
      [|discriminate].
    injection Hhd as <- <-.
    rewrite elem_of_cons, IH. split.
    + intros [Heq|(t & Hin & Hv)].
      * injection Heq as -> ->. exists t0. split; [apply elem_of_cons; auto|].
        exact E.
      * exists t. split; [apply elem_of_cons; auto | exact Hv].
    + intros (t & Hin & Hv). apply elem_of_cons in Hin as [Heq|Hin].
      * injection Heq as -> ->. left. congruence.
      * right. eauto.
Qed.

Lemma count_equivalent_keys c (net : gmap Z Qc) l :
  count_equivalent fl c net = Some l -> l.*1 = (map_to_list net).*1.
Proof.
  unfold count_equivalent. intros Hl. apply mapM_Some in Hl.
  induction Hl as [|[k0 t0] [k1 v1] items l Hhd Hl IH]; [reflexivity|].
  cbn [fst snd] in Hhd.
  destruct (astype_int fl (np_round fl (f_div fl t0 c))); [|discriminate].
  injection Hhd as <- <-. cbn [fmap list_fmap fst]. f_equal. exact IH.
Qed.

Lemma count_equivalent_Some c (net : gmap Z Qc) :
  (forall k t, net !! k = Some t ->
     is_Some (astype_int fl (np_round fl (f_div fl t c)))) ->
  exists l, count_equivalent fl c net = Some l.
Proof.
  intros Hall. apply mapM_is_Some. apply list.Forall_forall.
  intros [k t] Hin. apply elem_of_map_to_list in Hin.
  destruct (Hall k t Hin) as [v Hv]. cbn [fst snd compose].
  rewrite Hv. eexists. reflexivity.
Qed.

Lemma counts_of_Some df :
  (forall r, r ∈ rows df ->
     is_Some (astype_int fl
                (rounded_obs fl EXPOSURE_TIME READOUT_TIME df
                             (program_id r)))) ->
  exists l, counts_of fl EXPOSURE_TIME READOUT_TIME df = Some l.
Proof.
  intros Hall. apply count_equivalent_Some. intros k t Hk.
  rewrite net_lookup in Hk.
  destruct (decide (k ∈ program_id <$> rows df)) as [Hin|]; [|discriminate].
  injection Hk as <-.
  apply list_elem_of_fmap in Hin as (r & -> & Hr). by apply Hall.
Qed.

Lemma counts_of_count df l p :
  counts_of fl EXPOSURE_TIME READOUT_TIME df = Some l ->
  count_of l p = equivalent_obs fl EXPOSURE_TIME READOUT_TIME df p.
Proof.
  intros Hl. unfold equivalent_obs.
  pose proof (count_equivalent_keys _ _ _ Hl) as Hkeys.
  destruct (decide (p ∈ program_id <$> rows df)) as [Hp|Hp].
  - assert (Hnet := net_lookup df p). rewrite decide_True in Hnet by exact Hp.
    destruct (astype_int fl
                (rounded_obs fl EXPOSURE_TIME READOUT_TIME df p))
      as [v|] eqn:E.
    + cbn [default]. apply count_of_present.
      * rewrite Hkeys. apply NoDup_fst_map_to_list.
      * apply (count_equivalent_elem _ _ _ _ _ Hl). eauto.
    + exfalso.
      assert (Hin : p ∈ l.*1).
      { rewrite Hkeys. apply list_elem_of_fmap.
        exists (p, program_time fl READOUT_TIME df p).
        split; [reflexivity | by apply elem_of_map_to_list]. }
      apply list_elem_of_fmap in Hin as ([k v] & -> & Hin). cbn [fst] in *.
      apply (count_equivalent_elem _ _ _ _ _ Hl) in Hin as (t & Ht & Hv).
      rewrite Hnet in Ht. injection Ht as <-.
      unfold rounded_obs in E. congruence.
  - apply count_of_absent. rewrite Hkeys. intros Hin.
    apply list_elem_of_fmap in Hin as ([k t] & -> & Hin). cbn [fst] in *.
    apply elem_of_map_to_list in Hin. rewrite net_lookup in Hin.
    destruct (decide (k ∈ program_id <$> rows df)); [contradiction|].
    discriminate.
Qed.

Lemma counts_of_keys df l k v :
  counts_of fl EXPOSURE_TIME READOUT_TIME df = Some l ->
  (k, v) ∈ l ->
  exists r, r ∈ rows df /\ program_id r = k.
Proof.
  intros Hl Hin.
  apply (count_equivalent_elem _ _ _ _ _ Hl) in Hin as (t & Ht & _).
  rewrite net_lookup in Ht.
  destruct (decide (k ∈ program_id <$> rows df)) as [Hk|Hk]; [|discriminate].
  apply list_elem_of_fmap in Hk as (r & -> & Hr). eauto.
Qed.

Lemma counts_of_has_key df l r :
  counts_of fl EXPOSURE_TIME READOUT_TIME df = Some l ->
  r ∈ rows df ->
  exists v, (program_id r, v) ∈ l.
Proof.
  intros Hl Hr.
  assert (Hin : program_id r ∈ l.*1).
  { rewrite (count_equivalent_keys _ _ _ Hl). apply list_elem_of_fmap.
    exists (program_id r,
            program_time fl READOUT_TIME df (program_id r)).
    split; [reflexivity|]. apply elem_of_map_to_list.
    rewrite net_lookup, decide_True by (by apply list_elem_of_fmap_2).
    reflexivity. }
  apply list_elem_of_fmap in Hin as ([k v] & Hk & Hin). cbn [fst] in Hk.
  subst k. eauto.
Qed.

(** The loop changes only the heap, and only by adding frames to it. *)
Lemma count_loop_frame timed : forall acc st res st',
  for_fold timed acc (count_queue fl EXPOSURE_TIME READOUT_TIME) st
    = (res, st') ->
  queues st' = queues st /\ Q st' = Q st /\
  timed_queues_tonight st' = timed_queues_tonight st /\
  exists copies, heap st' = heap st ++ copies.
Proof.
  induction timed as [|qq timed IH]; intros acc st res st' Hrun.
  - injection Hrun as _ <-. repeat split. exists []. by rewrite app_nil_r.
  - cbn [for_fold] in Hrun. unfold bind at 1 in Hrun.
    rewrite count_queue_run in Hrun.
    destruct (OD.get qq (queues st)) as [q|].
    2:{ injection Hrun as _ <-. repeat split. exists [].
        by rewrite app_nil_r. }
    destruct (add_table
                (counts_of fl EXPOSURE_TIME READOUT_TIME
                   (deref (heap st) (queue q))) acc) as [acc'|e].
    + apply IH in Hrun as (Hq & HQ & Ht & copies & Hh).
      cbn [queues Q timed_queues_tonight heap with_heap] in *.
      repeat split; try assumption.
      eexists. rewrite Hh, <- app_assoc. reflexivity.
    + injection Hrun as _ <-. repeat split. eexists. reflexivity.
Qed.

Lemma count_loop_value st0 timed : forall acc st,
  queues st = queues st0 ->
  (exists ext, heap st = heap st0 ++ ext) ->
  (forall qq, qq ∈ timed ->
     exists q, OD.get qq (queues st0) = Some q /\
               (queue q < length (heap st0))%nat /\
               forall r, r ∈ rows (deref (heap st0) (queue q)) ->
                         is_Some (acc !! program_id r)) ->
  (forall qq r, qq ∈ timed -> r ∈ rows (pending st0 qq) ->
     is_Some (astype_int fl
                (rounded_obs fl EXPOSURE_TIME READOUT_TIME (pending st0 qq)
                             (program_id r)))) ->
  exists acc' st',
    for_fold timed acc (count_queue fl EXPOSURE_TIME READOUT_TIME) st
      = (Ok acc', st') /\
    forall p,
      acc' !! p
      = (fun a => a + Z_sum ((fun qq =>
                     equivalent_obs fl EXPOSURE_TIME READOUT_TIME
                                    (pending st0 qq) p) <$> timed))
          <$> acc !! p.
Proof.
  induction timed as [|qq timed IH]; intros acc st Hqs [ext Hh] Hq Hconv.
  - exists acc, st. split; [reflexivity|]. intros p.
    cbn [fmap list_fmap Z_sum foldr].
    destruct (acc !! p); cbn [fmap option_fmap option_map];
      [f_equal; lia | reflexivity].
  - destruct (Hq qq) as (q & Hget & Hlt & Hrows); [apply elem_of_cons; auto|].
    cbn [for_fold]. unfold bind at 1.
    rewrite count_queue_run, Hqs, Hget, Hh, deref_app by assumption.
    destruct (counts_of_Some (deref (heap st0) (queue q))) as [l Hl].
    { intros r Hr.
      assert (Hpend : pending st0 qq = deref (heap st0) (queue q))
        by (unfold pending; by rewrite Hget).
      rewrite <- Hpend. apply Hconv; [apply elem_of_cons; auto|].
      by rewrite Hpend. }
    rewrite Hl. cbn [add_table].
    destruct (add_counts_lookup l acc) as (acc1 & Hadd & Hlook).
    { intros k v Hin.
      apply (counts_of_keys _ _ _ _ Hl) in Hin as (r & Hr & <-). auto. }
    rewrite Hadd.
    destruct (IH acc1
                (with_heap
                   ((heap st0 ++ ext)
                    ++ [prepared fl READOUT_TIME
                          (deref (heap st0) (queue q))])
                   st))
      as (acc' & st' & Hrun & Hfinal).
    + exact Hqs.
    + eexists. cbn [heap with_heap]. rewrite <- app_assoc. reflexivity.
    + intros qq' Hin'.
      destruct (Hq qq') as (q' & Hget' & Hlt' & Hrows');
        [apply elem_of_cons; auto|].
      exists q'. split; [assumption|]. split; [assumption|].
      intros r Hr. rewrite Hlook.
      destruct (Hrows' r Hr) as [a ->]. cbn. eauto.
    + intros qq' r Hin'. apply Hconv, elem_of_cons; auto.
    + exists acc', st'. split; [exact Hrun|]. intros p.
      rewrite Hfinal, Hlook, (counts_of_count _ _ _ Hl).
      cbn [fmap list_fmap Z_sum foldr].
      unfold pending at 2. rewrite Hget.
      destruct (acc !! p); cbn [fmap option_fmap option_map];
        [f_equal; unfold Z_sum; lia | reflexivity].
Qed.

(** A name of [timed_queues_tonight] that is not registered stops the loop
    with an exception. *)
Lemma count_loop_unregistered timed : forall acc st,
  (exists qq, qq ∈ timed /\ OD.get qq (queues st) = None) ->
  exists e st',
    for_fold timed acc (count_queue fl EXPOSURE_TIME READOUT_TIME) st
      = (Raise e, st').
Proof.
  induction timed as [|qq0 timed IH]; intros acc st (qq & Hin & Hnone).
  - by apply elem_of_nil in Hin.
  - cbn [for_fold]. unfold bind at 1. rewrite count_queue_run.
    destruct (OD.get qq0 (queues st)) as [q|] eqn:Eget; [|eauto].
    destruct (add_table
                (counts_of fl EXPOSURE_TIME READOUT_TIME
                   (deref (heap st) (queue q))) acc) as [acc'|e];
      [|eauto].
    apply IH. exists qq. split; [|exact Hnone].
    apply elem_of_cons in Hin as [->|Hin]; [congruence | exact Hin].
Qed.
End TallyFacts.

Lemma zeros_lookup (programs : list Z) p :
  (list_to_map ((fun prog => (prog, 0)) <$> programs) : gmap Z Z) !! p
  = if decide (p ∈ programs) then Some 0 else None.
Proof. apply (tabulate_lookup (fun _ => 0)). Qed.


(** *** The tally, and what the method leaves *)

(** The method on a state it can work on. *)
Lemma count_run_countable (fl : Float64) (PROGRAM_IDS : list Z)
    (EXPOSURE_TIME READOUT_TIME : Qc) (st : State) :
  countable PROGRAM_IDS st ->
  convertible fl EXPOSURE_TIME READOUT_TIME st ->
  exists timed_obs st',
    count_timed_observations_tonight fl PROGRAM_IDS EXPOSURE_TIME READOUT_TIME
                                     st
      = (Ok timed_obs, st') /\
    (forall p, p ∈ PROGRAM_IDS ->
       timed_obs !! p = Some (tally fl EXPOSURE_TIME READOUT_TIME st p)) /\
    (forall p, p ∉ PROGRAM_IDS -> timed_obs !! p = None).
Proof.
  intros Hc Hconv.
  destruct (count_loop_value fl EXPOSURE_TIME READOUT_TIME st
              (timed_queues_tonight st)
              (list_to_map ((fun prog => (prog, 0)) <$> PROGRAM_IDS)) st
              eq_refl)
    as (acc' & st' & Hrun & Hlook).
  { exists []. by rewrite app_nil_r. }
  { intros qq Hin. destruct (Hc qq Hin) as (q & Hget & Hlt & Hrows).
    exists q. split; [assumption|]. split; [assumption|].
    intros r Hr. rewrite zeros_lookup, decide_True by auto. eauto. }
  { exact Hconv. }
  unfold count_timed_observations_tonight, bind at 1, gets at 1.
  destruct (timed_queues_tonight st) as [|qq timed] eqn:Et.
  - cbn [length Nat.eqb]. unfold ret. do 2 eexists.
    split; [reflexivity|]. split.
    + intros p Hp. rewrite zeros_lookup, decide_True by assumption.
      unfold tally. rewrite Et. reflexivity.
    + intros p Hp. rewrite zeros_lookup, decide_False by assumption.
      reflexivity.
  - cbn [length Nat.eqb]. exists acc', st'. split; [exact Hrun|]. split.
    + intros p Hp. rewrite Hlook, zeros_lookup, decide_True by assumption.
      unfold tally. rewrite Et. reflexivity.
    + intros p Hp. rewrite Hlook, zeros_lookup, decide_False by assumption.
      reflexivity.
Qed.

(** A program without a request in any of the queues has a tally of 0. *)
Lemma tally_without_requests (fl : Float64) (EXPOSURE_TIME READOUT_TIME : Qc)
    (st : State) (p : Z) :
  (forall qq r, qq ∈ timed_queues_tonight st ->
     r ∈ rows (pending st qq) -> program_id r <> p) ->
  tally fl EXPOSURE_TIME READOUT_TIME st p = 0.
Proof.
  unfold tally. induction (timed_queues_tonight st) as [|qq l IH];
    intros Hnone; [reflexivity|].
  cbn [fmap list_fmap Z_sum foldr]. fold (Z_sum).
  unfold equivalent_obs at 1. rewrite decide_False.
  - change (foldr Z.add 0 ?x) with (Z_sum x).
    rewrite IH; [reflexivity|].
    intros qq' r Hin. apply Hnone, elem_of_cons; auto.
  - intros Hin. apply list_elem_of_fmap in Hin as (r & -> & Hr).
    apply (Hnone qq r); [apply elem_of_cons; auto | exact Hr | reflexivity].
Qed.

(** A count that cannot be converted stops the loop with the [ValueError]
    of [astype]. *)
Lemma count_loop_unconvertible (fl : Float64)
    (EXPOSURE_TIME READOUT_TIME : Qc) (st0 : State) (qq : string) (r : Row)
    timed : forall acc st,
  queues st = queues st0 ->
  (exists ext, heap st = heap st0 ++ ext) ->
  (forall qq, qq ∈ timed ->
     exists q, OD.get qq (queues st0) = Some q /\
               (queue q < length (heap st0))%nat /\
               forall r, r ∈ rows (deref (heap st0) (queue q)) ->
                         is_Some (acc !! program_id r)) ->
  qq ∈ timed ->
  r ∈ rows (pending st0 qq) ->
  astype_int fl
    (rounded_obs fl EXPOSURE_TIME READOUT_TIME (pending st0 qq)
                 (program_id r)) = None ->
  exists st',
    for_fold timed acc (count_queue fl EXPOSURE_TIME READOUT_TIME) st
    = (Raise cannot_convert, st').
Proof.
  induction timed as [|qq0 timed IH];
    intros acc st Hqs [ext Hh] Hq Hin Hr Hnone.
  - by apply elem_of_nil in Hin.
  - destruct (Hq qq0) as (q0 & Hget & Hlt & Hrows);
      [apply elem_of_cons; auto|].
    cbn [for_fold]. unfold bind at 1.
    rewrite count_queue_run, Hqs, Hget, Hh, deref_app by assumption.
    destruct (counts_of fl EXPOSURE_TIME READOUT_TIME
                (deref (heap st0) (queue q0))) as [l|] eqn:El;
      cbn [add_table]; [|eauto].
    destruct (add_counts_lookup l acc) as (acc1 & Hadd & Hlook).
    { intros k v Hkv.
      apply (counts_of_keys _ _ _ _ _ _ _ El) in Hkv as (r' & Hr' & <-).
      auto. }
    rewrite Hadd.
    destruct (decide (qq0 = qq)) as [->|Hne].
    + exfalso. unfold pending in Hr, Hnone. rewrite Hget in Hr, Hnone.
      destruct (counts_of_has_key _ _ _ _ _ _ El Hr) as [v Hv].
      apply (count_equivalent_elem _ _ _ _ _ _ El) in Hv as (t & Ht & Hv).
      rewrite net_lookup in Ht.
      destruct (decide (program_id r
                        ∈ program_id <$> rows (deref (heap st0) (queue q0))));
        [|discriminate].
      injection Ht as <-. unfold rounded_obs in Hnone. congruence.
    + apply elem_of_cons in Hin as [->|Hin]; [contradiction|].
      apply IH; try assumption.
      * eexists. cbn [heap with_heap]. rewrite <- app_assoc. reflexivity.
      * intros qq' Hin'.
        destruct (Hq qq') as (q' & Hget' & Hlt' & Hrows');
          [apply elem_of_cons; auto|].
        exists q'. split; [assumption|]. split; [assumption|].
        intros r' Hr'. rewrite Hlook.
        destruct (Hrows' r' Hr') as [a ->]. cbn. eauto.
Qed.

(** C4, as the code has it. In a state where every name of
    [timed_queues_tonight] is registered and every pending request of these
    queues belongs to one of [PROGRAM_IDS],
    [count_timed_observations_tonight] returns when [astype(int)] can
    convert every count, and raises the [ValueError] of [astype] when it
    cannot convert one of them. The dict it returns has the keys
    [PROGRAM_IDS]. The value of a program is the sum, over the names of
    [timed_queues_tonight], of the count of the queue: for a queue with
    requests of the program, the float64 sum of
    [(exposure_time + READOUT_TIME) * n_repeats] over these requests, with
    [n_repeats = 1.] in a table without the column, divided by
    [EXPOSURE_TIME + READOUT_TIME], rounded by [np.round] and converted by
    [astype(int)], all in the arithmetic of numpy, whatever it is; for a
    queue without a request of the program, 0. So a program without a
    request in any of the queues has 0, and every program has 0 when
    [timed_queues_tonight] is empty. With one timed queue of four requests
    of 30 s, a readout of 15 s and a nominal exposure of 30 s, the tally of
    the program of the requests is 4 in an arithmetic that is exact on the
    numbers 30 + 15, 45 * 1, 45 + 45 + 45 + 45 and 180 / 45, as float64
    is. *)
Theorem tally_of_timed_queues :
  (forall (fl : Float64) (PROGRAM_IDS : list Z)
          (EXPOSURE_TIME READOUT_TIME : Qc) (st : State),
     countable PROGRAM_IDS st ->
     (convertible fl EXPOSURE_TIME READOUT_TIME st ->
      exists timed_obs st',
        count_timed_observations_tonight fl PROGRAM_IDS EXPOSURE_TIME
                                         READOUT_TIME st
          = (Ok timed_obs, st') /\
        (forall p, p ∈ PROGRAM_IDS ->
           timed_obs !! p
           = Some (tally fl EXPOSURE_TIME READOUT_TIME st p)) /\
        (forall p, p ∉ PROGRAM_IDS -> timed_obs !! p = None) /\
        (forall p, p ∈ PROGRAM_IDS ->
           (forall qq r, qq ∈ timed_queues_tonight st ->
              r ∈ rows (pending st qq) -> program_id r <> p) ->
           timed_obs !! p = Some 0) /\
        (timed_queues_tonight st = [] ->
         forall p, p ∈ PROGRAM_IDS -> timed_obs !! p = Some 0)) /\
     (forall qq r,
        qq ∈ timed_queues_tonight st ->
        r ∈ rows (pending st qq) ->
        astype_int fl
          (rounded_obs fl EXPOSURE_TIME READOUT_TIME (pending st qq)
                       (program_id r)) = None ->
        exists st',
          count_timed_observations_tonight fl PROGRAM_IDS EXPOSURE_TIME
                                           READOUT_TIME st
            = (Raise cannot_convert, st'))) /\
  (forall fl : Float64,
     f_add fl (Q2Qc 30) (Q2Qc 15) = Q2Qc 45 ->
     f_mul fl (Q2Qc 45) (Q2Qc 1) = Q2Qc 45 ->
     f_sum fl [Q2Qc 45; Q2Qc 45; Q2Qc 45; Q2Qc 45] = Q2Qc 180 ->
     f_div fl (Q2Qc 180) (Q2Qc 45) = Q2Qc 4 ->
     np_round fl (Q2Qc 4) = Q2Qc 4 ->
     astype_int fl (Q2Qc 4) = Some 4 ->
     exists timed_obs st',
       count_timed_observations_tonight fl Ex.programs Ex.exposure Ex.readout
                                        Ex.st_four
         = (Ok timed_obs, st') /\
       timed_obs !! 1 = Some 0 /\ timed_obs !! 2 = Some 4 /\
       timed_obs !! 3 = Some 0).
Proof.
  split.
  - intros fl PR E R st Hc. split.
    + intros Hconv.
      destruct (count_run_countable fl PR E R st Hc Hconv)
        as (timed_obs & st' & Hrun & Hin & Hout).
      exists timed_obs, st'. split; [exact Hrun|]. split; [exact Hin|].
      split; [exact Hout|]. split.
      * intros p Hp Hnone. rewrite (Hin p Hp). f_equal.
        by apply tally_without_requests.
      * intros Hempty p Hp. rewrite (Hin p Hp). f_equal.
        apply tally_without_requests. intros qq r Hqq.
        rewrite Hempty in Hqq. by apply elem_of_nil in Hqq.
    + intros qq r Hqq Hr Hnone.
      unfold count_timed_observations_tonight, bind at 1, gets at 1.
      destruct (timed_queues_tonight st) as [|qq0 timed] eqn:Et;
        [by apply elem_of_nil in Hqq|].
      cbn [length Nat.eqb].
      apply (count_loop_unconvertible fl E R st qq r); try assumption.
      * reflexivity.
      * exists []. by rewrite app_nil_r.
      * intros qq' Hin'. rewrite <- Et in Hin'.
        destruct (Hc qq' Hin') as (q & Hget & Hlt & Hrows).
        exists q. split; [assumption|]. split; [assumption|].
        intros r' Hr'. rewrite zeros_lookup, decide_True by auto. eauto.
  - intros fl Hadd Hmul Hsum Hdiv Hround Hint.
    assert (Hcount :
      equivalent_obs fl Ex.exposure Ex.readout
        (mkDataFrame true false
           [Ex.row30 1; Ex.row30 2; Ex.row30 3; Ex.row30 4]) 2 = 4
      /\ is_Some (astype_int fl
                    (rounded_obs fl Ex.exposure Ex.readout
                       (mkDataFrame true false
                          [Ex.row30 1; Ex.row30 2; Ex.row30 3; Ex.row30 4])
                       2))).
    { unfold equivalent_obs.
      rewrite decide_True by (apply elem_of_cons; auto).
      unfold rounded_obs, program_time, row_time.
      cbn [rows has_n_repeats fmap list_fmap].
      change (filter (fun r : Row => program_id r = 2)
                [Ex.row30 1; Ex.row30 2; Ex.row30 3; Ex.row30 4])
        with [Ex.row30 1; Ex.row30 2; Ex.row30 3; Ex.row30 4].
      cbn [fmap list_fmap Ex.row30 exposure_time n_repeats].
      unfold Ex.exposure, Ex.readout.
      rewrite Hadd, Hmul, Hsum, Hdiv, Hround, Hint. split; [reflexivity|].
      eexists; reflexivity. }
    destruct Hcount as [Hfour Hsome].
    destruct (count_run_countable fl Ex.programs Ex.exposure Ex.readout
                Ex.st_four)
      as (m & st' & Hrun & Hin & _).
    { intros qq Hqq. apply list_elem_of_singleton in Hqq as ->.
      exists Ex.q_timed. split; [reflexivity|]. split; [cbn; lia|].
      intros r Hr. cbn in Hr.
      repeat (apply elem_of_cons in Hr as [->|Hr]);
        [apply elem_decide; vm_compute; reflexivity .. |].
      by apply elem_of_nil in Hr. }
    { intros qq r Hqq Hr. apply list_elem_of_singleton in Hqq as ->.
      change (pending Ex.st_four "timed")
        with (mkDataFrame true false
                [Ex.row30 1; Ex.row30 2; Ex.row30 3; Ex.row30 4]) in *.
      cbn [rows] in Hr.
      repeat (apply elem_of_cons in Hr as [->|Hr]; [exact Hsome|]).
      by apply elem_of_nil in Hr. }
    exists m, st'. split; [exact Hrun|].
    rewrite !Hin by (apply elem_decide; vm_compute; reflexivity).
    assert (Hother : forall p, p <> 2 ->
              tally fl Ex.exposure Ex.readout Ex.st_four p = 0).
    { intros p Hp. apply tally_without_requests. intros qq r Hqq Hr.
      apply list_elem_of_singleton in Hqq as ->. cbn in Hr.
      repeat (apply elem_of_cons in Hr as [->|Hr]; [cbn; congruence|]).
      by apply elem_of_nil in Hr. }
    rewrite !Hother by discriminate.
    split; [reflexivity|]. split; [|reflexivity]. f_equal.
    change (tally fl Ex.exposure Ex.readout Ex.st_four 2)
      with (equivalent_obs fl Ex.exposure Ex.readout
              (mkDataFrame true false
                 [Ex.row30 1; Ex.row30 2; Ex.row30 3; Ex.row30 4]) 2 + 0).
    rewrite Hfour. reflexivity.
Qed.

Lemma tally_of_timed_queues_witness :
  (exists timed_obs st',
     count_timed_observations_tonight Ex.exact Ex.programs Ex.exposure
                                      Ex.readout Ex.st_four
       = (Ok timed_obs, st') /\
     timed_obs !! 2
     = Some (tally Ex.exact Ex.exposure Ex.readout Ex.st_four 2)) /\
  (exists timed_obs st',
     count_timed_observations_tonight Ex.exact Ex.programs Ex.exposure
                                      Ex.readout Ex.st_four
       = (Ok timed_obs, st') /\
     timed_obs !! 2 = Some 4).
Proof.
  split.
  - assert (Hc : countable Ex.programs Ex.st_four).
    { intros qq Hqq. apply list_elem_of_singleton in Hqq as ->.
      exists Ex.q_timed. split; [reflexivity|]. split; [cbn; lia|].
      intros r Hr. cbn in Hr.
      repeat (apply elem_of_cons in Hr as [->|Hr]);
        [apply elem_decide; vm_compute; reflexivity .. |].
      by apply elem_of_nil in Hr. }
    destruct (proj1 (proj1 tally_of_timed_queues Ex.exact Ex.programs
                       Ex.exposure Ex.readout Ex.st_four Hc))
      as (m & st' & Hrun & Hin & _).
    + intros qq r _ _. eexists. reflexivity.
    + exists m, st'. split; [exact Hrun|].
      apply Hin. apply elem_decide. vm_compute. reflexivity.
  - destruct (proj2 tally_of_timed_queues Ex.exact)
      as (m & st' & Hrun & _ & H2 & _);
      [apply Qc_is_canon; reflexivity .. | reflexivity |].
    exists m, st'. split; [exact Hrun | exact H2].
Defined.

(** Without the first condition the method raises: a name of
    [timed_queues_tonight] that is not registered is a [KeyError]. *)
Lemma count_raises_on_unregistered (fl : Float64)
    (PROGRAM_IDS : list Z) (EXPOSURE_TIME READOUT_TIME : Qc) (st : State)
    (qq : string) :
  qq ∈ timed_queues_tonight st ->
  OD.get qq (queues st) = None ->
  exists e st',
    count_timed_observations_tonight fl PROGRAM_IDS EXPOSURE_TIME READOUT_TIME
                                     st
    = (Raise e, st').
Proof.
  intros Hin Hnone.
  unfold count_timed_observations_tonight, bind at 1, gets at 1.
  destruct (timed_queues_tonight st) as [|qq0 timed] eqn:Et.
  - by apply elem_of_nil in Hin.
  - cbn [length Nat.eqb]. apply count_loop_unregistered. eauto.
Qed.

(** C4, as it is stated, fails: in a state whose [timed_queues_tonight]
    names a queue that has been removed since, the method raises [KeyError]
    and returns no tally; so it does on a request of a program that is not
    one of [PROGRAM_IDS]. *)
Lemma tally_raises_key_error :
  count_timed_observations_tonight Ex.exact Ex.programs Ex.exposure
                                   Ex.readout Ex.st_stale
    = (Raise (KeyError "timed"), Ex.st_stale) /\
  (count_timed_observations_tonight Ex.exact Ex.programs Ex.exposure
                                    Ex.readout Ex.st_program0).1
    = Raise (KeyErrorZ 0).
Proof. split; vm_compute; reflexivity. Qed.

(** C10. [count_timed_observations_tonight] only reads the scheduler:
    whether it returns or raises, the registry, the active pointer and
    [timed_queues_tonight] are what they were, and so is every frame that
    existed, the pending requests of every queue among them; the method
    writes to the copies it makes, which are new frames. *)
Theorem count_timed_observations_reads_only
    (fl : Float64) (PROGRAM_IDS : list Z) (EXPOSURE_TIME READOUT_TIME : Qc)
    (st : State) :
  queues (exec (count_timed_observations_tonight
                  fl PROGRAM_IDS EXPOSURE_TIME READOUT_TIME) st) = queues st /\
  Q (exec (count_timed_observations_tonight
             fl PROGRAM_IDS EXPOSURE_TIME READOUT_TIME) st) = Q st /\
  timed_queues_tonight
    (exec (count_timed_observations_tonight
             fl PROGRAM_IDS EXPOSURE_TIME READOUT_TIME) st)
    = timed_queues_tonight st /\
  (exists copies,
     heap (exec (count_timed_observations_tonight
                   fl PROGRAM_IDS EXPOSURE_TIME READOUT_TIME) st)
       = heap st ++ copies) /\
  (forall name q,
     OD.get name (queues st) = Some q ->
     (queue q < length (heap st))%nat ->
     pending (exec (count_timed_observations_tonight
                      fl PROGRAM_IDS EXPOSURE_TIME READOUT_TIME) st) name
       = pending st name).
Proof.
  assert (Hframe :
    queues (exec (count_timed_observations_tonight
                    fl PROGRAM_IDS EXPOSURE_TIME READOUT_TIME) st) = queues st /\
    Q (exec (count_timed_observations_tonight
               fl PROGRAM_IDS EXPOSURE_TIME READOUT_TIME) st) = Q st /\
    timed_queues_tonight
      (exec (count_timed_observations_tonight
               fl PROGRAM_IDS EXPOSURE_TIME READOUT_TIME) st)
      = timed_queues_tonight st /\
    exists copies,
      heap (exec (count_timed_observations_tonight
                    fl PROGRAM_IDS EXPOSURE_TIME READOUT_TIME) st)
        = heap st ++ copies).
  { unfold exec.
    destruct (count_timed_observations_tonight
                fl PROGRAM_IDS EXPOSURE_TIME READOUT_TIME st)
      as [res st'] eqn:Erun.
    cbn [snd].
    unfold count_timed_observations_tonight, bind at 1, gets at 1 in Erun.
    destruct (Nat.eqb (length (timed_queues_tonight st)) 0).
    - injection Erun as _ <-. do 3 (split; [reflexivity|]).
      exists []. by rewrite app_nil_r.
    - exact (count_loop_frame _ _ _ _ _ _ _ _ Erun). }
  destruct Hframe as (Hq & HQ & Ht & copies & Hh).
  repeat split; try assumption; [by exists copies|].
  intros name q Hget Hlt. unfold pending.
  rewrite Hq, Hget, Hh. by apply deref_app.
Qed.

Lemma count_timed_observations_reads_only_witness :
  pending (exec (count_timed_observations_tonight
                   Ex.exact Ex.programs Ex.exposure Ex.readout) Ex.st_four)
          "timed"
  = pending Ex.st_four "timed".
Proof.
  apply (proj2 (proj2 (proj2 (proj2
    (count_timed_observations_reads_only
       Ex.exact Ex.programs Ex.exposure Ex.readout Ex.st_four))))
    "timed" Ex.q_timed).
  - reflexivity.
  - cbn. lia.
Defined.

(** ** The observing loop *)

Section LoopFacts.
Import Observe.
Context {Tel SD QM Prev Store : Type}.
Context `{Telescope Tel SD} `{Requests QM SD} `{Pointings Prev Store SD}.

Lemma new_calls_app (w : World Tel QM Prev Store) l :
  calls (observe_step w) = calls w ++ l -> new_calls w = l.
Proof. unfold new_calls. intros ->. apply drop_app_length. Qed.

Lemma not_logged_or_removed (l : list call) :
  Forall (fun c => match c with
                   | LogPointing _ | RemoveRequests _ => False
                   | _ => True
                   end) l ->
  (forall obs, LogPointing obs ∉ l) /\ (forall id, RemoveRequests id ∉ l).
Proof.
  intros Hall. rewrite Forall_forall in Hall.
  split; intros x Hin; apply list_elem_of_In in Hin; exact (Hall _ Hin).
Qed.

(** C7. In a pass of the loop in which the telescope is ready and
    [start_slew] fails for the request that [next_obs] returned, the loop
    calls [set_cant_observe], sets [log.prev_obs] to [None], calls [wait],
    and goes on with the next pass: the request is not removed from the
    queue and no pointing is logged. The same holds when the slew
    succeeds and [start_exposing] fails. The pass returns a world in both
    cases, and the loop takes its next pass from it. *)
Theorem failed_pass_is_recovered (w : World Tel QM Prev Store)
    (tel1 : Tel) (next : NextObs) (Q1 : QM) :
  check_if_ready (tel w) = (true, tel1) ->
  next_obs (current_state_dict tel1) (Qm w) = (next, Q1) ->
  (forall tel2,
     start_slew (target_ra next, target_dec next) tel1 = (false, tel2) ->
     recovered w tel2 Q1
       [CheckIfReady; CurrentStateDict; NextObsOf;
        StartSlew (target_ra next, target_dec next)]) /\
  (forall tel2 tel3,
     start_slew (target_ra next, target_dec next) tel1 = (true, tel2) ->
     start_exposing tel2 = (false, tel3) ->
     recovered w tel3 Q1
       [CheckIfReady; CurrentStateDict; NextObsOf;
        StartSlew (target_ra next, target_dec next); StartExposing]) /\
  (forall stop fuel,
     (current_time (tel w) < stop)%Qc ->
     observe_loop (S fuel) stop w = observe_loop fuel stop (observe_step w)).
Proof.
  intros Hready Hnext. split; [|split].
  - intros tel2 Hslew.
    assert (Hstep : observe_step w =
      mkWorld (wait (set_cant_observe tel2)) Q1
              (mkLogger None (store (log w)))
              (calls w ++
               [CheckIfReady; CurrentStateDict; NextObsOf;
                StartSlew (target_ra next, target_dec next)]
               ++ [SetCantObserve; ClearPrevObs; Wait])).
    { unfold observe_step. rewrite Hready, Hnext, Hslew. cbn [negb].
      rewrite <- !app_assoc. reflexivity. }
    assert (Hnew := new_calls_app w _ (f_equal calls Hstep)).
    unfold recovered. rewrite Hnew, Hstep. cbn [tel Qm log prev_obs store].
    do 5 (split; [reflexivity|]).
    apply not_logged_or_removed. repeat constructor.
  - intros tel2 tel3 Hslew Hexp.
    assert (Hstep : observe_step w =
      mkWorld (wait (set_cant_observe tel3)) Q1
              (mkLogger None (store (log w)))
              (calls w ++
               [CheckIfReady; CurrentStateDict; NextObsOf;
                StartSlew (target_ra next, target_dec next); StartExposing]
               ++ [SetCantObserve; ClearPrevObs; Wait])).
    { unfold observe_step. rewrite Hready, Hnext, Hslew. cbn [negb].
      rewrite Hexp. cbn [negb]. rewrite <- !app_assoc. reflexivity. }
    assert (Hnew := new_calls_app w _ (f_equal calls Hstep)).
    unfold recovered. rewrite Hnew, Hstep. cbn [tel Qm log prev_obs store].
    do 5 (split; [reflexivity|]).
    apply not_logged_or_removed. repeat constructor.
  - intros stop fuel Hlt. cbn [observe_loop].
    rewrite bool_decide_eq_true_2 by assumption. reflexivity.
Qed.
End LoopFacts.

Lemma failed_pass_is_recovered_witness :
  recovered ObsEx.w_slew_fails (Observe.tel ObsEx.w_slew_fails)
    [ObsEx.request7]
    [Observe.CheckIfReady; Observe.CurrentStateDict; Observe.NextObsOf;
     Observe.StartSlew (Q2Qc 150, Q2Qc 30)] /\
  recovered ObsEx.w_exposure_fails
    (Observe.tel ObsEx.w_exposure_fails) [ObsEx.request7]
    [Observe.CheckIfReady; Observe.CurrentStateDict; Observe.NextObsOf;
     Observe.StartSlew (Q2Qc 150, Q2Qc 30); Observe.StartExposing].
Proof.
  split.
  - destruct (failed_pass_is_recovered ObsEx.w_slew_fails
                (Observe.tel ObsEx.w_slew_fails) ObsEx.request7
                [ObsEx.request7]) as (Hslew & _ & _);
      [reflexivity | reflexivity |].
    apply Hslew. reflexivity.
  - destruct (failed_pass_is_recovered ObsEx.w_exposure_fails
                (Observe.tel ObsEx.w_exposure_fails) ObsEx.request7
                [ObsEx.request7]) as (_ & Hexp & _);
      [reflexivity | reflexivity |].
    apply (Hexp (Observe.tel ObsEx.w_exposure_fails)); reflexivity.
Defined.

(** ** More on the registry: what a call changes, and calls in a row *)

Lemma del_set_new (d : list (string * QueueManager)) k v :
  k ∉ OD.keys d -> OD.del k (OD.set k v d) = d.
Proof.
  unfold OD.keys. induction d as [|[k' v'] d IH]; simpl; intros Hk.
  - rewrite String.eqb_refl. reflexivity.
  - apply not_elem_of_cons in Hk as [Hne Hk].
    destruct (String.eqb_spec k k') as [->|_]; [contradiction|].
    simpl. destruct (String.eqb_spec k k') as [->|_]; [contradiction|].
    by rewrite IH.
Qed.

Lemma filter_keeps_all (d : list (string * QueueManager)) k :
  k ∉ OD.keys d -> filter (fun kv => kv.1 <> k) d = d.
Proof.
  unfold OD.keys. induction d as [|[k' v'] d IH]; simpl; intros Hk;
    [reflexivity|].
  apply not_elem_of_cons in Hk as [Hne Hk].
  rewrite filter_cons. simpl.
  rewrite decide_True by congruence. by rewrite IH.
Qed.

Lemma del_filter (d : list (string * QueueManager)) k :
  OD.wf d -> OD.del k d = filter (fun kv => kv.1 <> k) d.
Proof.
  unfold OD.wf, OD.keys. induction d as [|[k' v'] d IH]; simpl; intros Hnd;
    [reflexivity|].
  apply list.NoDup_cons in Hnd as [Hk Hnd].
  rewrite filter_cons. simpl.
  destruct (String.eqb_spec k k') as [->|Hne].
  - rewrite decide_False by auto. symmetry. by apply filter_keeps_all.
  - rewrite decide_True by congruence. by rewrite IH.
Qed.

Lemma with_queues_same st : with_queues (queues st) st = st.
Proof. destruct st; reflexivity. Qed.

(** X1. A queue that has just been added can be made active: after
    [add_queue(name, q, clobber)] with [clobber=True], or with a name that
    is not registered yet, [set_queue(name)] returns and the active queue
    is [q] itself. *)
Theorem added_queue_can_be_activated (st : State) (name : string)
    (q : QueueManager) (clobber : bool) :
  clobber = true \/ OD.mem name (queues st) = false ->
  (do add_queue name q clobber then set_queue name) st
  = (Ok tt, with_Q q (with_queues (OD.set name q (queues st)) st)).
Proof.
  intros Hc. unfold bind. rewrite add_queue_run.
  assert (Htest : clobber || negb (OD.mem name (queues st)) = true).
  { destruct Hc as [->| ->]; [reflexivity | apply orb_true_r]. }
  rewrite Htest, set_queue_run. cbn [queues with_queues].
  rewrite get_set_eq. reflexivity.
Qed.

Lemma added_queue_can_be_activated_witness :
  Q (exec (do add_queue "too" Ex.q_too false then set_queue "too")
          Ex.st_default) = Ex.q_too.
Proof.
  unfold exec.
  rewrite (added_queue_can_be_activated Ex.st_default "too" Ex.q_too false
             (or_intror eq_refl)).
  reflexivity.
Defined.

(** X2. Adding a queue under a new name and deleting it again gives the
    state back, registry order included, when the new name is not the name
    of the active queue. *)
Theorem add_then_delete_restores (st : State) (name : string)
    (q : QueueManager) (clobber : bool) :
  OD.mem name (queues st) = false ->
  queue_name (Q st) <> name ->
  (do add_queue name q clobber then delete_queue name) st = (Ok tt, st).
Proof.
  intros Hnew Hact. unfold bind. rewrite add_queue_run, Hnew.
  rewrite orb_true_r, delete_queue_run. cbn [queues with_queues Q].
  unfold OD.mem at 1. rewrite get_set_eq.
  destruct (String.eqb_spec (queue_name (Q st)) name) as [|_];
    [contradiction|].
  rewrite del_set_new by (by apply mem_false_keys).
  unfold with_queues at 1. cbn [queues Q timed_queues_tonight heap with_queues].
  destruct st; reflexivity.
Qed.

Lemma add_then_delete_restores_witness :
  (do add_queue "too" Ex.q_too true then delete_queue "too") Ex.st_default
  = (Ok tt, Ex.st_default).
Proof.
  apply (add_then_delete_restores Ex.st_default "too" Ex.q_too true).
  - reflexivity.
  - discriminate.
Defined.

(** X3. [delete_queue(name)] returns exactly when [name] is registered
    and, in case it is the name of the active queue, 'default' is
    registered too; the active queue cannot be deleted from a registry
    without 'default'. *)
Theorem delete_queue_returns_iff (st : State) (name : string) :
  (exists st', delete_queue name st = (Ok tt, st')) <->
  OD.mem name (queues st) = true /\
  (queue_name (Q st) = name -> OD.mem "default" (queues st) = true).
Proof.
  rewrite delete_queue_run.
  destruct (OD.mem name (queues st)) eqn:Em.
  2:{ split; [intros [st' H]; discriminate | intros [H _]; discriminate]. }
  destruct (String.eqb_spec (queue_name (Q st)) name) as [Heq|Hne].
  - unfold OD.mem. destruct (OD.get "default" (queues st)) eqn:Ed.
    + split; [intros _; split; reflexivity | eauto].
    + split; [intros [st' H]; discriminate|].
      intros [_ H]. specialize (H Heq). discriminate.
  - split; [intros _; split; [reflexivity | contradiction] | eauto].
Qed.

Lemma delete_queue_returns_iff_witness :
  exists st', delete_queue "too" Ex.st_too = (Ok tt, st').
Proof.
  apply (proj2 (delete_queue_returns_iff Ex.st_too "too")).
  split; [reflexivity | discriminate].
Defined.

(** X4. After a [delete_queue(name)] that returned, the name is unknown
    to the registry: [set_queue(name)] and a second [delete_queue(name)]
    raise and change nothing, and [add_queue(name, q, clobber=False)]
    returns. *)
Theorem deleted_name_is_unknown (st st' : State) (name : string)
    (q : QueueManager) :
  OD.wf (queues st) ->
  delete_queue name st = (Ok tt, st') ->
  set_queue name st' = (Raise (not_available name), st') /\
  delete_queue name st' = (Raise (does_not_exist name), st') /\
  add_queue name q false st'
    = (Ok tt, with_queues (OD.set name q (queues st')) st').
Proof.
  intros Hwf Hrun.
  assert (Hgone : OD.get name (queues st') = None).
  { rewrite delete_queue_run in Hrun.
    destruct (OD.mem name (queues st)); [|discriminate].
    destruct (String.eqb (queue_name (Q st)) name).
    - destruct (OD.get "default" (queues st)); [|discriminate].
      injection Hrun as <-. by apply get_del_eq.
    - injection Hrun as <-. by apply get_del_eq. }
  rewrite set_queue_run, delete_queue_run, add_queue_run.
  unfold OD.mem. rewrite Hgone. auto.
Qed.

Lemma deleted_name_is_unknown_witness :
  set_queue "too" (with_queues [("default", Ex.q_default)] Ex.st_too)
  = (Raise (not_available "too"),
     with_queues [("default", Ex.q_default)] Ex.st_too).
Proof.
  refine (proj1 (deleted_name_is_unknown Ex.st_too _ "too" Ex.q_too _ _)).
  - apply wf_decide. vm_compute. reflexivity.
  - reflexivity.
Defined.

(** X5. A [delete_queue(name)] that returns removes the entry of [name]
    and nothing else: the other entries keep their queue and their place in
    the iteration order, [timed_queues_tonight] and the tables are
    untouched, and the active pointer moves only if it was on a queue named
    [name], to the queue registered as 'default'. *)
Theorem delete_queue_removes_one_entry (st st' : State) (name : string) :
  OD.wf (queues st) ->
  delete_queue name st = (Ok tt, st') ->
  queues st' = filter (fun kv => kv.1 <> name) (queues st) /\
  (forall k, k <> name -> OD.get k (queues st') = OD.get k (queues st)) /\
  timed_queues_tonight st' = timed_queues_tonight st /\
  heap st' = heap st /\
  (queue_name (Q st) <> name -> Q st' = Q st) /\
  (queue_name (Q st) = name ->
   OD.get "default" (queues st) = Some (Q st')).
Proof.
  intros Hwf Hrun. rewrite delete_queue_run in Hrun.
  destruct (OD.mem name (queues st)); [|discriminate].
  destruct (String.eqb_spec (queue_name (Q st)) name) as [Heq|Hne].
  - destruct (OD.get "default" (queues st)) as [d|]; [|discriminate].
    injection Hrun as <-. cbn [queues Q timed_queues_tonight heap
                               with_queues with_Q].
    split; [by apply del_filter|].
    split; [intros k Hk; apply get_del_ne; congruence|].
    do 2 (split; [reflexivity|]). split; [contradiction | reflexivity].
  - injection Hrun as <-. cbn [queues Q timed_queues_tonight heap
                               with_queues with_Q].
    split; [by apply del_filter|].
    split; [intros k Hk; apply get_del_ne; congruence|].
    do 2 (split; [reflexivity|]). split; [reflexivity | contradiction].
Qed.

Lemma delete_queue_removes_one_entry_witness :
  queues (with_queues [("default", Ex.q_default)] Ex.st_too)
  = filter (fun kv => kv.1 <> "too") (queues Ex.st_too).
Proof.
  refine (proj1 (delete_queue_removes_one_entry Ex.st_too _ "too" _ _)).
  - apply wf_decide. vm_compute. reflexivity.
  - reflexivity.
Defined.

(** X6. [add_queue(name, q, clobber)] returns exactly when [clobber] is
    true or [name] is not registered. When it returns, [name] is registered
    with [q], every other name is registered as before, the keys stay
    distinct, and the active pointer, [timed_queues_tonight] and the tables
    are untouched. *)
Theorem add_queue_inserts (st : State) (name : string) (q : QueueManager)
    (clobber : bool) :
  ((exists st', add_queue name q clobber st = (Ok tt, st')) <->
   clobber = true \/ OD.mem name (queues st) = false) /\
  (forall st', add_queue name q clobber st = (Ok tt, st') ->
     OD.get name (queues st') = Some q /\
     (forall k, k <> name -> OD.get k (queues st') = OD.get k (queues st)) /\
     (OD.wf (queues st) -> OD.wf (queues st')) /\
     Q st' = Q st /\
     timed_queues_tonight st' = timed_queues_tonight st /\
     heap st' = heap st).
Proof.
  rewrite add_queue_run. split.
  - destruct clobber; cbn [orb].
    + split; [auto | eauto].
    + destruct (OD.mem name (queues st)); cbn [negb]; split.
      * intros [st' H]; discriminate.
      * intros [H|H]; discriminate.
      * auto.
      * eauto.
  - intros st' Hrun.
    destruct (clobber || negb (OD.mem name (queues st))); [|discriminate].
    injection Hrun as <-. cbn [queues Q timed_queues_tonight heap with_queues].
    split; [apply get_set_eq|].
    split; [intros k Hk; apply get_set_ne; congruence|].
    split; [apply wf_set|]. auto.
Qed.

Lemma add_queue_inserts_witness :
  OD.get "too" (queues (with_queues (OD.set "too" Ex.q_too
                                       (queues Ex.st_default))
                                    Ex.st_default)) = Some Ex.q_too.
Proof.
  refine (proj1 (proj2 (add_queue_inserts Ex.st_default "too" Ex.q_too false)
                   _ _)).
  reflexivity.
Defined.

(** ** The two switches *)

Lemma with_Q_same st : with_Q (Q st) st = st.
Proof. destruct st; reflexivity. Qed.

Lemma timed_winner_none now st items cur :
  (forall kv, kv ∈ items -> eligible now st kv.2 = false) ->
  timed_winner now st items cur = cur.
Proof.
  unfold timed_winner. revert cur.
  induction items as [|kv items IH]; intros cur Hnone; [reflexivity|].
  cbn [fold_left]. rewrite (Hnone kv) by (apply elem_of_cons; auto).
  apply IH. intros kv' Hin. apply Hnone, elem_of_cons; auto.
Qed.

Lemma timed_winner_last now st l1 k q l2 cur :
  eligible now st q = true ->
  (forall kv, kv ∈ l2 -> eligible now st kv.2 = false) ->
  timed_winner now st (l1 ++ (k, q) :: l2) cur = q.
Proof.
  intros Hq Hnone. unfold timed_winner.
  rewrite fold_left_app. cbn [fold_left snd]. rewrite Hq.
  by apply timed_winner_none.
Qed.

(** The loop of [check_for_timed_queue_and_switch], over a part of the
    items of the registry. *)
Lemma timed_loop now items : forall st,
  (forall k q, (k, q) ∈ items -> OD.get k (queues st) = Some q) ->
  for_each items (fun '(qq_name, qq) =>
    if match validity_window qq with Some _ => true | None => false end
       && is_valid qq now
    then
      if String.eqb (queue_type qq) "list" then
        let* n := gets (fun st => queue_len st qq) in
        if negb (Nat.eqb n 0) then set_queue qq_name else ret tt
      else
        if requests_in_window qq then set_queue qq_name else ret tt
    else ret tt) st
  = (Ok tt, with_Q (timed_winner now st items (Q st)) st).
Proof.
  induction items as [|[k q] items IH]; intros st Hget.
  - cbn. unfold ret. by rewrite with_Q_same.
  - assert (Hk : OD.get k (queues st) = Some q)
      by (apply Hget, elem_of_cons; auto).
    assert (Hrest : forall st', queues st' = queues st ->
              forall k' q', (k', q') ∈ items ->
                            OD.get k' (queues st') = Some q').
    { intros st' -> k' q' Hin. apply Hget, elem_of_cons; auto. }
    assert (Hswitch :
      for_each items (fun '(qq_name, qq) =>
        if match validity_window qq with Some _ => true | None => false end
           && is_valid qq now
        then
          if String.eqb (queue_type qq) "list" then
            let* n := gets (fun st => queue_len st qq) in
            if negb (Nat.eqb n 0) then set_queue qq_name else ret tt
          else
            if requests_in_window qq then set_queue qq_name else ret tt
        else ret tt) (with_Q q st)
      = (Ok tt, with_Q (timed_winner now st items q) st)).
    { rewrite IH by (apply Hrest; reflexivity). reflexivity. }
    cbn [for_each]. unfold bind at 1.
    unfold timed_winner. cbn [fold_left snd]. fold (timed_winner now st items).
    unfold eligible.
    destruct (match validity_window q with Some _ => true | None => false end
              && is_valid q now); cbn [andb].
    2:{ unfold ret at 1. apply IH, Hrest; reflexivity. }
    destruct (String.eqb (queue_type q) "list").
    + unfold bind at 1, gets at 1.
      destruct (Nat.eqb (queue_len st q) 0); cbn [negb].
      * unfold ret at 1. apply IH, Hrest; reflexivity.
      * rewrite set_queue_run, Hk. exact Hswitch.
    + destruct (requests_in_window q).
      * rewrite set_queue_run, Hk. exact Hswitch.
      * unfold ret at 1. apply IH, Hrest; reflexivity.
Qed.

(** The scan, from a state whose active queue is named 'default' or
    'fallback'. *)
Lemma timed_scan now st :
  OD.wf (queues st) ->
  bool_decide (queue_name (Q st) ∈ ["default"; "fallback"]) = true ->
  (let* active := gets Q in
   if bool_decide (queue_name active ∈ ["default"; "fallback"]) then
     let* items := gets queues in
     for_each items (fun '(qq_name, qq) =>
       if match validity_window qq with Some _ => true | None => false end
          && is_valid qq now
       then
         if String.eqb (queue_type qq) "list" then
           let* n := gets (fun st => queue_len st qq) in
           if negb (Nat.eqb n 0) then set_queue qq_name else ret tt
         else
           if requests_in_window qq then set_queue qq_name else ret tt
       else ret tt)
   else ret tt) st
  = (Ok tt, with_Q (timed_winner now st (queues st) (Q st)) st).
Proof.
  intros Hwf Hname. unfold bind at 1, gets at 1. rewrite Hname.
  unfold bind at 1, gets at 1.
  apply timed_loop. intros k q Hin. by apply elem_get.
Qed.

(** X7. When the active queue is 'default', or a 'fallback' that is
    valid, [check_for_timed_queue_and_switch] returns with the last queue
    of the registry, in iteration order, that has a validity window, is
    valid and has work, as the active queue: every such queue is switched
    to in turn and the last switch stays. Without such a queue nothing
    changes. *)
Theorem timed_switch_last_wins (time_now : Time) (st : State) :
  OD.wf (queues st) ->
  queue_name (Q st) = "default" \/
  (queue_name (Q st) = "fallback" /\ is_valid (Q st) time_now = true) ->
  (forall l1 k q l2,
     queues st = l1 ++ (k, q) :: l2 ->
     eligible time_now st q = true ->
     (forall kv, kv ∈ l2 -> eligible time_now st kv.2 = false) ->
     check_for_timed_queue_and_switch time_now st = (Ok tt, with_Q q st)) /\
  ((forall kv, kv ∈ queues st -> eligible time_now st kv.2 = false) ->
   check_for_timed_queue_and_switch time_now st = (Ok tt, st)).
Proof.
  intros Hwf Hact.
  assert (Hrun : check_for_timed_queue_and_switch time_now st
                 = (Ok tt, with_Q (timed_winner time_now st (queues st) (Q st))
                                  st)).
  { unfold check_for_timed_queue_and_switch, bind at 1, gets at 1.
    unfold bind at 1.
    assert (Hfirst :
      (if negb (String.eqb (queue_name (Q st)) "default")
       then if negb (is_valid (Q st) time_now)
            then set_queue "default" else ret tt
       else ret tt) st = (Ok tt, st)).
    { destruct Hact as [-> | [_ ->]]; [reflexivity|].
      destruct (negb (String.eqb (queue_name (Q st)) "default"));
        reflexivity. }
    rewrite Hfirst. apply timed_scan; [assumption|].
    apply bool_decide_eq_true.
    destruct Hact as [-> | [-> _]];
      [apply elem_of_cons; auto
      | apply elem_of_cons; right; apply elem_of_cons; auto]. }
  rewrite Hrun. split.
  - intros l1 k q l2 Hsplit Hq Hnone.
    rewrite Hsplit at 1. by rewrite (timed_winner_last _ _ l1 k q l2).
  - intros Hnone. rewrite timed_winner_none by assumption.
    by rewrite with_Q_same.
Qed.

Lemma timed_switch_last_wins_witness :
  check_for_timed_queue_and_switch Ex.now_too Ex2.st_two
  = (Ok tt, with_Q Ex.q_timed Ex2.st_two).
Proof.
  refine (proj1 (timed_switch_last_wins Ex.now_too Ex2.st_two _ _)
            [("default", Ex.q_default); ("too", Ex.q_too)] "timed"
            Ex.q_timed [] _ _ _).
  - apply wf_decide. vm_compute. reflexivity.
  - left. reflexivity.
  - reflexivity.
  - vm_compute. reflexivity.
  - intros kv Hin. by apply elem_of_nil in Hin.
Defined.

(** The timed switch does nothing when the active queue is valid and is
    neither 'default' nor 'fallback'. *)
Ltac timed_switch_is_noop Hname Hvalid :=
  unfold check_for_timed_queue_and_switch, bind at 1, gets at 1;
  unfold bind at 1; rewrite Hvalid; cbn [negb];
  match goal with
  | |- context [String.eqb (queue_name (Q ?st)) "default"] =>
      destruct (negb (String.eqb (queue_name (Q st)) "default"))
  end;
  unfold ret at 1; unfold bind at 1, gets at 1;
  rewrite bool_decide_eq_false_2 by exact Hname; reflexivity.

Lemma not_elem_decide `{EqDecision A} (k : A) (l : list A) :
  bool_decide (k ∈ l) = false -> k ∉ l.
Proof. intros H. by apply bool_decide_eq_false in H. Qed.

(** X8. [check_for_timed_queue_and_switch] only switches away from
    'default' and 'fallback': when the active queue has another name and is
    valid, the call returns and changes nothing, whatever else is valid. *)
Theorem valid_timed_queue_stays_active (time_now : Time) (st : State) :
  queue_name (Q st) ∉ ["default"; "fallback"] ->
  is_valid (Q st) time_now = true ->
  check_for_timed_queue_and_switch time_now st = (Ok tt, st).
Proof.
  intros Hname Hvalid. timed_switch_is_noop Hname Hvalid.
Qed.

Lemma valid_timed_queue_stays_active_witness :
  check_for_timed_queue_and_switch Ex.now_too Ex2.st_timed_active
  = (Ok tt, Ex2.st_timed_active).
Proof.
  apply valid_timed_queue_stays_active.
  - apply not_elem_decide. vm_compute. reflexivity.
  - vm_compute. reflexivity.
Defined.

(** X9. When the active queue is not named 'default' and is no longer
    valid, [check_for_timed_queue_and_switch] first falls back to
    'default': in a registry without 'default' it raises and changes
    nothing; otherwise the scan starts from the queue registered as
    'default', which stays active when no queue is valid and has work, and
    gives way to the last such queue when there is one. *)
Theorem stale_active_queue_falls_back (time_now : Time) (st : State) :
  queue_name (Q st) <> "default" ->
  is_valid (Q st) time_now = false ->
  (OD.get "default" (queues st) = None ->
   check_for_timed_queue_and_switch time_now st
   = (Raise (not_available "default"), st)) /\
  (forall d,
     OD.wf (queues st) ->
     OD.get "default" (queues st) = Some d ->
     queue_name d = "default" ->
     ((forall kv, kv ∈ queues st -> eligible time_now st kv.2 = false) ->
      check_for_timed_queue_and_switch time_now st = (Ok tt, with_Q d st)) /\
     (forall l1 k q l2,
        queues st = l1 ++ (k, q) :: l2 ->
        eligible time_now st q = true ->
        (forall kv, kv ∈ l2 -> eligible time_now st kv.2 = false) ->
        check_for_timed_queue_and_switch time_now st
        = (Ok tt, with_Q q st))).
Proof.
  intros Hname Hstale.
  assert (Hfirst :
    (if negb (String.eqb (queue_name (Q st)) "default")
     then if negb (is_valid (Q st) time_now)
          then set_queue "default" else ret tt
     else ret tt) st = set_queue "default" st).
  { rewrite Hstale.
    destruct (String.eqb_spec (queue_name (Q st)) "default");
      [contradiction | reflexivity]. }
  split.
  - intros Hnone.
    unfold check_for_timed_queue_and_switch, bind at 1, gets at 1.
    unfold bind at 1. rewrite Hfirst, set_queue_run, Hnone. reflexivity.
  - intros d Hwf Hd Hdname.
    assert (Hrun : check_for_timed_queue_and_switch time_now st
                   = (Ok tt, with_Q (timed_winner time_now st (queues st) d)
                                    st)).
    { unfold check_for_timed_queue_and_switch, bind at 1, gets at 1.
      unfold bind at 1. rewrite Hfirst, set_queue_run, Hd.
      rewrite (timed_scan time_now (with_Q d st)).
      - reflexivity.
      - exact Hwf.
      - cbn [Q with_Q]. rewrite Hdname. apply bool_decide_eq_true.
        apply elem_of_cons; auto. }
    rewrite Hrun. split.
    + intros Hnone. by rewrite timed_winner_none.
    + intros l1 k q l2 Hsplit Hq Hnone.
      rewrite Hsplit at 1. by rewrite (timed_winner_last _ _ l1 k q l2).
Qed.

Lemma stale_active_queue_falls_back_witness :
  check_for_timed_queue_and_switch Ex2.now_late Ex2.st_no_default
  = (Raise (not_available "default"), Ex2.st_no_default) /\
  check_for_timed_queue_and_switch Ex2.now_late Ex2.st_timed_active
  = (Ok tt, with_Q Ex.q_default Ex2.st_timed_active).
Proof.
  split.
  - refine (proj1 (stale_active_queue_falls_back Ex2.now_late
                     Ex2.st_no_default _ _) _).
    + discriminate.
    + vm_compute. reflexivity.
    + reflexivity.
  - refine (proj1 (proj2 (stale_active_queue_falls_back Ex2.now_late
                            Ex2.st_timed_active _ _)
                     Ex.q_default _ _ _) _).
    + discriminate.
    + vm_compute. reflexivity.
    + apply wf_decide. vm_compute. reflexivity.
    + reflexivity.
    + reflexivity.
    + intros kv Hin.
      repeat (apply elem_of_cons in Hin as [->|Hin];
              [vm_compute; reflexivity|]).
      by apply elem_of_nil in Hin.
Defined.

(** X10. [check_for_TOO_queue_and_switch] never raises in a registry with
    distinct keys and changes at most the active pointer: the registry,
    [timed_queues_tonight] and the tables are what they were, the active
    queue is the old one or a queue of the registry, and when no override
    queue is valid with pending requests the state is unchanged. *)
Theorem too_switch_moves_only_the_pointer (time_now : Time) (st : State) :
  OD.wf (queues st) ->
  exists st',
    check_for_TOO_queue_and_switch time_now st = (Ok tt, st') /\
    queues st' = queues st /\
    timed_queues_tonight st' = timed_queues_tonight st /\
    heap st' = heap st /\
    (Q st' = Q st \/ registered st' (Q st')) /\
    ((forall kv, kv ∈ queues st -> too_ready time_now st kv.2 = false) ->
     st' = st).
Proof.
  intros Hwf.
  assert (Hrun := too_loop time_now (queues st) st
                    (fun k q Hin => elem_get _ _ _ Hwf Hin)).
  change (check_for_TOO_queue_and_switch time_now st)
    with (for_each (queues st) (fun '(qq_name, qq) =>
            if is_TOO qq then
              if is_valid qq time_now then
                let* active := gets Q in
                let* n := gets (fun st => queue_len st qq) in
                if negb (is_TOO active) && negb (Nat.eqb n 0)
                then set_queue qq_name
                else ret tt
              else ret tt
            else ret tt) st).
  rewrite Hrun. eexists. split; [reflexivity|].
  destruct (is_TOO (Q st)).
  { repeat split; auto. }
  destruct (List.find (fun kv => too_ready time_now st kv.2) (queues st))
    as [[k q]|] eqn:Efind.
  - cbn [queues timed_queues_tonight heap Q with_Q].
    do 3 (split; [reflexivity|]). split.
    + right. apply find_some in Efind as [Hin _].
      apply list_elem_of_In in Hin.
      apply (list_elem_of_fmap_2 snd) in Hin. exact Hin.
    + intros Hnone. apply find_some in Efind as [Hin Hready].
      apply list_elem_of_In in Hin. rewrite (Hnone _ Hin) in Hready.
      discriminate.
  - repeat split; auto.
Qed.

Lemma too_switch_moves_only_the_pointer_witness :
  exists st',
    check_for_TOO_queue_and_switch Ex2.now_late Ex2.st_two = (Ok tt, st') /\
    st' = Ex2.st_two.
Proof.
  destruct (too_switch_moves_only_the_pointer Ex2.now_late Ex2.st_two)
    as (st' & Hrun & _ & _ & _ & _ & Hsame).
  - apply wf_decide. vm_compute. reflexivity.
  - exists st'. split; [exact Hrun|]. apply Hsame.
    intros kv Hin.
    repeat (apply elem_of_cons in Hin as [->|Hin];
            [vm_compute; reflexivity|]).
    by apply elem_of_nil in Hin.
Defined.

(** X11. An override queue that has just preempted is not dropped by the
    timed switch of the same step: when the active queue is no override
    queue and the first override queue that is valid with pending requests
    is [q], not named 'default' or 'fallback', then
    [check_for_TOO_queue_and_switch] followed by
    [check_for_timed_queue_and_switch] returns with [q] active. *)
Theorem preempting_queue_survives_timed_switch (time_now : Time)
    (st : State) (k : string) (q : QueueManager) :
  OD.wf (queues st) ->
  is_TOO (Q st) = false ->
  first_too_ready time_now st = Some (k, q) ->
  queue_name q ∉ ["default"; "fallback"] ->
  (do check_for_TOO_queue_and_switch time_now
   then check_for_timed_queue_and_switch time_now) st
  = (Ok tt, with_Q q st).
Proof.
  intros Hwf Hact Hfirst Hname.
  assert (Hrun := too_loop time_now (queues st) st
                    (fun k q Hin => elem_get _ _ _ Hwf Hin)).
  unfold bind at 1.
  change (check_for_TOO_queue_and_switch time_now st)
    with (for_each (queues st) (fun '(qq_name, qq) =>
            if is_TOO qq then
              if is_valid qq time_now then
                let* active := gets Q in
                let* n := gets (fun st => queue_len st qq) in
                if negb (is_TOO active) && negb (Nat.eqb n 0)
                then set_queue qq_name
                else ret tt
              else ret tt
            else ret tt) st).
  unfold first_too_ready in Hfirst. rewrite Hrun, Hact, Hfirst.
  assert (Hvalid : is_valid (Q (with_Q q st)) time_now = true).
  { apply find_some in Hfirst as [_ Hready]. cbn [snd] in Hready.
    unfold too_ready in Hready.
    apply andb_true_iff in Hready as [Hready _].
    apply andb_true_iff in Hready as [_ Hvalid]. exact Hvalid. }
  assert (Hname' : queue_name (Q (with_Q q st)) ∉ ["default"; "fallback"])
    by exact Hname.
  timed_switch_is_noop Hname' Hvalid.
Qed.

Lemma preempting_queue_survives_timed_switch_witness :
  (do check_for_TOO_queue_and_switch Ex.now_too
   then check_for_timed_queue_and_switch Ex.now_too) Ex.st_too
  = (Ok tt, with_Q Ex.q_too Ex.st_too).
Proof.
  apply (preempting_queue_survives_timed_switch Ex.now_too Ex.st_too "too").
  - apply wf_decide. vm_compute. reflexivity.
  - reflexivity.
  - vm_compute. reflexivity.
  - apply not_elem_decide. vm_compute. reflexivity.
Defined.

(** ** [find_excluded_blocks_tonight]: the list it leaves *)

Lemma filter_nonempty_length (l : list Z) (lo hi : Z) :
  negb (Nat.eqb (length (filter (fun b => lo <= b <= hi) l)) 0) = true <->
  exists b, b ∈ l /\ lo <= b <= hi.
Proof.
  rewrite negb_true_iff, Nat.eqb_neq. split.
  - intros Hlen.
    destruct (filter (fun b => lo <= b <= hi) l) as [|b l'] eqn:E;
      [contradiction|].
    exists b.
    assert (Hb : b ∈ filter (fun b => lo <= b <= hi) l)
      by (rewrite E; apply elem_of_cons; auto).
    apply list_elem_of_filter in Hb as [Hrange Hb]. auto.
  - intros (b & Hb & Hrange) Hlen.
    apply nil_length_inv in Hlen.
    assert (Hin : b ∈ filter (fun b => lo <= b <= hi) l)
      by (apply list_elem_of_filter; auto).
    rewrite Hlen in Hin. by apply elem_of_nil in Hin.
Qed.

Lemma tonight_elem block_index now (items : list (string * QueueManager))
    name :
  name ∈ flat_map (tonight_of block_index now) items <->
  exists qq,
    (name, qq) ∈ items /\ is_timed qq /\
    exists b, b ∈ valid_blocks qq false /\
              tonight_start block_index now <= b
                <= tonight_stop block_index now.
Proof.
  rewrite list_elem_of_In, in_flat_map. split.
  - intros ([k qq] & Hin & Hname). unfold tonight_of in Hname.
    cbn [fst snd] in Hname.
    destruct (is_timed_b qq) eqn:Et; [|destruct Hname].
    cbn [andb] in Hname.
    destruct (negb _) eqn:Elen in Hname; [|destruct Hname].
    destruct Hname as [->|[]]. exists qq.
    split; [by apply list_elem_of_In|].
    split; [by apply is_timed_b_spec|].
    by apply filter_nonempty_length.
  - intros (qq & Hin & Ht & Hb). exists (name, qq).
    split; [by apply list_elem_of_In|].
    unfold tonight_of. cbn [fst snd].
    apply is_timed_b_spec in Ht. rewrite Ht. cbn [andb].
    apply filter_nonempty_length in Hb. rewrite Hb. left; reflexivity.
Qed.

Lemma tonight_keys block_index now (items : list (string * QueueManager))
    name :
  name ∈ flat_map (tonight_of block_index now) items -> name ∈ items.*1.
Proof.
  intros Hin. apply tonight_elem in Hin as (qq & Hin & _).
  apply (list_elem_of_fmap_2 fst) in Hin. exact Hin.
Qed.

Lemma tonight_NoDup block_index now (items : list (string * QueueManager)) :
  NoDup items.*1 -> NoDup (flat_map (tonight_of block_index now) items).
Proof.
  induction items as [|[k q] items IH]; intros Hnd; [apply NoDup_nil_2|].
  cbn [fmap list_fmap fst] in Hnd.
  apply list.NoDup_cons in Hnd as [Hk Hnd].
  cbn [flat_map]. unfold tonight_of at 1. cbn [fst snd].
  destruct (is_timed_b q && negb _); [|by apply IH].
  apply list.NoDup_cons. split; [|by apply IH].
  intros Hin. apply Hk. eapply tonight_keys, Hin.
Qed.

(** X12. [find_excluded_blocks_tonight(time_now)] always returns, and
    it leaves in [timed_queues_tonight] the keys of the queues other than
    'default' and 'fallback', with a validity window, that report some
    valid block, complete or not, in the closed range of tonight: each
    once, in the order of the registry, all of them registered. The
    registry, the active pointer and the tables are untouched. *)
Theorem timed_queues_tonight_lists_overlaps
    (block_index : Time -> Z) (time_now : Time) (st : State) :
  exists blocks st',
    find_excluded_blocks_tonight block_index time_now st = (Ok blocks, st') /\
    queues st' = queues st /\ Q st' = Q st /\ heap st' = heap st /\
    (forall name,
       name ∈ timed_queues_tonight st' <->
       exists qq,
         (name, qq) ∈ queues st /\ is_timed qq /\
         exists b, b ∈ valid_blocks qq false /\
                   tonight_start block_index time_now <= b
                     <= tonight_stop block_index time_now) /\
    (forall name,
       name ∈ timed_queues_tonight st' -> name ∈ OD.keys (queues st')) /\
    (OD.wf (queues st) -> NoDup (timed_queues_tonight st')).
Proof.
  rewrite find_excluded_run. do 2 eexists. split; [reflexivity|].
  cbn [queues Q heap timed_queues_tonight with_timed].
  do 3 (split; [reflexivity|]).
  split; [intros name; apply tonight_elem|].
  split; [intros name; apply tonight_keys | apply tonight_NoDup].
Qed.

Lemma timed_queues_tonight_lists_overlaps_witness :
  exists blocks st',
    find_excluded_blocks_tonight Ex.block20 Ex.now_too Ex.st_midnight
      = (Ok blocks, st') /\
    NoDup (timed_queues_tonight st') /\
    "midnight" ∈ timed_queues_tonight st'.
Proof.
  destruct (timed_queues_tonight_lists_overlaps
              Ex.block20 Ex.now_too Ex.st_midnight)
    as (blocks & st' & Hrun & _ & _ & _ & Hlist & _ & Hnd).
  exists blocks, st'. split; [exact Hrun|]. split.
  - apply Hnd. apply wf_decide. vm_compute. reflexivity.
  - apply Hlist. exists Ex.q_midnight.
    split; [apply elem_of_cons; right; apply elem_of_cons; auto|].
    split; [apply is_timed_b_spec; vm_compute; reflexivity|].
    exists 4176070. split; [apply elem_of_cons; auto|].
    vm_compute. split; discriminate.
Defined.

(** ** More on [remove_empty_and_expired_queues] *)

Lemma filter_iff_elem {A} (P1 P2 : A -> Prop)
    `{!forall x, Decision (P1 x), !forall x, Decision (P2 x)} (l : list A) :
  (forall x, x ∈ l -> P1 x <-> P2 x) -> filter P1 l = filter P2 l.
Proof.
  induction l as [|a l IH]; intros Hiff; [reflexivity|].
  assert (IH' : filter P1 l = filter P2 l)
    by (apply IH; intros x Hx; apply Hiff, elem_of_cons; auto).
  assert (Ha : P1 a <-> P2 a) by (apply Hiff, elem_of_cons; auto).
  rewrite !filter_cons.
  destruct (decide (P1 a)), (decide (P2 a)); rewrite IH'; tauto.
Qed.

Lemma filter_all {A} (P : A -> Prop) `{!forall x, Decision (P x)}
    (l : list A) :
  (forall x, x ∈ l -> P x) -> filter P l = l.
Proof.
  induction l as [|a l IH]; intros Hall; [reflexivity|].
  rewrite filter_cons_True by (apply Hall, elem_of_cons; auto).
  rewrite IH; [reflexivity|].
  intros x Hx. apply Hall, elem_of_cons; auto.
Qed.

(** The second loop of the method, in full: what it leaves when 'default'
    is registered. *)
Lemma prune_delete_full d names : forall st,
  NoDup names ->
  OD.wf (queues st) ->
  (forall n, n ∈ names -> n ∈ OD.keys (queues st)) ->
  "default" ∉ names ->
  OD.get "default" (queues st) = Some d ->
  for_each names delete_queue st
  = (Ok tt,
     mkState (filter (fun kv => kv.1 ∉ names) (queues st))
             (if bool_decide (queue_name (Q st) ∈ names) then d else Q st)
             (timed_queues_tonight st) (heap st)).
Proof.
  induction names as [|n names IH]; intros st Hnd Hwf Hkeys Hdef Hd.
  - cbn [for_each]. unfold ret. f_equal.
    rewrite bool_decide_eq_false_2 by apply not_elem_of_nil.
    rewrite filter_all by (intros x _; apply not_elem_of_nil).
    destruct st; reflexivity.
  - apply list.NoDup_cons in Hnd as [Hn Hnd].
    apply not_elem_of_cons in Hdef as [Hne Hdef].
    assert (Hmem : OD.mem n (queues st) = true).
    { apply mem_keys, Hkeys, elem_of_cons; auto. }
    cbn [for_each]. unfold bind at 1.
    rewrite delete_queue_run, Hmem, Hd.
    assert (Hfilter :
      filter (fun kv : string * QueueManager => kv.1 ∉ names)
             (OD.del n (queues st))
      = filter (fun kv => kv.1 ∉ n :: names) (queues st)).
    { rewrite del_filter, list_filter_filter by assumption.
      apply list_filter_iff. intros [k q]. cbn [fst].
      rewrite not_elem_of_cons. tauto. }
    assert (Hkeys' : forall k, k ∈ names ->
                               k ∈ OD.keys (OD.del n (queues st))).
    { intros k Hk. apply keys_del; [assumption|].
      split; [intros ->; contradiction|].
      apply Hkeys, elem_of_cons; auto. }
    assert (Hd' : OD.get "default" (OD.del n (queues st)) = Some d)
      by (rewrite get_del_ne by congruence; exact Hd).
    destruct (String.eqb_spec (queue_name (Q st)) n) as [Heq|Hneq].
    + rewrite IH; cbn [queues Q timed_queues_tonight heap with_queues with_Q];
        try assumption; [|by apply wf_del].
      rewrite Hfilter.
      rewrite (bool_decide_eq_true_2 (queue_name (Q st) ∈ n :: names))
        by (apply elem_of_cons; auto).
      destruct (bool_decide (queue_name d ∈ names)); reflexivity.
    + rewrite IH; cbn [queues Q timed_queues_tonight heap with_queues with_Q];
        try assumption; [|by apply wf_del].
      rewrite Hfilter.
      destruct (decide (queue_name (Q st) ∈ names)) as [Hin|Hnin].
      * rewrite !bool_decide_eq_true_2;
          [reflexivity | apply elem_of_cons; auto | exact Hin].
      * rewrite !bool_decide_eq_false_2;
          [reflexivity | apply not_elem_of_cons; auto | exact Hnin].
Qed.

Lemma doomed_keys now st (items : list (string * QueueManager)) k q :
  OD.wf items -> (k, q) ∈ items ->
  (k ∈ doomed now st items <-> garbage_b now st q = true).
Proof.
  intros Hwf Hin. rewrite doomed_elem. split.
  - intros (qq & Hin' & Hg).
    pose proof (elem_get _ _ _ Hwf Hin). pose proof (elem_get _ _ _ Hwf Hin').
    congruence.
  - intros Hg. eauto.
Qed.

Lemma doomed_nil now st (items : list (string * QueueManager)) :
  (forall kv, kv ∈ items -> garbage_b now st kv.2 = false) ->
  doomed now st items = [].
Proof.
  intros Hnone. apply elem_of_nil_inv. intros k Hk.
  apply doomed_elem in Hk as (qq & Hin & Hg).
  pose proof (Hnone _ Hin) as Hfalse. cbn [snd] in Hfalse. congruence.
Qed.

(** The method in full, in a registry that holds 'default'. *)
Lemma prune_run (set_iter : list string -> list string) (now : Time)
    (st : State) (d : QueueManager) :
  set_order_ok set_iter ->
  OD.wf (queues st) ->
  OD.get "default" (queues st) = Some d ->
  queue_name d = "default" ->
  remove_empty_and_expired_queues set_iter now st
  = (Ok tt,
     mkState (filter (fun kv => garbage_b now st kv.2 = false) (queues st))
             (if bool_decide (queue_name (Q st) ∈ doomed now st (queues st))
              then d else Q st)
             (timed_queues_tonight st) (heap st)).
Proof.
  intros Hord Hwf Hd Hdname.
  destruct (Hord (doomed now st (queues st))) as [Hnd Hsame].
  unfold remove_empty_and_expired_queues, bind at 1, gets at 1.
  unfold bind at 1. rewrite prune_scan. cbn [app].
  rewrite (prune_delete_full d); try assumption.
  - f_equal. f_equal.
    + apply filter_iff_elem. intros [k q] Hin. cbn [fst snd].
      rewrite Hsame, (doomed_keys now st _ k q Hwf Hin).
      destruct (garbage_b now st q); split; congruence.
    + destruct (decide (queue_name (Q st) ∈ doomed now st (queues st)))
        as [Hin|Hnin].
      * rewrite !bool_decide_eq_true_2;
          [reflexivity | exact Hin | by apply Hsame].
      * rewrite !bool_decide_eq_false_2;
          [reflexivity | exact Hnin | by rewrite Hsame].
  - intros n Hn. apply Hsame, doomed_elem in Hn as (qq & Hin & _).
    apply (list_elem_of_fmap_2 fst) in Hin. exact Hin.
  - intros Hin. apply Hsame in Hin.
    apply (doomed_keys now st _ _ d Hwf (get_Some_elem _ _ _ Hd)) in Hin.
    apply garbage_b_spec in Hin as [Hname _].
    apply Hname. rewrite Hdname. apply elem_of_cons; auto.
Qed.

(** X17. Pruning keeps what it does not remove in place: in a registry
    whose key 'default' holds the queue named 'default',
    [remove_empty_and_expired_queues] leaves the queues it keeps in their
    old iteration order, leaves [timed_queues_tonight] and the tables as
    they were, moves the active pointer to 'default' when the entry under
    the name of the active queue is removed, and leaves it alone when that
    entry is kept. *)
Theorem prune_keeps_order_and_pointer (set_iter : list string -> list string)
    (time_now : Time) (st : State) (d : QueueManager) :
  set_order_ok set_iter ->
  OD.wf (queues st) ->
  OD.get "default" (queues st) = Some d ->
  queue_name d = "default" ->
  exists st',
    remove_empty_and_expired_queues set_iter time_now st = (Ok tt, st') /\
    queues st'
      = filter (fun kv => garbage_b time_now st kv.2 = false) (queues st) /\
    timed_queues_tonight st' = timed_queues_tonight st /\
    heap st' = heap st /\
    (forall qq, OD.get (queue_name (Q st)) (queues st) = Some qq ->
       garbage time_now st qq -> Q st' = d) /\
    (forall qq, OD.get (queue_name (Q st)) (queues st) = Some qq ->
       ~ garbage time_now st qq -> Q st' = Q st).
Proof.
  intros Hord Hwf Hd Hdname.
  rewrite (prune_run set_iter time_now st d) by assumption.
  eexists. split; [reflexivity|].
  cbn [queues Q timed_queues_tonight heap].
  do 3 (split; [reflexivity|]). split.
  - intros qq Hget Hg. rewrite bool_decide_eq_true_2; [reflexivity|].
    apply (doomed_keys _ _ _ _ qq Hwf (get_Some_elem _ _ _ Hget)).
    by apply garbage_b_spec.
  - intros qq Hget Hg. rewrite bool_decide_eq_false_2; [reflexivity|].
    intros Hin. apply Hg, garbage_b_spec.
    by apply (doomed_keys _ _ _ _ qq Hwf (get_Some_elem _ _ _ Hget)).
Qed.

Lemma prune_keeps_order_and_pointer_witness :
  exists st',
    remove_empty_and_expired_queues remove_dups Ex.now_too Ex.st_too_empty
      = (Ok tt, st') /\
    queues st' = [("default", Ex.q_default)] /\
    Q st' = Q Ex.st_too_empty.
Proof.
  destruct (prune_keeps_order_and_pointer remove_dups Ex.now_too
              Ex.st_too_empty Ex.q_default)
    as (st' & Hrun & Hq & _ & _ & _ & Hkeep).
  - exact remove_dups_order_ok.
  - apply wf_decide. vm_compute. reflexivity.
  - reflexivity.
  - reflexivity.
  - exists st'. split; [exact Hrun|]. split.
    + rewrite Hq. vm_compute. reflexivity.
    + apply (Hkeep Ex.q_default); [reflexivity|].
      intros [Hname _]. apply Hname. apply elem_of_cons; auto.
Defined.

(** The second loop when it returns: it has removed the entries of the
    names, and nothing else of the registry or of the tables. *)
Lemma prune_delete_returns names : forall st st',
  OD.wf (queues st) ->
  for_each names delete_queue st = (Ok tt, st') ->
  queues st' = filter (fun kv => kv.1 ∉ names) (queues st) /\
  heap st' = heap st.
Proof.
  induction names as [|n names IH]; intros st st' Hwf Hrun.
  - injection Hrun as <-. split; [|reflexivity].
    symmetry. apply filter_all. intros x _. apply not_elem_of_nil.
  - cbn [for_each] in Hrun. unfold bind at 1 in Hrun.
    rewrite delete_queue_run in Hrun.
    assert (Hfilter :
      filter (fun kv : string * QueueManager => kv.1 ∉ names)
             (OD.del n (queues st))
      = filter (fun kv => kv.1 ∉ n :: names) (queues st)).
    { rewrite del_filter, list_filter_filter by assumption.
      apply list_filter_iff. intros [k q]. cbn [fst].
      rewrite not_elem_of_cons. tauto. }
    destruct (OD.mem n (queues st)); [|discriminate].
    destruct (String.eqb (queue_name (Q st)) n).
    + destruct (OD.get "default" (queues st)) as [d|]; [|discriminate].
      apply IH in Hrun as [Hq Hh]; cbn [queues heap with_queues with_Q] in *;
        [|by apply wf_del].
      rewrite Hq, Hfilter. by split.
    + apply IH in Hrun as [Hq Hh]; cbn [queues heap with_queues] in *;
        [|by apply wf_del].
      rewrite Hq, Hfilter. by split.
Qed.

(** X18. Pruning twice is pruning once: after a call of
    [remove_empty_and_expired_queues] that returned, a second call at the
    same time returns and changes nothing; so two calls in a row do what
    one call does, also when the first one raises. *)
Theorem prune_twice_is_prune_once (set_iter : list string -> list string)
    (time_now : Time) (st : State) :
  set_order_ok set_iter ->
  OD.wf (queues st) ->
  (forall st',
     remove_empty_and_expired_queues set_iter time_now st = (Ok tt, st') ->
     remove_empty_and_expired_queues set_iter time_now st' = (Ok tt, st')) /\
  (do remove_empty_and_expired_queues set_iter time_now
   then remove_empty_and_expired_queues set_iter time_now) st
  = remove_empty_and_expired_queues set_iter time_now st.
Proof.
  intros Hord Hwf.
  assert (Hsecond : forall st',
    remove_empty_and_expired_queues set_iter time_now st = (Ok tt, st') ->
    remove_empty_and_expired_queues set_iter time_now st' = (Ok tt, st')).
  { intros st' Hrun.
    destruct (Hord (doomed time_now st (queues st))) as [_ Hsame].
    unfold remove_empty_and_expired_queues, bind at 1, gets at 1 in Hrun.
    unfold bind at 1 in Hrun. rewrite prune_scan in Hrun. cbn [app] in Hrun.
    apply prune_delete_returns in Hrun as [Hq Hh]; [|exact Hwf].
    unfold remove_empty_and_expired_queues, bind at 1, gets at 1.
    unfold bind at 1. rewrite prune_scan. cbn [app].
    assert (Hnil : doomed time_now st' (queues st') = []).
    { apply doomed_nil. intros [k q] Hin. cbn [snd].
      rewrite Hq in Hin. apply list_elem_of_filter in Hin as [Hk Hin].
      cbn [fst] in Hk. rewrite Hsame in Hk.
      assert (Hg : garbage_b time_now st' q = garbage_b time_now st q).
      { unfold garbage_b, queue_len. rewrite Hh. reflexivity. }
      rewrite Hg. destruct (garbage_b time_now st q) eqn:E; [|reflexivity].
      exfalso. apply Hk. by apply (doomed_keys _ _ _ _ q Hwf Hin). }
    rewrite Hnil.
    assert (Hempty : set_iter [] = []).
    { apply elem_of_nil_inv. intros x Hx.
      apply (proj2 (Hord [])) in Hx. by apply elem_of_nil in Hx. }
    rewrite Hempty. reflexivity. }
  split; [exact Hsecond|].
  unfold bind at 1.
  destruct (remove_empty_and_expired_queues set_iter time_now st)
    as [[[]|e] st'] eqn:Erun; [|reflexivity].
  by apply Hsecond.
Qed.

Lemma prune_twice_is_prune_once_witness :
  remove_empty_and_expired_queues remove_dups Ex.now_too
    (exec (remove_empty_and_expired_queues remove_dups Ex.now_too)
          Ex.st_too_empty)
  = (Ok tt,
     exec (remove_empty_and_expired_queues remove_dups Ex.now_too)
          Ex.st_too_empty) /\
  (do remove_empty_and_expired_queues remove_dups Ex.now_too
   then remove_empty_and_expired_queues remove_dups Ex.now_too)
    Ex.st_too_empty
  = remove_empty_and_expired_queues remove_dups Ex.now_too Ex.st_too_empty.
Proof.
  destruct (prune_twice_is_prune_once remove_dups Ex.now_too Ex.st_too_empty)
    as [Hsecond Htwice].
  - exact remove_dups_order_ok.
  - apply wf_decide. vm_compute. reflexivity.
  - split; [|exact Htwice]. apply Hsecond. reflexivity.
Defined.

(** The second loop in a registry without 'default': it stops at the name
    of the active queue. *)
Lemma prune_delete_raises names : forall st,
  NoDup names ->
  OD.wf (queues st) ->
  (forall n, n ∈ names -> n ∈ OD.keys (queues st)) ->
  OD.get "default" (queues st) = None ->
  queue_name (Q st) ∈ names ->
  exists st',
    for_each names delete_queue st = (Raise (not_available "default"), st') /\
    Q st' = Q st /\
    queue_name (Q st) ∈ OD.keys (queues st') /\
    (forall k, k ∈ OD.keys (queues st') -> k ∈ OD.keys (queues st)) /\
    timed_queues_tonight st' = timed_queues_tonight st /\
    heap st' = heap st.
Proof.
  induction names as [|n names IH]; intros st Hnd Hwf Hkeys Hd Hact.
  - by apply elem_of_nil in Hact.
  - apply list.NoDup_cons in Hnd as [Hn Hnd].
    assert (Hmem : OD.mem n (queues st) = true).
    { apply mem_keys, Hkeys, elem_of_cons; auto. }
    cbn [for_each]. unfold bind at 1. rewrite delete_queue_run, Hmem, Hd.
    destruct (String.eqb_spec (queue_name (Q st)) n) as [Heq|Hneq].
    + exists st. split; [reflexivity|]. split; [reflexivity|].
      split; [rewrite Heq; by apply mem_keys | auto].
    + apply elem_of_cons in Hact as [Heq|Hact]; [contradiction|].
      assert (Hne : n <> "default").
      { intros ->. apply mem_keys, keys_get_Some in Hmem as [v Hv].
        congruence. }
      destruct (IH (with_queues (OD.del n (queues st)) st))
        as (st' & Hrun & HQ & Hin & Hsub & Ht & Hh).
      * exact Hnd.
      * by apply wf_del.
      * intros k Hk. apply keys_del; [assumption|].
        split; [intros ->; contradiction|].
        apply Hkeys, elem_of_cons; auto.
      * cbn [queues with_queues]. rewrite get_del_ne by assumption. exact Hd.
      * exact Hact.
      * exists st'. split; [exact Hrun|]. split; [exact HQ|].
        split; [exact Hin|]. split; [|auto].
        intros k Hk. apply Hsub in Hk. cbn [queues with_queues] in Hk.
        by apply keys_del in Hk as [_ Hk].
Qed.

(** X19. Pruning needs 'default' when it has to remove the active queue:
    in a registry without 'default' in which the entry under the name of
    the active queue is to be removed, [remove_empty_and_expired_queues]
    raises the [ValueError] of [set_queue('default')]. The active queue
    stays active and registered, no queue is added, and
    [timed_queues_tonight] and the tables are untouched. *)
Theorem prune_without_default_raises (set_iter : list string -> list string)
    (time_now : Time) (st : State) (qq : QueueManager) :
  set_order_ok set_iter ->
  OD.wf (queues st) ->
  OD.get "default" (queues st) = None ->
  OD.get (queue_name (Q st)) (queues st) = Some qq ->
  garbage time_now st qq ->
  exists st',
    remove_empty_and_expired_queues set_iter time_now st
      = (Raise (not_available "default"), st') /\
    Q st' = Q st /\
    queue_name (Q st) ∈ OD.keys (queues st') /\
    (forall k, k ∈ OD.keys (queues st') -> k ∈ OD.keys (queues st)) /\
    timed_queues_tonight st' = timed_queues_tonight st /\
    heap st' = heap st.
Proof.
  intros Hord Hwf Hd Hget Hg.
  destruct (Hord (doomed time_now st (queues st))) as [Hnd Hsame].
  unfold remove_empty_and_expired_queues, bind at 1, gets at 1.
  unfold bind at 1. rewrite prune_scan. cbn [app].
  apply prune_delete_raises; try assumption.
  - intros n Hn. apply Hsame, doomed_elem in Hn as (q & Hin & _).
    apply (list_elem_of_fmap_2 fst) in Hin. exact Hin.
  - apply Hsame.
    apply (doomed_keys _ _ _ _ qq Hwf (get_Some_elem _ _ _ Hget)).
    by apply garbage_b_spec.
Qed.

Lemma prune_without_default_raises_witness :
  exists st',
    remove_empty_and_expired_queues remove_dups Ex.now_too Ex2.st_no_default
      = (Raise (not_available "default"), st') /\
    Q st' = Ex.q_too_empty.
Proof.
  destruct (prune_without_default_raises remove_dups Ex.now_too
              Ex2.st_no_default Ex.q_too_empty)
    as (st' & Hrun & HQ & _).
  - exact remove_dups_order_ok.
  - apply wf_decide. vm_compute. reflexivity.
  - reflexivity.
  - reflexivity.
  - apply garbage_b_spec. vm_compute. reflexivity.
  - exists st'. split; [exact Hrun | exact HQ].
Defined.

(** ** More on [count_timed_observations_tonight] *)

(** X13. The nightly bookkeeping composes: right after
    [find_excluded_blocks_tonight], [count_timed_observations_tonight]
    finds every queue it looks up, so that in a registry whose tables hold
    requests of known programs only, with counts that [astype(int)] can
    convert, the two calls in a row return, the second with the tally of
    the queues the first has listed, in the arithmetic of numpy, whatever
    it is. *)
Theorem tally_after_find_excluded_blocks (fl : Float64)
    (block_index : Time -> Z) (PROGRAM_IDS : list Z)
    (EXPOSURE_TIME READOUT_TIME : Qc) (time_now : Time) (st : State) :
  (forall k q, (k, q) ∈ queues st ->
     (queue q < length (heap st))%nat /\
     forall r, r ∈ rows (deref (heap st) (queue q)) ->
       program_id r ∈ PROGRAM_IDS /\
       is_Some (astype_int fl
                  (rounded_obs fl EXPOSURE_TIME READOUT_TIME
                     (deref (heap st) (queue q)) (program_id r)))) ->
  exists blocks timed_obs st',
    (let* blocks := find_excluded_blocks_tonight block_index time_now in
     let* timed_obs :=
       count_timed_observations_tonight fl PROGRAM_IDS EXPOSURE_TIME
                                        READOUT_TIME in
     ret (blocks, timed_obs)) st
    = (Ok (blocks, timed_obs), st') /\
    forall p, p ∈ PROGRAM_IDS ->
      timed_obs !! p
      = Some (tally fl EXPOSURE_TIME READOUT_TIME
                (exec (find_excluded_blocks_tonight block_index time_now) st)
                p).
Proof.
  intros Hreg. unfold exec, bind at 1. rewrite find_excluded_run. cbn [snd].
  destruct (count_run_countable fl PROGRAM_IDS EXPOSURE_TIME READOUT_TIME
              (with_timed (flat_map (tonight_of block_index time_now)
                                    (queues st)) st))
    as (timed_obs & st' & Hrun & Hin & _).
  { intros qq Hqq. cbn [timed_queues_tonight with_timed] in Hqq.
    apply tonight_keys in Hqq.
    destruct (keys_get_Some _ _ Hqq) as [q Hget].
    exists q. split; [exact Hget|].
    destruct (Hreg _ _ (get_Some_elem _ _ _ Hget)) as [Hlt Hrows].
    split; [exact Hlt|]. intros r Hr. by apply Hrows. }
  { intros qq r Hqq. cbn [timed_queues_tonight with_timed] in Hqq.
    apply tonight_keys in Hqq.
    destruct (keys_get_Some _ _ Hqq) as [q Hget].
    unfold pending. cbn [queues heap with_timed]. rewrite Hget.
    intros Hr.
    destruct (Hreg _ _ (get_Some_elem _ _ _ Hget)) as [_ Hrows].
    by apply Hrows. }
  exists (flat_map (excluded_of block_index time_now) (queues st)),
         timed_obs, st'.
  split; [|exact Hin].
  unfold bind at 1. rewrite Hrun. reflexivity.
Qed.

Lemma tally_after_find_excluded_blocks_witness :
  exists blocks timed_obs st',
    (let* blocks := find_excluded_blocks_tonight Ex.block20 Ex.now_too in
     let* timed_obs :=
       count_timed_observations_tonight Ex.exact Ex.programs Ex.exposure
                                        Ex.readout in
     ret (blocks, timed_obs)) Ex.st_four
    = (Ok (blocks, timed_obs), st').
Proof.
  destruct (tally_after_find_excluded_blocks Ex.exact Ex.block20 Ex.programs
              Ex.exposure Ex.readout Ex.now_too Ex.st_four)
    as (blocks & timed_obs & st' & Hrun & _).
  - intros k q Hin.
    repeat (apply elem_of_cons in Hin as [Hin|Hin];
            [injection Hin as -> ->|]);
      [| |by apply elem_of_nil in Hin].
    + split; [cbn; lia|]. intros r Hr. cbn in Hr. by apply elem_of_nil in Hr.
    + split; [cbn; lia|]. intros r Hr. cbn in Hr.
      repeat (apply elem_of_cons in Hr as [->|Hr];
              [split; [apply elem_decide; vm_compute; reflexivity
                      | eexists; reflexivity]|]).
      by apply elem_of_nil in Hr.
  - exists blocks, timed_obs, st'. exact Hrun.
Defined.

(** *** A request of an unknown program *)

Lemma add_counts_missing l : forall (acc : gmap Z Z) k v,
  (k, v) ∈ l -> acc !! k = None ->
  exists e, add_counts l acc = Raise e.
Proof.
  induction l as [|[k' v'] l IH]; intros acc k v Hin Hnone.
  - by apply elem_of_nil in Hin.
  - cbn [add_counts]. destruct (acc !! k') as [old|] eqn:E; [|eauto].
    apply elem_of_cons in Hin as [Heq|Hin]; [congruence|].
    apply (IH _ k v Hin). rewrite lookup_insert_ne; [assumption|].
    intros ->. congruence.
Qed.

Lemma add_counts_dom l : forall (acc acc' : gmap Z Z),
  add_counts l acc = Ok acc' ->
  forall p, acc !! p = None -> acc' !! p = None.
Proof.
  induction l as [|[k v] l IH]; intros acc acc' Hrun p Hp.
  - injection Hrun as <-. exact Hp.
  - cbn [add_counts] in Hrun.
    destruct (acc !! k) as [old|] eqn:E; [|discriminate].
    apply (IH _ _ Hrun). rewrite lookup_insert_ne; [exact Hp|].
    intros ->. congruence.
Qed.

Lemma count_loop_unknown_program (fl : Float64)
    (EXPOSURE_TIME READOUT_TIME : Qc) (PROGRAM_IDS : list Z) (st0 : State) (qq : string) (q : QueueManager)
    (r : Row) timed : forall acc st,
  queues st = queues st0 ->
  (exists ext, heap st = heap st0 ++ ext) ->
  (forall p, p ∉ PROGRAM_IDS -> acc !! p = None) ->
  qq ∈ timed ->
  OD.get qq (queues st0) = Some q ->
  (queue q < length (heap st0))%nat ->
  r ∈ rows (deref (heap st0) (queue q)) ->
  program_id r ∉ PROGRAM_IDS ->
  exists e st',
    for_fold timed acc (count_queue fl EXPOSURE_TIME READOUT_TIME) st
    = (Raise e, st').
Proof.
  induction timed as [|qq0 timed IH];
    intros acc st Hqs [ext Hh] Hdom Hin Hget Hlt Hr Hp.
  - by apply elem_of_nil in Hin.
  - cbn [for_fold]. unfold bind at 1. rewrite count_queue_run, Hqs.
    destruct (OD.get qq0 (queues st0)) as [q0|] eqn:Eget; [|eauto].
    destruct (add_table
                (counts_of fl EXPOSURE_TIME READOUT_TIME
                   (deref (heap st) (queue q0))) acc)
      as [acc1|e] eqn:Eadd; [|eauto].
    unfold add_table in Eadd.
    destruct (counts_of fl EXPOSURE_TIME READOUT_TIME
                (deref (heap st) (queue q0))) as [l|] eqn:El;
      [|discriminate].
    destruct (decide (qq0 = qq)) as [->|Hne].
    + exfalso. rewrite Hget in Eget. injection Eget as <-.
      rewrite Hh, deref_app in El by assumption.
      destruct (counts_of_has_key _ _ _ _ _ _ El Hr) as [v Hv].
      destruct (add_counts_missing _ acc _ _ Hv (Hdom _ Hp)) as [e He].
      congruence.
    + apply elem_of_cons in Hin as [->|Hin]; [contradiction|].
      apply IH; try assumption.
      * eexists. cbn [heap with_heap]. rewrite Hh, <- app_assoc.
        reflexivity.
      * intros p Hp'. eapply add_counts_dom; [exact Eadd | by apply Hdom].
Qed.

(** X15. The tally knows the programs of [PROGRAM_IDS] only: when a queue
    named in [timed_queues_tonight] holds a request of another program,
    [count_timed_observations_tonight] raises and returns no tally. *)
Theorem unknown_program_stops_the_tally (fl : Float64)
    (PROGRAM_IDS : list Z) (EXPOSURE_TIME READOUT_TIME : Qc) (st : State) (qq : string)
    (q : QueueManager) (r : Row) :
  qq ∈ timed_queues_tonight st ->
  OD.get qq (queues st) = Some q ->
  (queue q < length (heap st))%nat ->
  r ∈ rows (deref (heap st) (queue q)) ->
  program_id r ∉ PROGRAM_IDS ->
  exists e st',
    count_timed_observations_tonight fl PROGRAM_IDS EXPOSURE_TIME READOUT_TIME
                                     st
    = (Raise e, st').
Proof.
  intros Hin Hget Hlt Hr Hp.
  unfold count_timed_observations_tonight, bind at 1, gets at 1.
  destruct (timed_queues_tonight st) as [|qq0 timed] eqn:Et;
    [by apply elem_of_nil in Hin|].
  cbn [length Nat.eqb].
  apply (count_loop_unknown_program fl EXPOSURE_TIME READOUT_TIME
           PROGRAM_IDS st qq q r); try assumption.
  - reflexivity.
  - exists []. by rewrite app_nil_r.
  - intros p Hp'. rewrite zeros_lookup, decide_False by assumption.
    reflexivity.
Qed.

Lemma unknown_program_stops_the_tally_witness :
  exists e st',
    count_timed_observations_tonight Ex.exact Ex.programs Ex.exposure
                                     Ex.readout Ex.st_program0
    = (Raise e, st').
Proof.
  apply (unknown_program_stops_the_tally Ex.exact Ex.programs Ex.exposure
           Ex.readout Ex.st_program0 "timed" Ex.q_timed
           (mkRow 1 0 (Q2Qc 30) (Q2Qc 1) (Q2Qc 0))).
  - apply elem_of_cons; auto.
  - reflexivity.
  - cbn. lia.
  - apply elem_of_cons; auto.
  - apply not_elem_decide. vm_compute. reflexivity.
Defined.

(** X16. [delete_queue] does not touch [timed_queues_tonight]: after a
    queue named in the list has been deleted, the list still names it and
    [count_timed_observations_tonight] raises, until
    [find_excluded_blocks_tonight] has run again. *)
Theorem tally_after_delete_raises (fl : Float64) (PROGRAM_IDS : list Z)
    (EXPOSURE_TIME READOUT_TIME : Qc) (st st' : State) (name : string) :
  OD.wf (queues st) ->
  name ∈ timed_queues_tonight st ->
  delete_queue name st = (Ok tt, st') ->
  name ∈ timed_queues_tonight st' /\
  exists e st'',
    count_timed_observations_tonight fl PROGRAM_IDS EXPOSURE_TIME READOUT_TIME
                                     st'
    = (Raise e, st'').
Proof.
  intros Hwf Hin Hrun.
  assert (Hst' : timed_queues_tonight st' = timed_queues_tonight st /\
                 OD.get name (queues st') = None).
  { rewrite delete_queue_run in Hrun.
    destruct (OD.mem name (queues st)); [|discriminate].
    destruct (String.eqb (queue_name (Q st)) name).
    - destruct (OD.get "default" (queues st)); [|discriminate].
      injection Hrun as <-. split; [reflexivity | by apply get_del_eq].
    - injection Hrun as <-. split; [reflexivity | by apply get_del_eq]. }
  destruct Hst' as [Ht Hgone]. rewrite Ht. split; [exact Hin|].
  apply (count_raises_on_unregistered _ _ _ _ _ name); [|exact Hgone].
  by rewrite Ht.
Qed.

Lemma tally_after_delete_raises_witness :
  "timed" ∈ timed_queues_tonight Ex.st_stale /\
  exists e st'',
    count_timed_observations_tonight Ex.exact Ex.programs Ex.exposure
                                     Ex.readout Ex.st_stale
    = (Raise e, st'').
Proof.
  apply (tally_after_delete_raises Ex.exact Ex.programs Ex.exposure
           Ex.readout Ex.st_four Ex.st_stale "timed").
  - apply wf_decide. vm_compute. reflexivity.
  - apply elem_of_cons; auto.
  - reflexivity.
Defined.

(** ** More on the observing loop *)

Section PassFacts.
Import Observe.
Context {Tel SD QM Prev Store : Type}.
Context `{Telescope Tel SD} `{Requests QM SD} `{Pointings Prev Store SD}.

(** The four ways through the body of the loop. *)
Lemma pass_cases (w : World Tel QM Prev Store) :
  (exists tel1,
     check_if_ready (tel w) = (false, tel1) /\
     observe_step w
     = mkWorld (wait (set_cant_observe tel1)) (Qm w) (log w)
               (calls w ++ [CheckIfReady; SetCantObserve; Wait])) \/
  (exists tel1 next Q1 tel2,
     check_if_ready (tel w) = (true, tel1) /\
     next_obs (current_state_dict tel1) (Qm w) = (next, Q1) /\
     start_slew (target_ra next, target_dec next) tel1 = (false, tel2) /\
     observe_step w
     = mkWorld (wait (set_cant_observe tel2)) Q1
               (mkLogger None (store (log w)))
               (calls w ++
                [CheckIfReady; CurrentStateDict; NextObsOf;
                 StartSlew (target_ra next, target_dec next);
                 SetCantObserve; ClearPrevObs; Wait])) \/
  (exists tel1 next Q1 tel2 tel3,
     check_if_ready (tel w) = (true, tel1) /\
     next_obs (current_state_dict tel1) (Qm w) = (next, Q1) /\
     start_slew (target_ra next, target_dec next) tel1 = (true, tel2) /\
     start_exposing tel2 = (false, tel3) /\
     observe_step w
     = mkWorld (wait (set_cant_observe tel3)) Q1
               (mkLogger None (store (log w)))
               (calls w ++
                [CheckIfReady; CurrentStateDict; NextObsOf;
                 StartSlew (target_ra next, target_dec next); StartExposing;
                 SetCantObserve; ClearPrevObs; Wait])) \/
  (exists tel1 next Q1 tel2 tel3,
     check_if_ready (tel w) = (true, tel1) /\
     next_obs (current_state_dict tel1) (Qm w) = (next, Q1) /\
     start_slew (target_ra next, target_dec next) tel1 = (true, tel2) /\
     start_exposing tel2 = (true, tel3) /\
     observe_step w
     = mkWorld tel3 (remove_requests (request_id next) Q1)
               (log_pointing (current_state_dict tel3) next (log w))
               (calls w ++
                [CheckIfReady; CurrentStateDict; NextObsOf;
                 StartSlew (target_ra next, target_dec next); StartExposing;
                 CurrentStateDict; LogPointing next;
                 RemoveRequests (request_id next)])).
Proof.
  unfold observe_step.
  destruct (check_if_ready (tel w)) as [ready tel1] eqn:Eready.
  destruct ready.
  2:{ left. exists tel1. split; [reflexivity|].
      rewrite <- app_assoc. reflexivity. }
  destruct (next_obs (current_state_dict tel1) (Qm w)) as [next Q1] eqn:Enext.
  destruct (start_slew (target_ra next, target_dec next) tel1)
    as [slewed tel2] eqn:Eslew.
  destruct slewed; cbn [negb].
  2:{ right; left. exists tel1, next, Q1, tel2.
      do 3 (split; [first [reflexivity | assumption]|]).
      rewrite <- !app_assoc. reflexivity. }
  destruct (start_exposing tel2) as [exposed tel3] eqn:Eexp.
  destruct exposed; cbn [negb].
  - right; right; right. exists tel1, next, Q1, tel2, tel3.
    do 4 (split; [first [reflexivity | assumption]|]).
    rewrite <- !app_assoc. reflexivity.
  - right; right; left. exists tel1, next, Q1, tel2, tel3.
    do 4 (split; [first [reflexivity | assumption]|]).
    rewrite <- !app_assoc. reflexivity.
Qed.



Lemma well_paired_app_bounded (n : nat) : forall l1 l2 : list call,
  (length l1 <= n)%nat ->
  well_paired l1 = true -> well_paired l2 = true ->
  well_paired (l1 ++ l2) = true.
Proof.
  induction n as [|n IH]; intros l1 l2 Hlen Hl1 Hl2.
  - destruct l1; [exact Hl2 | cbn in Hlen; lia].
  - destruct l1 as [|c l1]; [exact Hl2|].
    cbn [length] in Hlen.
    destruct c; cbn [well_paired app] in *;
      try (apply IH; [lia | assumption | assumption]).
    + destruct l1 as [|c' l1]; [discriminate|].
      destruct c'; try discriminate.
      cbn [app]. apply andb_true_iff in Hl1 as [Hid Hl1].
      rewrite Hid. cbn [andb]. apply IH; [cbn [length] in Hlen; lia | |];
        assumption.
    + discriminate.
Qed.

Lemma well_paired_app (l1 l2 : list call) :
  well_paired l1 = true -> well_paired l2 = true ->
  well_paired (l1 ++ l2) = true.
Proof. apply (well_paired_app_bounded (length l1)). lia. Qed.

Lemma well_paired_step (w : World Tel QM Prev Store) :
  well_paired (calls w) = true -> well_paired (calls (observe_step w)) = true.
Proof.
  intros Hw.
  destruct (pass_cases w)
    as [(tel1 & _ & Hstep)
       | [(tel1 & next & Q1 & tel2 & _ & _ & _ & Hstep)
       | [(tel1 & next & Q1 & tel2 & tel3 & _ & _ & _ & _ & Hstep)
         | (tel1 & next & Q1 & tel2 & tel3 & _ & _ & _ & _ & Hstep)]]];
    rewrite Hstep; cbn [calls]; apply well_paired_app; try assumption;
    try reflexivity.
  cbn [well_paired]. rewrite Z.eqb_refl. reflexivity.
Qed.

(** X21. Log and queue are kept in step through the whole loop: if, in
    the calls made before the loop, every [log_pointing] is followed at
    once by the [remove_requests] of the request it logged and no request
    is removed otherwise, the same holds for the calls made when the loop
    has run, for any number of passes. The loop never removes a request it
    has not just logged. *)
Theorem loop_removes_what_it_logs (fuel : nat) (stop : Time)
    (w : World Tel QM Prev Store) :
  well_paired (calls w) = true ->
  well_paired (calls (observe_loop fuel stop w)) = true.
Proof.
  revert w. induction fuel as [|fuel IH]; intros w Hw; [exact Hw|].
  cbn [observe_loop].
  destruct (bool_decide (current_time (tel w) < stop)%Qc); [|exact Hw].
  apply IH. by apply well_paired_step.
Qed.

End PassFacts.

Lemma loop_removes_what_it_logs_witness :
  well_paired (Observe.calls
                 (Observe.observe_loop 2 (Q2Qc 58120) Ex2.w_observes))
  = true /\
  Ex2.logged (Observe.calls
                (Observe.observe_loop 2 (Q2Qc 58120) Ex2.w_observes))
  = [ObsEx.request7; Ex2.request9; Ex2.request11] /\
  Ex2.removed (Observe.calls
                 (Observe.observe_loop 2 (Q2Qc 58120) Ex2.w_observes))
  = [7; 9; 11].
Proof.
  split.
  - apply (loop_removes_what_it_logs 2 (Q2Qc 58120) Ex2.w_observes).
    reflexivity.
  - split; vm_compute; reflexivity.
Defined.

(** ** The invariant of the registry *)

Lemma wf_filter {V} (P : string * V -> Prop) `{!forall x, Decision (P x)}
    (d : list (string * V)) :
  OD.wf d -> OD.wf (filter P d).
Proof.
  unfold OD.wf, OD.keys. induction d as [|[k v] d IH]; intros Hnd;
    [assumption|].
  cbn [fmap list_fmap fst] in Hnd.
  apply list.NoDup_cons in Hnd as [Hk Hnd].
  rewrite filter_cons. destruct (decide (P (k, v))); [|by apply IH].
  cbn [fmap list_fmap fst]. apply list.NoDup_cons. split; [|by apply IH].
  intros Hin. apply Hk.
  apply list_elem_of_fmap in Hin as ([k' v'] & Hk' & Hin).
  cbn [fst] in Hk'. subst k'.
  apply list_elem_of_filter in Hin as [_ Hin].
  apply (list_elem_of_fmap_2 fst) in Hin. exact Hin.
Qed.

Lemma inv_with_Q st k q :
  registry_ok st -> (k, q) ∈ queues st -> registry_inv (with_Q q st).
Proof.
  intros [Hwf Hk Hd _] Hin.
  assert (Hget : OD.get (queue_name q) (queues st) = Some q).
  { rewrite (Hk _ _ Hin). by apply elem_get. }
  split; [split|]; cbn [queues Q with_Q]; try assumption.
  unfold active_name_registered. cbn [queues Q with_Q].
  eapply get_Some_keys, Hget.
Qed.

Lemma inv_same_registry st st' :
  queues st' = queues st -> Q st' = Q st ->
  registry_inv st -> registry_inv st'.
Proof.
  intros Hq HQ [[Hwf Hk Hd Ha] He].
  unfold registry_inv, active_is_entry, active_name_registered in *.
  split; [split|]; unfold active_name_registered; rewrite ?Hq, ?HQ;
    assumption.
Qed.

Lemma timed_winner_cases now st items cur :
  timed_winner now st items cur = cur \/
  exists k, (k, timed_winner now st items cur) ∈ items.
Proof.
  unfold timed_winner. revert cur.
  induction items as [|[k q] items IH]; intros cur; [by left|].
  cbn [fold_left snd].
  destruct (IH (if eligible now st q then q else cur)) as [Heq|[k' Hin]].
  - rewrite Heq. destruct (eligible now st q); [|by left].
    right. exists k. apply elem_of_cons; auto.
  - right. exists k'. apply elem_of_cons; auto.
Qed.

(** What [check_for_timed_queue_and_switch] can leave. *)
Lemma timed_switch_result now st :
  OD.wf (queues st) ->
  exists res q,
    check_for_timed_queue_and_switch now st = (res, with_Q q st) /\
    (q = Q st \/ exists k, (k, q) ∈ queues st).
Proof.
  intros Hwf.
  unfold check_for_timed_queue_and_switch, bind at 1, gets at 1.
  unfold bind at 1.
  assert (Hscan : forall st1 : State,
    queues st1 = queues st ->
    exists q,
      (let* active := gets Q in
       if bool_decide (queue_name active ∈ ["default"; "fallback"]) then
         let* items := gets queues in
         for_each items (fun '(qq_name, qq) =>
           if match validity_window qq with Some _ => true | None => false end
              && is_valid qq now
           then
             if String.eqb (queue_type qq) "list" then
               let* n := gets (fun st => queue_len st qq) in
               if negb (Nat.eqb n 0) then set_queue qq_name else ret tt
             else
               if requests_in_window qq then set_queue qq_name else ret tt
           else ret tt)
       else ret tt) st1
      = (Ok tt, with_Q q st1) /\
      (q = Q st1 \/ exists k, (k, q) ∈ queues st)).
  { intros st1 Hq1.
    destruct (bool_decide (queue_name (Q st1) ∈ ["default"; "fallback"]))
      eqn:Ename.
    - rewrite timed_scan by (rewrite ?Hq1; assumption).
      eexists. split; [reflexivity|].
      rewrite <- Hq1. apply timed_winner_cases.
    - exists (Q st1). unfold bind at 1, gets at 1. rewrite Ename.
      unfold ret. rewrite with_Q_same. auto. }
  destruct (negb (String.eqb (queue_name (Q st)) "default")
            && negb (is_valid (Q st) now)) eqn:Efall.
  - apply andb_true_iff in Efall as [-> ->].
    rewrite set_queue_run.
    destruct (OD.get "default" (queues st)) as [d|] eqn:Ed.
    + destruct (Hscan (with_Q d st) eq_refl) as (q & Hrun & Hq).
      exists (Ok tt), q. split; [exact Hrun|].
      destruct Hq as [->|Hq]; [|auto].
      right. exists "default". cbn [Q with_Q]. by apply get_Some_elem.
    + exists (Raise (not_available "default")), (Q st).
      rewrite with_Q_same. auto.
  - assert (Hfirst :
      (if negb (String.eqb (queue_name (Q st)) "default")
       then if negb (is_valid (Q st) now)
            then set_queue "default" else ret tt
       else ret tt) st = (Ok tt, st)).
    { destruct (negb (String.eqb (queue_name (Q st)) "default"));
        [|reflexivity].
      cbn [andb] in Efall. rewrite Efall. reflexivity. }
    rewrite Hfirst. destruct (Hscan st eq_refl) as (q & Hrun & Hq).
    exists (Ok tt), q. split; [exact Hrun | exact Hq].
Qed.

(** X23. The maintenance methods keep the invariant of the registry. In
    a registry keyed by the names of its queues, with 'default' registered
    and the active queue registered under its name, each of
    [find_excluded_blocks_tonight], [count_timed_observations_tonight],
    [check_for_TOO_queue_and_switch], [check_for_timed_queue_and_switch]
    and [remove_empty_and_expired_queues] leaves such a registry, whether
    it returns or raises. *)
Theorem maintenance_keeps_registry_invariant
    (fl : Float64) (block_index : Time -> Z) (PROGRAM_IDS : list Z)
    (EXPOSURE_TIME READOUT_TIME : Qc)
    (set_iter : list string -> list string) (time_now : Time) (st : State) :
  set_order_ok set_iter ->
  registry_inv st ->
  registry_inv (exec (find_excluded_blocks_tonight block_index time_now) st) /\
  registry_inv (exec (count_timed_observations_tonight
                        fl PROGRAM_IDS EXPOSURE_TIME READOUT_TIME) st) /\
  registry_inv (exec (check_for_TOO_queue_and_switch time_now) st) /\
  registry_inv (exec (check_for_timed_queue_and_switch time_now) st) /\
  registry_inv (exec (remove_empty_and_expired_queues set_iter time_now) st).
Proof.
  intros Hord Hinv. pose proof Hinv as [[Hwf Hk Hd Ha] He].
  split; [|split; [|split; [|split]]].
  - unfold exec. rewrite find_excluded_run. cbn [snd].
    by apply (inv_same_registry st).
  - unfold exec.
    destruct (count_timed_observations_tonight
                fl PROGRAM_IDS EXPOSURE_TIME READOUT_TIME st)
      as [res st'] eqn:Erun.
    cbn [snd].
    unfold count_timed_observations_tonight, bind at 1, gets at 1 in Erun.
    destruct (Nat.eqb (length (timed_queues_tonight st)) 0).
    + injection Erun as _ <-. exact Hinv.
    + apply count_loop_frame in Erun as (Hq & HQ & _).
      by apply (inv_same_registry st).
  - unfold exec.
    change (check_for_TOO_queue_and_switch time_now st)
      with (for_each (queues st) (fun '(qq_name, qq) =>
              if is_TOO qq then
                if is_valid qq time_now then
                  let* active := gets Q in
                  let* n := gets (fun st => queue_len st qq) in
                  if negb (is_TOO active) && negb (Nat.eqb n 0)
                  then set_queue qq_name
                  else ret tt
                else ret tt
              else ret tt) st).
    rewrite (too_loop time_now (queues st) st
               (fun k q Hin => elem_get _ _ _ Hwf Hin)).
    cbn [snd]. destruct (is_TOO (Q st)); [exact Hinv|].
    destruct (List.find (fun kv => too_ready time_now st kv.2) (queues st))
      as [[k q]|] eqn:Efind; [|exact Hinv].
    apply find_some in Efind as [Hin _]. apply list_elem_of_In in Hin.
    by apply (inv_with_Q st k q).
  - unfold exec.
    destruct (timed_switch_result time_now st Hwf)
      as (res & q & -> & [->|[k Hin]]); cbn [snd].
    + by rewrite with_Q_same.
    + by apply (inv_with_Q st k q).
  - destruct (keys_get_Some _ _ Hd) as [d Hget].
    assert (Hdname : queue_name d = "default")
      by exact (Hk _ _ (get_Some_elem _ _ _ Hget)).
    unfold exec. rewrite (prune_run set_iter time_now st d) by assumption.
    cbn [snd].
    set (kept := filter (fun kv => garbage_b time_now st kv.2 = false)
                        (queues st)).
    assert (Hkwf : OD.wf kept) by by apply wf_filter.
    assert (Hkd : ("default", d) ∈ kept).
    { apply list_elem_of_filter. split; [|by apply get_Some_elem].
      cbn [snd]. destruct (garbage_b time_now st d) eqn:Eg; [|reflexivity].
      apply garbage_b_spec in Eg as [Hname _]. exfalso. apply Hname.
      rewrite Hdname. apply elem_of_cons; auto. }
    assert (Hkk : keyed kept).
    { intros k q Hin. apply list_elem_of_filter in Hin as [_ Hin]. auto. }
    assert (Hentry :
      OD.get (queue_name
                (if bool_decide (queue_name (Q st)
                                 ∈ doomed time_now st (queues st))
                 then d else Q st)) kept
      = Some (if bool_decide (queue_name (Q st)
                              ∈ doomed time_now st (queues st))
              then d else Q st)).
    { destruct (bool_decide (queue_name (Q st)
                             ∈ doomed time_now st (queues st))) eqn:Edoomed.
      - rewrite Hdname. by apply elem_get.
      - apply elem_get; [assumption|].
        apply list_elem_of_filter. split; [|by apply get_Some_elem].
        cbn [snd].
        destruct (garbage_b time_now st (Q st)) eqn:Eg; [|reflexivity].
        apply bool_decide_eq_false in Edoomed. exfalso. apply Edoomed.
        by apply (doomed_keys _ _ _ _ (Q st) Hwf (get_Some_elem _ _ _ He)). }
    split; [split|]; cbn [queues Q]; try assumption.
    + apply (list_elem_of_fmap_2 fst) in Hkd. exact Hkd.
    + unfold active_name_registered. cbn [queues Q].
      eapply get_Some_keys, Hentry.
Qed.

Lemma maintenance_keeps_registry_invariant_witness :
  registry_inv (exec (check_for_timed_queue_and_switch Ex.now_too)
                     Ex2.st_two) /\
  registry_inv (exec (remove_empty_and_expired_queues remove_dups Ex.now_too)
                     Ex2.st_two).
Proof.
  destruct (maintenance_keeps_registry_invariant Ex.exact Ex.block20
              Ex.programs Ex.exposure Ex.readout remove_dups Ex.now_too
              Ex2.st_two)
    as (_ & _ & _ & Htimed & Hprune).
  - exact remove_dups_order_ok.
  - split; [split|].
    + apply wf_decide. vm_compute. reflexivity.
    + apply keyed_b_sound. vm_compute. reflexivity.
    + apply elem_decide. vm_compute. reflexivity.
    + apply elem_decide. vm_compute. reflexivity.
    + reflexivity.
  - split; assumption.
Defined.

(** X24. The constructor: given the queues built from the configuration,
    the registry part of [Scheduler.__init__] raises the [ValueError] of
    [set_queue] when no queue is registered as 'default'; otherwise it
    returns with that queue active, whatever stood in for the attribute
    [Q] before, with an empty [timed_queues_tonight], and, for queues
    built under their own names with distinct keys, in a state that has
    the invariant of the registry. *)
Theorem constructor_sets_default_active
    (built : list (string * QueueManager)) (frames : list DataFrame)
    (unset : QueueManager) :
  (OD.get "default" built = None ->
   (init_registry built frames unset).1 = Raise (not_available "default")) /\
  (forall d, OD.get "default" built = Some d ->
     init_registry built frames unset
       = (Ok tt, mkState built d [] frames) /\
     registered (mkState built d [] frames) d /\
     (OD.wf built -> keyed built ->
      registry_inv (mkState built d [] frames))).
Proof.
  unfold init_registry. rewrite set_queue_run. cbn [queues].
  split.
  - intros ->. reflexivity.
  - intros d Hd. rewrite Hd. split; [reflexivity|].
    pose proof (get_Some_elem _ _ _ Hd) as Hin. split.
    + apply (list_elem_of_fmap_2 snd) in Hin. exact Hin.
    + intros Hwf Hk.
      assert (Hname : queue_name d = "default") by exact (Hk _ _ Hin).
      split; [split|]; cbn [queues Q]; try assumption.
      * eapply get_Some_keys, Hd.
      * unfold active_name_registered. cbn [queues Q]. rewrite Hname.
        eapply get_Some_keys, Hd.
      * unfold active_is_entry. cbn [queues Q]. by rewrite Hname.
Qed.

Lemma constructor_sets_default_active_witness :
  init_registry [("default", Ex.q_default); ("too", Ex.q_too)]
                [empty_frame] Ex.q_too
  = (Ok tt, mkState [("default", Ex.q_default); ("too", Ex.q_too)]
                    Ex.q_default [] [empty_frame]).
Proof.
  apply (proj2 (constructor_sets_default_active
                  [("default", Ex.q_default); ("too", Ex.q_too)]
                  [empty_frame] Ex.q_too) Ex.q_default).
  reflexivity.
Defined.
